(** * Steam game data collector: the completion-and-gating pipeline

    A shallow embedding of [Data preprocessing/data_cleaner.py]
    (class [SteamDataCleaner]) and of the training harness
    [Data preprocessing/train_ml_model.py] (class [PlayerCountPredictor]),
    with the properties of the design document proved or refuted on it.

    Conventions of the embedding.
    - A data-frame row and every Python [dict] is a [gmap string Value].
    - A cell is [None], an integer, a binary64 float or a text.  Floats are
      the IEEE-754 binary64 numbers of [SpecFloat], with the correctly
      rounded operations of that library.
    - Text is a byte string (UTF-8).  White space, letter case and decimal
      digits are the ASCII ones: what Python's [str.strip], [str.lower],
      [float] and [\d] do on characters outside ASCII is not modelled.
    - An exception is a value [Raise e] of the result type [Res].
    - The network, the clock and the fitted regressors are inputs: the
      decoded answers of the three providers ([World]), the current year and
      one prediction function per model.
    - An assignment [df.at[idx, col] = value] stores the value or raises,
      as the dtype of the column and the version of pandas have it (the
      repository pins none): which of the two is an input ([Dtypes]).
    - What [pd.to_numeric] reads in a text is an input ([ReadText]), and so
      is [train_model], the fitting done by scikit-learn ([Fit]), which may
      raise.
    - The retries of the store request are modelled over what each attempt
      comes to ([StoreReply]), with the requests sent and the seconds slept
      as part of the result; the charts page over the cells of its table
      rows ([Td]); the directory of the scripts as a map from file names to
      files ([StoredFile]), a model file being read back as the entry that
      was written. *)

From Stdlib Require Import ZArith String Ascii List Bool Lia DecimalString.
From Stdlib Require Import Floats.SpecFloat.
From stdpp Require Import base option list gmap strings.

Local Open Scope string_scope.
Local Open Scope Z_scope.

(* ===================================================================== *)
(** * Python values, exceptions and built-ins                             *)
(* ===================================================================== *)

Module Py.

(** ** Exceptions *)

Inductive Exn :=
  | ValueError | TypeError | OverflowError | ZeroDivisionError | KeyError.

Inductive Res (A : Type) : Type :=
  | Ok (a : A)
  | Raise (e : Exn).
Arguments Ok {A} a.
Arguments Raise {A} e.

#[global] Instance Res_ret : MRet Res := fun _ a => Ok a.
#[global] Instance Res_bind : MBind Res := fun _ _ f m =>
  match m with
  | Ok a => f a
  | Raise e => Raise e
  end.

#[global] Instance Res_fmap : FMap Res := fun _ _ f m =>
  match m with
  | Ok a => Ok (f a)
  | Raise e => Raise e
  end.

(** [try: v = m except: v = d] *)
Definition try_or {A} (m : Res A) (d : A) : A :=
  match m with
  | Ok a => a
  | Raise _ => d
  end.

(** A [for] loop over a list, with the loop state threaded through. *)
Fixpoint for_each {A S} (body : S -> A -> Res S) (st : S) (l : list A) : Res S :=
  match l with
  | [] => Ok st
  | a :: l' =>
      match body st a with
      | Ok st' => for_each body st' l'
      | Raise e => Raise e
      end
  end.

Definition is_Raise {A} (m : Res A) : bool :=
  match m with
  | Ok _ => false
  | Raise _ => true
  end.

(** ** binary64 *)

Abbreviation float := spec_float.

Definition prec : Z := 53.
Definition emax : Z := 1024.

Definition fdiv : float -> float -> float := SFdiv prec emax.
Definition fmul : float -> float -> float := SFmul prec emax.
Definition fltb : float -> float -> bool := SFltb.
Definition feqb : float -> float -> bool := SFeqb.

Definition fzero : float := S754_zero false.
Definition fnan : float := S754_nan.

Definition is_nan (f : float) : bool :=
  match f with
  | S754_nan => true
  | _ => false
  end.

(** The float nearest to an integer (round to nearest, ties to even). *)
Definition float_of_Z (z : Z) : float := binary_normalize prec emax z 0 false.

(** The float nearest to [n / 10^k], for a decimal literal such as [0.8]. *)
Definition float_of_ratio (n : Z) (d : positive) : float :=
  match n with
  | Z0 => fzero
  | Zpos m => fdiv (S754_finite false m 0) (S754_finite false d 0)
  | Zneg m => fdiv (S754_finite true m 0) (S754_finite false d 0)
  end.

(** ** Cell values *)

Inductive Value :=
  | VNone
  | VInt (z : Z)
  | VFloat (f : float)
  | VStr (s : string).

(** [bool(v)] *)
Definition py_truthy (v : Value) : bool :=
  match v with
  | VNone => false
  | VInt z => negb (z =? 0)
  | VFloat f => negb (feqb f fzero)
  | VStr s => negb (String.eqb s "")
  end.

(** [a or b] *)
Definition py_or (a b : Value) : Value := if py_truthy a then a else b.

(** [pd.isna(v) or v is None] on a scalar. *)
Definition pd_isna (v : Value) : bool :=
  match v with
  | VNone => true
  | VFloat f => is_nan f
  | _ => false
  end.

(** [v in [s1, s2, ...]] for a list of text constants: only a text can be
    equal to one of them. *)
Definition py_in_strs (v : Value) (l : list string) : bool :=
  match v with
  | VStr s => existsb (String.eqb s) l
  | _ => false
  end.

Definition str_in (s : string) (l : list string) : bool :=
  existsb (String.eqb s) l.

(** ** Text: [strip], [lower] *)

Definition is_space (c : ascii) : bool :=
  let n := N_of_ascii c in
  (N.eqb n 32 || (N.leb 9 n && N.leb n 13) || (N.leb 28 n && N.leb n 31))%N.

(** The white space [float] skips around a literal: C's [isspace], without
    the four separators 28..31 that [str.strip] also removes. *)
Definition is_cspace (c : ascii) : bool :=
  let n := N_of_ascii c in (N.eqb n 32 || (N.leb 9 n && N.leb n 13))%N.

Definition is_digit (c : ascii) : bool :=
  let n := N_of_ascii c in (N.leb 48 n && N.leb n 57)%N.

Definition digit_val (c : ascii) : Z := Z.of_N (N_of_ascii c) - 48.

Definition lower_char (c : ascii) : ascii :=
  let n := N_of_ascii c in
  if (N.leb 65 n && N.leb n 90)%N then ascii_of_N (n + 32) else c.

Fixpoint lower (s : string) : string :=
  match s with
  | EmptyString => EmptyString
  | String c s' => String (lower_char c) (lower s')
  end.

Fixpoint lstrip_by (sp : ascii -> bool) (s : string) : string :=
  match s with
  | EmptyString => EmptyString
  | String c s' => if sp c then lstrip_by sp s' else s
  end.

Fixpoint rstrip_by (sp : ascii -> bool) (s : string) : string :=
  match s with
  | EmptyString => EmptyString
  | String c s' =>
      match rstrip_by sp s' with
      | EmptyString => if sp c then EmptyString else String c EmptyString
      | r => String c r
      end
  end.

(** [s.strip()] *)
Definition strip (s : string) : string := rstrip_by is_space (lstrip_by is_space s).

(** ** Decimal digits *)

Fixpoint span_digits (l : list ascii) : list ascii * list ascii :=
  match l with
  | c :: l' =>
      if is_digit c then let '(ds, r) := span_digits l' in (c :: ds, r)
      else ([], l)
  | [] => ([], [])
  end.

Definition Z_of_digits (ds : list ascii) : Z :=
  fold_left (fun acc c => 10 * acc + digit_val c) ds 0.

(** ** [float(...)] and [int(...)] *)

(** [float(n)] for a Python integer. *)
Definition float_of_int (z : Z) : Res float :=
  match float_of_Z z with
  | S754_infinity _ => Raise OverflowError
  | f => Ok f
  end.

(** [int(x)] for a float: truncation toward zero. *)
Definition int_of_float (f : float) : Res Z :=
  match f with
  | S754_nan => Raise ValueError
  | S754_infinity _ => Raise OverflowError
  | S754_zero _ => Ok 0
  | S754_finite s m e =>
      let a := match e with
               | Zneg k => Z.shiftr (Zpos m) (Zpos k)
               | _ => Z.shiftl (Zpos m) e
               end in
      Ok (if s then - a else a)
  end.

(** The float nearest to [(-1)^neg * m * 10^e]. *)
Definition float_of_decimal (neg : bool) (m : Z) (e : Z) : float :=
  match m with
  | Zpos p =>
      match e with
      | Zneg k => fdiv (S754_finite neg p 0)
                       (S754_finite false (Pos.pow 10 k) 0)
      | _ => binary_normalize prec emax
               (if neg then - (m * 10 ^ e) else m * 10 ^ e) 0 false
      end
  | _ => S754_zero neg
  end.

(** An underscore of a numeric literal stands between two digits; the
    literal is read without them. *)
Fixpoint drop_underscores (prev : ascii) (l : list ascii) : option (list ascii) :=
  match l with
  | [] => if Ascii.eqb prev "_" then None else Some []
  | c :: l' =>
      if Ascii.eqb c "_" then
        if is_digit prev then drop_underscores c l' else None
      else if Ascii.eqb prev "_" && negb (is_digit c) then None
      else cons c <$> drop_underscores c l'
  end.

Definition take_sign (l : list ascii) : bool * list ascii :=
  match l with
  | c :: l' =>
      if Ascii.eqb c "-" then (true, l')
      else if Ascii.eqb c "+" then (false, l')
      else (false, l)
  | [] => (false, [])
  end.

Definition is_e (c : ascii) : bool := Ascii.eqb c "e" || Ascii.eqb c "E".

(** [e] or [E], an optional sign and digits; without digits there is no
    exponent and the [e] is left unread. *)
Definition parse_exponent (l : list ascii) : Z * list ascii :=
  match l with
  | c :: r =>
      if is_e c then
        let '(eneg, r1) := take_sign r in
        let '(ed, r2) := span_digits r1 in
        match ed with
        | [] => (0, l)
        | _ => (if eneg then - Z_of_digits ed else Z_of_digits ed, r2)
        end
      else (0, l)
  | [] => (0, l)
  end.

(** [digits [. [digits]] | . digits], then an optional exponent; all of
    the text has to be used. *)
Definition parse_number (neg : bool) (l : list ascii) : option float :=
  let '(ip, r1) := span_digits l in
  let '(fp, r2) := match r1 with
                   | c :: r => if Ascii.eqb c "." then span_digits r else ([], r1)
                   | [] => ([], r1)
                   end in
  match (ip ++ fp)%list with
  | [] => None
  | ds =>
      match parse_exponent r2 with
      | (ex, []) =>
          Some (float_of_decimal neg (Z_of_digits ds) (ex - Z.of_nat (length fp)))
      | _ => None
      end
  end.

Definition parse_float_ascii (l : list ascii) : option float :=
  let '(neg, r) := take_sign l in
  let w := lower (string_of_list_ascii r) in
  if String.eqb w "inf" || String.eqb w "infinity" then Some (S754_infinity neg)
  else if String.eqb w "nan" then Some S754_nan
  else parse_number neg r.

(** [float(s)] for a text: white space around the literal is ignored. *)
Definition float_of_string (s : string) : Res float :=
  let lit := rstrip_by is_cspace (lstrip_by is_cspace s) in
  match drop_underscores "000"%char (list_ascii_of_string lit) with
  | None => Raise ValueError
  | Some l =>
      match parse_float_ascii l with
      | Some f => Ok f
      | None => Raise ValueError
      end
  end.

(** [float(v)] *)
Definition py_float (v : Value) : Res float :=
  match v with
  | VNone => Raise TypeError
  | VInt z => float_of_int z
  | VFloat f => Ok f
  | VStr s => float_of_string s
  end.

(** ** [str(...)] *)

Definition str_of_Z (z : Z) : string := NilZero.string_of_int (Z.to_int z).

Fixpoint zeros (n : nat) : string :=
  match n with
  | O => ""
  | S k => String "0" (zeros k)
  end.

(** [floor (log10 (num / den))] for a positive fraction. *)
Fixpoint ilog10 (fuel : nat) (num den : Z) : Z :=
  match fuel with
  | O => 0
  | S k =>
      if num <? den then ilog10 k (10 * num) den - 1
      else if 10 * den <=? num then ilog10 k num (10 * den) + 1
      else 0
  end.

Definition float_same (a b : float) : bool :=
  match a, b with
  | S754_finite s1 m1 e1, S754_finite s2 m2 e2 =>
      Bool.eqb s1 s2 && Pos.eqb m1 m2 && (e1 =? e2)
  | S754_zero s1, S754_zero s2 => Bool.eqb s1 s2
  | S754_infinity s1, S754_infinity s2 => Bool.eqb s1 s2
  | S754_nan, S754_nan => true
  | _, _ => false
  end.

(** The [n]-digit decimals next to [num / den], of which the nearer one
    that reads back as [v] is kept: [Some (d, k)] stands for [d * 10^k]. *)
Definition digits_at (v : float) (num den L : Z) (n : nat) : option (Z * Z) :=
  let k := L - (Z.of_nat n - 1) in
  let a := if 0 <=? k then num else num * 10 ^ (- k) in
  let b := if 0 <=? k then den * 10 ^ k else den in
  let lo := a / b in
  let r := a mod b in
  let hi := lo + 1 in
  let ok_lo := float_same (float_of_decimal false lo k) v in
  let ok_hi := float_same (float_of_decimal false hi k) v in
  if r =? 0 then Some (lo, k)
  else if ok_lo && ok_hi then
    match 2 * r ?= b with
    | Lt => Some (lo, k)
    | Gt => Some (hi, k)
    | Eq => Some (if Z.even lo then lo else hi, k)
    end
  else if ok_lo then Some (lo, k)
  else if ok_hi then Some (hi, k)
  else None.

Fixpoint shortest_from (v : float) (num den L : Z) (n fuel : nat) : Z * Z :=
  match fuel with
  | O => (0, 0)
  | S f =>
      match digits_at v num den L n with
      | Some dk => dk
      | None => shortest_from v num den L (S n) f
      end
  end.

Fixpoint drop_zeros (fuel : nat) (d k : Z) : Z * Z :=
  match fuel with
  | O => (d, k)
  | S f => if (d mod 10 =? 0) && negb (d =? 0) then drop_zeros f (d / 10) (k + 1)
           else (d, k)
  end.

(** The shortest decimal [d * 10^k] that reads back as the positive float
    [m * 2^e], the nearest one among the shortest. *)
Definition shortest_decimal (m : positive) (e : Z) : Z * Z :=
  let v := binary_round prec emax false m e in
  let '(num, den) := match e with
                     | Zneg p => (Zpos m, 2 ^ Zpos p)
                     | _ => (Zpos m * 2 ^ e, 1)
                     end in
  let '(d, k) := shortest_from v num den (ilog10 400 num den) 1 17 in
  drop_zeros 20 d k.

(** [repr] of a positive float from its shortest decimal: positional
    notation, or scientific notation below 1e-4 and from 1e16 on. *)
Definition format_decimal (d k : Z) : string :=
  let ds := str_of_Z d in
  let n := Z.of_nat (String.length ds) in
  let decpt := n + k in
  if (decpt <=? -4) || (16 <? decpt) then
    let ex := decpt - 1 in
    let mant := match ds with
                | String c EmptyString => ds
                | String c r => String c (String "." r)
                | EmptyString => ds
                end in
    let es := str_of_Z (Z.abs ex) in
    mant +:+ "e" +:+ (if ex <? 0 then "-" else "+")
         +:+ (if Z.abs ex <? 10 then "0" else "") +:+ es
  else if decpt <=? 0 then "0." +:+ zeros (Z.to_nat (- decpt)) +:+ ds
  else if n <=? decpt then ds +:+ zeros (Z.to_nat (decpt - n)) +:+ ".0"
  else String.substring 0 (Z.to_nat decpt) ds +:+ "."
       +:+ String.substring (Z.to_nat decpt) (Z.to_nat (n - decpt)) ds.

(** [repr(x)], which is also [str(x)], for a float. *)
Definition float_repr (f : float) : string :=
  match f with
  | S754_nan => "nan"
  | S754_infinity s => if s then "-inf" else "inf"
  | S754_zero s => if s then "-0.0" else "0.0"
  | S754_finite s m e =>
      let '(d, k) := shortest_decimal m e in
      (if s then "-" else "") +:+ format_decimal d k
  end.

(** [str(v)] *)
Definition py_str (v : Value) : string :=
  match v with
  | VNone => "None"
  | VInt z => str_of_Z z
  | VFloat f => float_repr f
  | VStr s => s
  end.

(** ** Numbers held in cells *)

(** [v > 0] *)
Definition py_gt0 (v : Value) : Res bool :=
  match v with
  | VInt z => Ok (0 <? z)
  | VFloat f => Ok (fltb fzero f)
  | _ => Raise TypeError
  end.

(** [v and v > 0] used as a condition. *)
Definition truthy_and_gt0 (v : Value) : Res bool :=
  if py_truthy v then py_gt0 v else Ok false.

(** [a / b] for two integers: the float nearest to the quotient. *)
Definition int_truediv (a b : Z) : Res float :=
  match b with
  | Z0 => Raise ZeroDivisionError
  | _ =>
      match a with
      | Z0 => Ok (S754_zero (b <? 0))
      | _ =>
          match fdiv (S754_finite (a <? 0) (Z.to_pos (Z.abs a)) 0)
                     (S754_finite (b <? 0) (Z.to_pos (Z.abs b)) 0) with
          | S754_infinity _ => Raise OverflowError
          | q => Ok q
          end
      end
  end.

(** [a / b] *)
Definition py_truediv (a b : Value) : Res Value :=
  match a, b with
  | VInt x, VInt y => VFloat <$> int_truediv x y
  | (VNone | VStr _), _ | _, (VNone | VStr _) => Raise TypeError
  | _, _ =>
      x ← py_float a;
      y ← py_float b;
      if feqb y fzero then Raise ZeroDivisionError else Ok (VFloat (fdiv x y))
  end.

(** [v * c] for a float constant [c]. *)
Definition py_mul_float (v : Value) (c : float) : Res float :=
  match v with
  | VInt z => x ← float_of_int z; Ok (fmul x c)
  | VFloat f => Ok (fmul f c)
  | _ => Raise TypeError
  end.

(** ** The two regular expressions *)

(** [re.search(r'(\d{4})', s)]: the first four digits in a row, read as
    an integer. *)
Fixpoint search_year (l : list ascii) : option Z :=
  match l with
  | [] => None
  | a :: l' =>
      match l' with
      | b :: c :: d :: _ =>
          if is_digit a && is_digit b && is_digit c && is_digit d
          then Some (Z_of_digits [a; b; c; d])
          else search_year l'
      | _ => None
      end
  end.

(** [re.findall(r'\d+\.?\d*', s)[0]]: the first run of digits, with a
    point and further digits when they follow. *)
Fixpoint first_number (l : list ascii) : option (list ascii) :=
  match l with
  | [] => None
  | c :: l' =>
      if is_digit c then
        let '(ds, r) := span_digits l in
        match r with
        | p :: r' =>
            if Ascii.eqb p "." then Some (ds ++ p :: fst (span_digits r'))%list
            else Some ds
        | [] => Some ds
        end
      else first_number l'
  end.

(** ** [int(...)] of a text, [str.replace] *)

(** [int(s)]: white space around the literal is ignored; a sign, then
    decimal digits, with single underscores between digits only. *)
Definition int_of_string (s : string) : Res Z :=
  let lit := rstrip_by is_cspace (lstrip_by is_cspace s) in
  let '(neg, r) := take_sign (list_ascii_of_string lit) in
  match drop_underscores "000"%char r with
  | Some (c :: ds) =>
      if forallb is_digit (c :: ds)
      then Ok (if neg then - Z_of_digits (c :: ds) else Z_of_digits (c :: ds))
      else Raise ValueError
  | _ => Raise ValueError
  end.

(** [s.replace(',', '')] *)
Fixpoint remove_commas (s : string) : string :=
  match s with
  | EmptyString => EmptyString
  | String c s' => if Ascii.eqb c "," then remove_commas s' else String c (remove_commas s')
  end.

End Py.

(* ===================================================================== *)
(** * data_cleaner.py: class SteamDataCleaner                             *)
(* ===================================================================== *)

Module Cleaner.
Import Py.

(** ** Columns and field kinds *)

Definition col_release_date : string := "发行日期".
Definition col_price : string := "格式化价格".
Definition col_playtime_avg : string := "平均游戏时长(分钟)".
Definition col_playtime_median : string := "中位数游戏时长(分钟)".
Definition col_current_players : string := "当前在线人数".
Definition col_peak_24h : string := "24小时峰值".
Definition col_peak_alltime : string := "历史最高在线".

(** [self.critical_fields]: column name, field kind, in the order of the
    dictionary. *)
Definition critical_fields : list (string * string) :=
  [ (col_release_date, "release_date");
    (col_price, "price");
    (col_playtime_avg, "playtime_avg");
    (col_playtime_median, "playtime_median");
    (col_current_players, "current_players");
    (col_peak_24h, "peak_24h");
    (col_peak_alltime, "peak_alltime") ].

(** [self.critical_fields.get(f)] and [self.critical_fields[f]] *)
Fixpoint assoc (f : string) (l : list (string * string)) : option string :=
  match l with
  | [] => None
  | (k, v) :: l' => if String.eqb f k then Some v else assoc f l'
  end.

(** The kinds checked as numbers by the classifier (line 166). *)
Definition numeric_types : list string :=
  ["current_players"; "peak_24h"; "peak_alltime"; "playtime_avg"; "playtime_median"].

Definition player_fields : list string :=
  ["current_players"; "peak_24h"; "peak_alltime"].

(** [df.at[idx, col]] and [row[col]].  A row without an entry for the
    column reads as NaN, the value pandas keeps in an empty cell; the
    frames [clean_data] works on have all the columns read here. *)
Definition cell (row : gmap string Value) (col : string) : Value :=
  default (VFloat fnan) (row !! col).

(** ** Field classifier *)

Definition is_field_missing (value : Value) (field_type : string) : bool :=
  if pd_isna value then true
  else
    (* [value = value.strip()] for a text *)
    let value := match value with
                 | VStr s => VStr (strip s)
                 | _ => value
                 end in
    let text_verdict :=
      match value with
      | VStr s =>
          if String.eqb s "" || String.eqb (lower s) "n/a" || String.eqb (lower s) "nan"
          then Some true
          else if String.eqb field_type "release_date"
                  && str_in s ["N/A"; "Coming Soon"; "TBA"]
          then Some true
          else if String.eqb field_type "price" && str_in s ["N/A"; "Free"; ""]
          then Some false
          else None
      | _ => None
      end in
    match text_verdict with
    | Some b => b
    | None =>
        if str_in field_type numeric_types then
          match py_float value with
          | Ok num_value => feqb num_value fzero || is_nan num_value
          | Raise _ => true
          end
        else false
    end.

(** ** Feature extraction for prediction *)

(** The [try] block that reads a year out of the release date. *)
Definition age_from_date (current_year : Z) (date : Value) (otherwise : Z) : Z :=
  match search_year (list_ascii_of_string (py_str date)) with
  | Some release_year => Z.max 0 (current_year - release_year)
  | None => otherwise
  end.

(** The [try] block that reads a number out of the price text. *)
Definition number_in_price (price_str : Value) : float :=
  match first_number (list_ascii_of_string (py_str price_str)) with
  | Some n => try_or (float_of_string (string_of_list_ascii n)) fzero
  | None => fzero
  end.

(** [float(df_row.get(col, 0) or 0)] *)
Definition float_cell (df_row : gmap string Value) (col : string) : Res float :=
  py_float (py_or (default (VInt 0) (df_row !! col)) (VInt 0)).

Definition _extract_features_for_prediction
    (current_year : Z) (df_row : gmap string Value) : Res (gmap string Value) :=
  (* 1 *)
  let release_date_str := default (VStr "N/A") (df_row !! col_release_date) in
  let game_age_years :=
    if py_truthy release_date_str
       && negb (py_in_strs release_date_str ["N/A"; "Coming Soon"; "TBA"; ""])
    then age_from_date current_year release_date_str (-1)
    else -1 in
  (* 2 *)
  let price_str := default (VStr "") (df_row !! col_price) in
  let is_free := if str_in (lower (py_str price_str)) ["free"; "免费"] then 1 else 0 in
  (* 3 *)
  let price_numeric :=
    if py_truthy price_str
       && negb (str_in (lower (py_str price_str)) ["free"; "免费"; "n/a"; ""])
    then number_in_price price_str
    else fzero in
  (* 4 *)
  playtime_avg ← float_cell df_row col_playtime_avg;
  playtime_median ← float_cell df_row col_playtime_median;
  (* 5 *)
  let playtime_price_ratio :=
    if fltb fzero price_numeric then fdiv playtime_avg price_numeric
    else playtime_avg in
  (* 6 *)
  current_players ← float_cell df_row col_current_players;
  peak_24h ← float_cell df_row col_peak_24h;
  peak_alltime ← float_cell df_row col_peak_alltime;
  (* 7 *)
  let '(activity_ratio, historical_growth) :=
    if fltb fzero peak_24h
    then (VFloat (fdiv current_players peak_24h), VFloat (fdiv peak_alltime peak_24h))
    else (VInt 0, VInt 0) in
  Ok (<["historical_growth" := historical_growth]>
      (<["activity_ratio" := activity_ratio]>
      (<["peak_alltime" := VFloat peak_alltime]>
      (<["peak_24h" := VFloat peak_24h]>
      (<["current_players" := VFloat current_players]>
      (<["playtime_price_ratio" := VFloat playtime_price_ratio]>
      (<["playtime_median" := VFloat playtime_median]>
      (<["playtime_avg" := VFloat playtime_avg]>
      (<["price_numeric" := VFloat price_numeric]>
      (<["is_free" := VInt is_free]>
      (<["game_age_years" := VInt game_age_years]> ∅))))))))))).

(** ** Heuristic estimator *)

Definition c0_8 : float := float_of_ratio 8 10.
Definition c1_3 : float := float_of_ratio 13 10.
Definition c0_5 : float := float_of_ratio 5 10.
Definition c2_0 : float := float_of_Z 2.
Definition c0_2 : float := float_of_ratio 2 10.
Definition c3_5 : float := float_of_ratio 35 10.

(** [(decay_factor, alltime_factor)] *)
Definition age_factors (game_age_years : Z) : float * float :=
  if game_age_years <=? 2 then (c0_8, c1_3)
  else if game_age_years <=? 5 then (c0_5, c2_0)
  else (c0_2, c3_5).

(** The age the heuristic works with: 0 when no year is found. *)
Definition heuristic_age (current_year : Z) (df_row : gmap string Value) : Z :=
  let release_date_str := default (VStr "N/A") (df_row !! col_release_date) in
  if py_truthy release_date_str
     && negb (py_in_strs release_date_str ["N/A"; "Coming Soon"; "TBA"])
  then age_from_date current_year release_date_str 0
  else 0.

(** Lines 478-484: the estimates so far and the local variable
    [peak_24h], which holds the estimate once there is one. *)
Definition estimate_peak_24h (missing_fields : list string)
    (decay_factor alltime_factor current_players peak_24h peak_alltime : float)
  : Res (gmap string Value * Value) :=
  if str_in "peak_24h" missing_fields then
    if fltb fzero current_players then
      n ← int_of_float (fdiv current_players decay_factor);
      Ok (<[col_peak_24h := VInt n]> ∅, VInt n)
    else if fltb fzero peak_alltime then
      n ← int_of_float (fdiv peak_alltime alltime_factor);
      Ok (<[col_peak_24h := VInt n]> ∅, VInt n)
    else Ok (∅, VFloat peak_24h)
  else Ok (∅, VFloat peak_24h).

(** Lines 486-487 and 489-490:
    [if field in missing_fields and peak_24h > 0:
       估算数据[col] = int(peak_24h * factor)] *)
Definition estimate_from_peak_24h (field col : string) (factor : float)
    (missing_fields : list string) (peak_24h : Value) (est : gmap string Value)
  : Res (gmap string Value) :=
  if str_in field missing_fields then
    known ← py_gt0 peak_24h;
    if known : bool then
      x ← py_mul_float peak_24h factor;
      n ← int_of_float x;
      Ok (<[col := VInt n]> est)
    else Ok est
  else Ok est.

Definition _simple_estimate
    (current_year : Z) (df_row : gmap string Value) (missing_fields : list string)
  : Res (gmap string Value) :=
  let '(decay_factor, alltime_factor) := age_factors (heuristic_age current_year df_row) in
  current_players ← float_cell df_row col_current_players;
  peak_24h ← float_cell df_row col_peak_24h;
  peak_alltime ← float_cell df_row col_peak_alltime;
  '(est, peak_24h) ←
    estimate_peak_24h missing_fields decay_factor alltime_factor
      current_players peak_24h peak_alltime;
  est ← estimate_from_peak_24h "current_players" col_current_players decay_factor
          missing_fields peak_24h est;
  estimate_from_peak_24h "peak_alltime" col_peak_alltime alltime_factor
    missing_fields peak_24h est.

(** ** Model-based estimator *)

(** An entry of [self.ml_models]: the fitted regressor, seen as the
    function from one row of features to [model.predict(X)[0]], and the
    names of the features it reads, in order. *)
Record ModelInfo := {
  model : list Value -> Res float;
  feature_cols : list string
}.

(** One [try] block up to its test: [Some p] when the block goes on to
    record the positive prediction [p], [None] when the prediction is not
    positive or anything in the block raises. *)
Definition try_predict (model_info : ModelInfo) (features_dict : gmap string Value)
  : option Z :=
  let X := map (fun col => default (VInt 0) (features_dict !! col))
               (feature_cols model_info) in
  match model model_info X with
  | Ok raw =>
      match int_of_float raw with
      | Ok n => let prediction := Z.max 0 n in
                if 0 <? prediction then Some prediction else None
      | Raise _ => None
      end
  | Raise _ => None
  end.

(** Lines 416-417, inside the third [try]. *)
Definition refresh_activity_ratio (features_dict : gmap string Value)
  : Res (gmap string Value) :=
  match features_dict !! "peak_24h" with
  | Some p24 =>
      positive ← py_gt0 p24;
      if positive : bool then
        match features_dict !! "current_players" with
        | Some cur =>
            r ← py_truediv cur p24;
            Ok (<["activity_ratio" := r]> features_dict)
        | None => Raise KeyError
        end
      else Ok features_dict
  | None => Raise KeyError
  end.

(** The state after block 1: estimates and features. *)
Definition predict_peak_24h (ml_models : gmap string ModelInfo)
    (missing_fields : list string) (features_dict : gmap string Value)
  : gmap string Value * gmap string Value :=
  match (if str_in "peak_24h" missing_fields then ml_models !! "peak_24h" else None) with
  | Some model_info =>
      match try_predict model_info features_dict with
      | Some prediction =>
          (<[col_peak_24h := VInt prediction]> ∅,
           <["peak_24h" := VInt prediction]> features_dict)
      | None => (∅, features_dict)
      end
  | None => (∅, features_dict)
  end.

(** Block 2. *)
Definition predict_current_players (ml_models : gmap string ModelInfo)
    (missing_fields : list string) (st : gmap string Value * gmap string Value)
  : gmap string Value * gmap string Value :=
  let '(est, features_dict) := st in
  match (if str_in "current_players" missing_fields
         then ml_models !! "current_players" else None) with
  | Some model_info =>
      match try_predict model_info features_dict with
      | Some prediction =>
          (<[col_current_players := VInt prediction]> est,
           <["current_players" := VInt prediction]> features_dict)
      | None => st
      end
  | None => st
  end.

(** Block 3. *)
Definition predict_peak_alltime (ml_models : gmap string ModelInfo)
    (missing_fields : list string) (st : gmap string Value * gmap string Value)
  : gmap string Value :=
  let '(est, features_dict) := st in
  match (if str_in "peak_alltime" missing_fields
         then ml_models !! "peak_alltime" else None) with
  | Some model_info =>
      match refresh_activity_ratio features_dict with
      | Ok features_dict =>
          match try_predict model_info features_dict with
          | Some prediction => <[col_peak_alltime := VInt prediction]> est
          | None => est
          end
      | Raise _ => est
      end
  | None => est
  end.

Definition estimate_player_fields (ml_models : gmap string ModelInfo)
    (current_year : Z) (df_row : gmap string Value) (missing_fields : list string)
  : Res (gmap string Value) :=
  if bool_decide (ml_models = ∅) then
    _simple_estimate current_year df_row missing_fields
  else
    features_dict ← _extract_features_for_prediction current_year df_row;
    Ok (predict_peak_alltime ml_models missing_fields
          (predict_current_players ml_models missing_fields
             (predict_peak_24h ml_models missing_fields features_dict))).

(** ** External completion *)

(** What [get_game_details] hands over of the store's answer:
    [release_date.date], [price_overview] when it is a non-empty object
    (with its [final_formatted], if any), and [is_free]. *)
Record GameDetails := {
  gd_date : option Value;
  gd_price_overview : option (option Value);
  gd_is_free : bool
}.

(** The three entries read from the aggregate-stats answer; [None] for an
    entry that is not there. *)
Record SteamSpyData := {
  average_forever : option Value;
  median_forever : option Value;
  ccu : option Value
}.

(** The charts page as [get_steamcharts_data] sees it: not found, a page
    with the peaks read off its table rows in order, or a failed request. *)
Inductive ChartsResponse :=
  | Charts404
  | ChartsPage (peaks : list Z)
  | ChartsFailed.

(** The answers of the providers for one record, one per request:
    [get_game_details], [get_steamspy_data] as called by
    [fetch_missing_data], the charts page, and [get_steamspy_data] as
    called by [get_steamcharts_data].  [None] is a request that failed or
    returned nothing. *)
Record World := {
  w_details : option GameDetails;
  w_steamspy : option SteamSpyData;
  w_charts : ChartsResponse;
  w_steamspy_again : option SteamSpyData
}.

(** [d.get(key, 0)] on an optional answer entry. *)
Definition or_zero (o : option Value) : Value := default (VInt 0) o.

(** The live count out of a second aggregate-stats answer. *)
Definition positive_ccu (answer : option SteamSpyData) : Res (option Value) :=
  match answer with
  | Some steamspy_data =>
      let c := or_zero (ccu steamspy_data) in
      ok ← truthy_and_gt0 c;
      Ok (if ok : bool then Some c else None)
  | None => Ok None
  end.

(** The running maximum of lines 328-329. *)
Definition highest_peak (peaks : list Z) : option Z :=
  fold_left (fun peak_alltime peak_value =>
               match peak_alltime with
               | None => Some peak_value
               | Some p => if p <? peak_value then Some peak_value else Some p
               end) peaks None.

(** [(peak_24h, peak_alltime)]; any exception gives [(None, None)]. *)
Definition get_steamcharts_data (w : World) : option Value * option Value :=
  match w_charts w with
  | Charts404 =>
      match positive_ccu (w_steamspy_again w) with
      | Ok (Some c) => (Some c, None)
      | _ => (None, None)
      end
  | ChartsPage peaks =>
      match highest_peak peaks with
      | Some peak_alltime =>
          if peak_alltime =? 0 then (None, None)
          else
            match positive_ccu (w_steamspy_again w) with
            | Ok peak_24h => (peak_24h, Some (VInt peak_alltime))
            | Raise _ => (None, None)
            end
      | None => (None, None)
      end
  | ChartsFailed => (None, None)
  end.

(** [补充数据[col] = v] when [field] is asked for and the test holds. *)
Definition supply_if (asked : bool) (test : bool) (col : string) (v : Value)
    (d : gmap string Value) : gmap string Value :=
  if asked && test then <[col := v]> d else d.

(** Lines 513-532: the store. *)
Definition fetch_store (w : World) (missing_fields : list string)
    (d : gmap string Value) : gmap string Value :=
  if existsb (fun field => str_in field ["release_date"; "price"]) missing_fields then
    match w_details w with
    | Some game_details =>
        let d :=
          let date_str := default (VStr "N/A") (gd_date game_details) in
          supply_if (str_in "release_date" missing_fields)
            (py_truthy date_str && negb (py_in_strs date_str ["N/A"]))
            col_release_date date_str d in
        if str_in "price" missing_fields then
          match gd_price_overview game_details with
          | Some final_formatted =>
              <[col_price := default (VStr "N/A") final_formatted]> d
          | None =>
              if gd_is_free game_details then <[col_price := VStr "Free"]> d else d
          end
        else d
    | None => d
    end
  else d.

(** [if field in missing_fields:
        v = steamspy_data.get(key, 0)
        if v and v > 0: 补充数据[col] = v] *)
Definition supply_positive (missing_fields : list string) (field col : string)
    (o : option Value) (d : gmap string Value) : Res (gmap string Value) :=
  if str_in field missing_fields then
    ok ← truthy_and_gt0 (or_zero o);
    Ok (if ok : bool then <[col := or_zero o]> d else d)
  else Ok d.

(** Lines 535-561: the aggregate statistics. *)
Definition fetch_steamspy (w : World) (missing_fields : list string)
    (d : gmap string Value) : Res (gmap string Value) :=
  if existsb (fun field => str_in field
                ["playtime_avg"; "playtime_median"; "current_players"; "peak_24h"])
             missing_fields then
    match w_steamspy w with
    | Some steamspy_data =>
        d ← supply_positive missing_fields "playtime_avg" col_playtime_avg
              (average_forever steamspy_data) d;
        d ← supply_positive missing_fields "playtime_median" col_playtime_median
              (median_forever steamspy_data) d;
        d ← supply_positive missing_fields "current_players" col_current_players
              (ccu steamspy_data) d;
        supply_positive missing_fields "peak_24h" col_peak_24h
          (ccu steamspy_data) d
    | None => Ok d
    end
  else Ok d.

(** Lines 564-573: the charts. *)
Definition fetch_steamcharts (w : World) (missing_fields : list string)
    (d : gmap string Value) : gmap string Value :=
  if str_in "peak_alltime" missing_fields || str_in "peak_24h" missing_fields then
    let '(peak_24h, peak_alltime) := get_steamcharts_data w in
    let d :=
      match peak_24h with
      | Some v =>
          if str_in "peak_24h" missing_fields && py_truthy v
             && bool_decide (d !! col_peak_24h = None)
          then <[col_peak_24h := v]> d else d
      | None => d
      end in
    match peak_alltime with
    | Some v =>
        if str_in "peak_alltime" missing_fields && py_truthy v
        then <[col_peak_alltime := v]> d else d
    | None => d
    end
  else d.

Definition fetch_missing_data (w : World) (missing_fields : list string)
  : Res (gmap string Value) :=
  let d := fetch_store w missing_fields ∅ in
  d ← fetch_steamspy w missing_fields d;
  Ok (fetch_steamcharts w missing_fields d).

(** ** The record-level pipeline of [clean_data] *)

(** What the loop body prints, in order: one constructor per message. *)
Inductive Event :=
  | EvMissing (missing_fields : list string)
  | EvPriceFetchFailed
  | EvSupplied (n : nat)
  | EvAllPlayerFieldsMissing
  | EvEstimate
  | EvEstimated (n : nat)
  | EvPriceOnly
  | EvUnresolved (still_missing : list string)
  | EvError (e : Exn).

(** The effect of one iteration: the row as it stands in the frame, how
    many times the index was appended to [删除的索引], what was added to
    [补全的记录数], and the messages. *)
Record Outcome := {
  o_row : gmap string Value;
  o_deleted : nat;
  o_completed : nat;
  o_log : list Event
}.

(** Where the [try] block of one iteration stands when it reaches line
    700, or how it ended before: with the early fill of the price (line
    657), or with an exception. *)
Inductive Progress :=
  | EarlyFill (o : Outcome)
  | AtSalvage (row : gmap string Value) (still_missing : list string)
              (deleted : nat) (log : list Event)
  | Raised (e : Exn) (row : gmap string Value) (log : list Event).

(** Lines 638-641. *)
Definition missing_fields_of (row : gmap string Value) : list string :=
  map snd
    (List.filter (fun '(field_cn, field_type) =>
                    is_field_missing (cell row field_cn) field_type)
                 critical_fields).

(** Lines 666-670. *)
Definition still_missing_of (row : gmap string Value) (missing_fields : list string)
  : list string :=
  map fst
    (List.filter (fun '(field_cn, field_type) =>
                    str_in field_type missing_fields
                    && is_field_missing (cell row field_cn) field_type)
                 critical_fields).

(** [self.critical_fields.get(f) in player_fields] *)
Definition is_player_column (f : string) : bool :=
  match assoc f critical_fields with
  | Some field_type => str_in field_type player_fields
  | None => false
  end.

(** [[self.critical_fields[f] for f in fs]], for names of critical columns. *)
Definition types_of (fs : list string) : list string :=
  omap (fun f => assoc f critical_fields) fs.

(** [df.at[idx, col] = value].  Whether a column takes a value depends on
    the dtype of the column and on the version of pandas, which the
    repository does not pin: an assignment that does not fit the dtype is
    an upcast of the column in some versions and an exception in others.
    On this point the frame is an input: [dtypes col value] is [None] when
    the value is stored and [Some e] when the assignment raises [e].  The
    answer is the same all through a run: where pandas upcasts, every
    value is taken, and where it raises, the dtype of the column stays as
    it is.  A value that is stored is read back as it was written. *)
Definition Dtypes : Type := string -> Value -> option Exn.

(** [for field_cn, value in d.items(): df.at[idx, field_cn] = value], up to
    the first assignment that raises: the row as the loop leaves it, and
    the exception if there was one. *)
Fixpoint set_items (dtypes : Dtypes) (items : list (string * Value))
    (row : gmap string Value) : gmap string Value * option Exn :=
  match items with
  | [] => (row, None)
  | (col, value) :: rest =>
      match dtypes col value with
      | Some e => (row, Some e)
      | None => set_items dtypes rest (<[col := value]> row)
      end
  end.

(** [d.items()] for a dictionary whose keys were inserted in the order
    [cols]. *)
Definition items_in (cols : list string) (d : gmap string Value)
  : list (string * Value) :=
  omap (fun col => (fun value => (col, value)) <$> d !! col) cols.

(** The order in which [fetch_missing_data] fills [补充数据] (lines 523,
    530-532, 544, 549, 555, 561 or 570, 573): that of the critical columns. *)
Definition supply_order : list string := map fst critical_fields.

(** The order in which both estimators fill [估算数据]: the 24-hour peak,
    the live count, the all-time peak. *)
Definition estimate_order : list string :=
  [col_peak_24h; col_current_players; col_peak_alltime].

(** Lines 700-711; an exception of the assignment at line 703 goes to the
    [except] clause of line 716. *)
Definition finish (dtypes : Dtypes) (row : gmap string Value)
    (still_missing : list string) (deleted : nat) (log : list Event) : Outcome :=
  if bool_decide (still_missing = [col_price]) then
    let log := (log ++ [EvPriceOnly])%list in
    match dtypes col_price (VStr "Free") with
    | Some e => {| o_row := row; o_deleted := S deleted; o_completed := 0;
                   o_log := (log ++ [EvError e])%list |}
    | None => {| o_row := <[col_price := VStr "Free"]> row; o_deleted := deleted;
                 o_completed := 1; o_log := log |}
    end
  else if bool_decide (still_missing = [])
  then {| o_row := row; o_deleted := deleted; o_completed := 1; o_log := log |}
  else {| o_row := row; o_deleted := S deleted; o_completed := 0;
          o_log := (log ++ [EvUnresolved still_missing])%list |}.

(** Lines 689-698: the estimates are written to the row; an estimated
    column leaves both lists (the names in them are distinct, so that
    [list.remove] takes out the one occurrence); then [still_missing] is
    filtered once more.  With no estimate the loop is skipped, which is
    the same as running it over an empty dictionary. *)
Definition apply_estimates (row est : gmap string Value)
    (still_missing missing_player_fields : list string)
  : gmap string Value * list string :=
  let row := est ∪ row in
  let estimated (f : string) : bool :=
    str_in f missing_player_fields && bool_decide (is_Some (est !! f)) in
  let missing_player_fields :=
    List.filter (fun f => negb (estimated f)) missing_player_fields in
  let still_missing := List.filter (fun f => negb (estimated f)) still_missing in
  let still_missing :=
    List.filter (fun f => negb (str_in f missing_player_fields)
                          || is_field_missing (cell row f)
                               (default "" (assoc f critical_fields)))
                still_missing in
  (row, still_missing).

(** Lines 649-698, for a record with missing fields.  The assignments of
    lines 655, 663 and 692 can raise; the cells written before the
    assignment that raises stay written. *)
Definition record_progress (dtypes : Dtypes) (ml_models : gmap string ModelInfo)
    (current_year : Z) (w : World) (row : gmap string Value)
    (missing_fields : list string) : Progress :=
  let log := [EvMissing missing_fields] in
  match fetch_missing_data w missing_fields with
  | Raise e => Raised e row log
  | Ok sup =>
      if bool_decide (missing_fields = ["price"])
         && bool_decide (sup !! col_price = None)
      then
        let log := (log ++ [EvPriceFetchFailed])%list in
        match dtypes col_price (VStr "Free") with
        | Some e => Raised e row log
        | None => EarlyFill {| o_row := <[col_price := VStr "Free"]> row;
                               o_deleted := 0; o_completed := 1; o_log := log |}
        end
      else
        let log := if bool_decide (sup = ∅) then log
                   else (log ++ [EvSupplied (size sup)])%list in
        match set_items dtypes (items_in supply_order sup) row with
        | (row, Some e) => Raised e row log
        | (row, None) =>
            let still_missing := still_missing_of row missing_fields in
            let missing_player_fields := List.filter is_player_column still_missing in
            if bool_decide (missing_player_fields = []) then
              AtSalvage row still_missing 0 log
            else
              let player_field_types := types_of missing_player_fields in
              if bool_decide (list_to_set player_field_types
                              =@{gset string} list_to_set player_fields)
              then AtSalvage row still_missing 1 (log ++ [EvAllPlayerFieldsMissing])%list
              else
                let log := (log ++ [EvEstimate])%list in
                match estimate_player_fields ml_models current_year row
                        player_field_types with
                | Raise e => Raised e row log
                | Ok est =>
                    let log := if bool_decide (est = ∅) then log
                               else (log ++ [EvEstimated (size est)])%list in
                    match set_items dtypes (items_in estimate_order est) row with
                    | (row, Some e) => Raised e row log
                    | (_, None) =>
                        let '(row, still_missing) :=
                          apply_estimates row est still_missing missing_player_fields in
                        AtSalvage row still_missing 0 log
                    end
                end
        end
  end.

(** One iteration of the loop (lines 634-721): the [except] clause turns
    an exception into one more deletion mark. *)
Definition clean_record (dtypes : Dtypes) (ml_models : gmap string ModelInfo)
    (current_year : Z) (w : World) (row : gmap string Value) : Outcome :=
  let missing_fields := missing_fields_of row in
  if bool_decide (missing_fields = []) then
    {| o_row := row; o_deleted := 0; o_completed := 0; o_log := [] |}
  else
    match record_progress dtypes ml_models current_year w row missing_fields with
    | EarlyFill o => o
    | AtSalvage row still_missing deleted log =>
        finish dtypes row still_missing deleted log
    | Raised e row log =>
        {| o_row := row; o_deleted := 1; o_completed := 0;
           o_log := (log ++ [EvError e])%list |}
    end.

(** The terminal outcome of a record. *)
Inductive Decision := Intact | Resolved | Salvaged | Dropped.

Definition is_price_fill (ev : Event) : bool :=
  match ev with
  | EvPriceFetchFailed | EvPriceOnly => true
  | _ => false
  end.

Definition is_estimate (ev : Event) : bool :=
  match ev with
  | EvEstimate | EvEstimated _ => true
  | _ => false
  end.

(** Dropped: the index is in [删除的索引].  Salvaged: kept after one of the
    two fills of the price with ['Free'].  Resolved: kept and counted as
    completed.  Intact: nothing was missing. *)
Definition decision (o : Outcome) : Decision :=
  if Nat.ltb 0 (o_deleted o) then Dropped
  else if existsb is_price_fill (o_log o) then Salvaged
  else if Nat.ltb 0 (o_completed o) then Resolved
  else Intact.

(** ** The batch *)

Record DataFrame := {
  df_columns : list string;
  df_rows : list (gmap string Value);
  df_dtypes : Dtypes
}.

Definition required_columns : list string := "AppID" :: map fst critical_fields.

(** The loop state: the frame's rows, [删除的索引], [补全的记录数] and the
    messages of each record. *)
Record LoopState := {
  ls_rows : list (gmap string Value);
  ls_deleted : list nat;
  ls_completed : nat;
  ls_logs : list (nat * list Event)
}.

Definition loop_step (dtypes : Dtypes) (ml_models : gmap string ModelInfo)
    (current_year : Z) (world_of : nat -> World) (st : LoopState) (idx : nat)
    (row : gmap string Value) : LoopState :=
  let o := clean_record dtypes ml_models current_year (world_of idx) row in
  {| ls_rows := <[idx := o_row o]> (ls_rows st);
     ls_deleted := (ls_deleted st ++ replicate (o_deleted o) idx)%list;
     ls_completed := (ls_completed st + o_completed o)%nat;
     ls_logs := (ls_logs st ++ [(idx, o_log o)])%list |}.

(** The loop from row [idx] on: [rows] are the rows still to come. *)
Fixpoint loop_from (dtypes : Dtypes) (ml_models : gmap string ModelInfo)
    (current_year : Z) (world_of : nat -> World) (idx : nat)
    (rows : list (gmap string Value)) (st : LoopState) : LoopState :=
  match rows with
  | [] => st
  | row :: rest =>
      loop_from dtypes ml_models current_year world_of (S idx) rest
        (loop_step dtypes ml_models current_year world_of st idx row)
  end.

(** Lines 633-721: [for idx, row in df.iterrows()]. *)
Definition clean_loop (dtypes : Dtypes) (ml_models : gmap string ModelInfo)
    (current_year : Z) (world_of : nat -> World) (rows : list (gmap string Value))
  : LoopState :=
  loop_from dtypes ml_models current_year world_of 0 rows
    {| ls_rows := rows; ls_deleted := []; ls_completed := 0; ls_logs := [] |}.

(** [df.drop(删除的索引).reset_index(drop=True)] *)
Definition drop_rows (deleted : list nat) (rows : list (gmap string Value))
  : list (gmap string Value) :=
  omap (fun '(idx, row) => if bool_decide (idx ∈ deleted) then None else Some row)
       (imap (fun idx row => (idx, row)) rows).

Record CleanResult := {
  cr_cleaned : list (gmap string Value);
  cr_state : LoopState
}.

(** [clean_data]: nothing is done when a required column is not there; an
    empty frame stops in the statistics printed before the loop (a division
    by [len(df)]). *)
Definition clean_data (ml_models : gmap string ModelInfo) (current_year : Z)
    (world_of : nat -> World) (df : DataFrame) : Res (option CleanResult) :=
  if negb (forallb (fun col => str_in col (df_columns df)) required_columns) then Ok None
  else
    match df_rows df with
    | [] => Raise ZeroDivisionError
    | rows =>
        let st := clean_loop (df_dtypes df) ml_models current_year world_of rows in
        Ok (Some {| cr_cleaned := drop_rows (ls_deleted st) (ls_rows st);
                    cr_state := st |})
    end.

(** ** The store request and its retries *)

(** What one request to the store comes to: the status 429; an exception
    raised in the [try] block before the answer is read (the connection,
    another error status, the decoding); or the decoded answer, of which
    the block reads the entry under the application's id, if there is one:
    the truth value of its [success] and its [data], if it has one. *)
Inductive StoreReply (D : Type) :=
  | TooManyRequests
  | RequestFailed
  | Decoded (app_data : option (bool * option D)).
Arguments TooManyRequests {D}.
Arguments RequestFailed {D}.
Arguments Decoded {D} app_data.

(** What a call returns, and what it did meanwhile: the number of requests
    sent and the seconds slept, sleep by sleep. *)
Record Fetched (D : Type) := {
  fetched : option D;
  requests : nat;
  slept : list Z
}.
Arguments fetched {D} f.
Arguments requests {D} f.
Arguments slept {D} f.

(** The loop of lines 193-223 over the attempts still to make. *)
Fixpoint retry_from {D} (reply : nat -> StoreReply D) (max_retries : Z)
    (attempts : list nat) (sent : nat) (waits : list Z) : Fetched D :=
  match attempts with
  | [] => {| fetched := None; requests := sent; slept := waits |}
  | attempt :: rest =>
      (* the [except] clause *)
      let on_exception :=
        if Z.of_nat attempt <? max_retries - 1
        then retry_from reply max_retries rest (S sent) (waits ++ [5])%list
        else {| fetched := None; requests := S sent; slept := waits |} in
      match reply attempt with
      | TooManyRequests =>
          let wait_time := (Z.of_nat attempt + 1) * 30 in
          retry_from reply max_retries rest (S sent) (waits ++ [wait_time])%list
      | RequestFailed => on_exception
      | Decoded None => {| fetched := None; requests := S sent; slept := waits |}
      | Decoded (Some (success, data)) =>
          if success : bool then
            match data with
            | Some d => {| fetched := Some d; requests := S sent; slept := waits |}
            | None => on_exception   (* [app_data['data']]: KeyError *)
            end
          else {| fetched := None; requests := S sent; slept := waits |}
      end
  end.

(** [get_game_details]: [reply attempt] is what the request of that
    attempt comes to. *)
Definition get_game_details {D} (reply : nat -> StoreReply D) (max_retries : Z)
  : Fetched D :=
  retry_from reply max_retries (seq 0 (Z.to_nat max_retries)) 0 [].

(** ** The charts table *)

(** A [td] cell: its [class] attribute, a list of names when it is there,
    and its text. *)
Record Td := {
  td_class : option (list string);
  td_text : string
}.

(** Lines 317-331 for one row: the peak it gives, or [None] when the row
    is passed over. *)
Definition row_peak (cells : list Td) : option Z :=
  if (4 <=? length cells)%nat then
    match last cells with
    | Some peak_cell =>
        match td_class peak_cell with
        | Some (c :: cs) =>
            if str_in "num" (c :: cs) then
              let peak_text := strip (td_text peak_cell) in
              match int_of_string (remove_commas peak_text) with
              | Ok peak_value => Some peak_value
              | Raise _ => None
              end
            else None
        | _ => None
        end
    | None => None
    end
  else None.

(** The peaks the loop of lines 316-331 meets, row by row, in the rows of
    the first table of the page; a page without a table has none. *)
Definition table_peaks (table : option (list (list Td))) : list Z :=
  omap row_peak (default [] table).

(** A page that was fetched, as [get_steamcharts_data] reads it. *)
Definition charts_page (table : option (list (list Td))) : ChartsResponse :=
  ChartsPage (table_peaks table).

(** ** The statistics printed before the loop *)

(** Lines 611-615. *)
Definition has_missing (row : gmap string Value) : bool :=
  existsb (fun '(field_cn, field_type) =>
             is_field_missing (cell row field_cn) field_type)
          critical_fields.

(** Lines 607-617. *)
Definition records_with_missing (rows : list (gmap string Value)) : nat :=
  length (List.filter has_missing rows).

(** Lines 748-750, for one critical column of the cleaned frame. *)
Definition missing_count (rows : list (gmap string Value))
    (field_cn field_type : string) : nat :=
  length (List.filter (fun row => is_field_missing (cell row field_cn) field_type) rows).

(** ** The name of the output file *)

(** The text before the last point of [s], when [s] has a point. *)
Fixpoint before_last_point (s : string) : option string :=
  match s with
  | EmptyString => None
  | String c s' =>
      match before_last_point s' with
      | Some p => Some (String c p)
      | None => if Ascii.eqb c "." then Some EmptyString else None
      end
  end.

(** [s.rsplit('.', 1)[0]] *)
Definition rsplit_point (s : string) : string := default s (before_last_point s).

(** Lines 737-739: the output file when none is given. *)
Definition default_output_file (input_file : string) : string :=
  rsplit_point input_file +:+ "_cleaned.csv".

(** ** Loading the model bank *)

Definition model_files : list (string * string) :=
  [ ("current_players", "model_current_players.pkl");
    ("peak_24h", "model_peak_24h.pkl");
    ("peak_alltime", "model_peak_alltime.pkl") ].

(** A file of the script's directory: one that [joblib.load] reads back
    as a model entry, or any other file, on which it raises. *)
Inductive StoredFile :=
  | Pickle (model_info : ModelInfo)
  | OtherFile.

(** [_load_ml_models]: the directory of the script maps a file name to
    the file, when there is one of that name. *)
Definition _load_ml_models (script_dir : gmap string StoredFile)
  : gmap string ModelInfo :=
  fold_left (fun ml_models '(target, filename) =>
               match script_dir !! filename with
               | Some (Pickle model_info) => <[target := model_info]> ml_models
               | Some OtherFile => ml_models
               | None => ml_models
               end)
            model_files ∅.

End Cleaner.

(* ===================================================================== *)
(** * train_ml_model.py: class PlayerCountPredictor                       *)
(* ===================================================================== *)

Module Trainer.
Import Py.
Import Cleaner.

(** [df[col]] for one row of the reference frame. *)
Definition column (row : gmap string Value) (col : string) : Res Value :=
  match row !! col with
  | Some v => Ok v
  | None => Raise KeyError
  end.

(** ** Feature extraction for training (one row of [extract_features]) *)

Definition calculate_game_age (current_year : Z) (date_str : Value) : Z :=
  if pd_isna date_str || py_in_strs date_str ["N/A"; "Coming Soon"; "TBA"; ""] then -1
  else age_from_date current_year date_str (-1).

Definition is_free_of (x : Value) : Z :=
  if negb (pd_isna x) && str_in (lower (py_str x)) ["free"; "免费"] then 1 else 0.

Definition extract_price (price_str : Value) : float :=
  if pd_isna price_str || str_in (lower (py_str price_str)) ["free"; "免费"; "n/a"; ""]
  then fzero
  else number_in_price price_str.

(** What [pd.to_numeric(..., errors='coerce')] reads in a text cell: the
    number, or NaN for a text it does not take as a number.  The grammar is
    that of the parser of pandas, not that of [float] (['1_0'] is 10.0 for
    [float] and no number for pandas): it is taken from outside. *)
Definition ReadText : Type := string -> float.

(** [pd.to_numeric(..., errors='coerce').fillna(0)] on one cell. *)
Definition to_numeric (read_text : ReadText) (v : Value) : float :=
  let x := match v with
           | VNone => fnan
           | VInt z => float_of_Z z
           | VFloat f => f
           | VStr s => read_text s
           end in
  if is_nan x then fzero else x.

Definition fone : float := float_of_Z 1.

(** [max(x, 1)] *)
Definition max_with_1 (x : float) : float := if fltb x fone then fone else x.

(** [a / b if b > 0 else 0] *)
Definition ratio_or_0 (a b : float) : float :=
  if fltb fzero b then fdiv a b else fzero.

Definition extract_row (read_text : ReadText) (current_year : Z)
    (row : gmap string Value) : Res (gmap string float) :=
  date ← column row col_release_date;
  price ← column row col_price;
  let price_numeric := extract_price price in
  avg ← column row col_playtime_avg;
  median ← column row col_playtime_median;
  let playtime_avg := to_numeric read_text avg in
  let playtime_price_ratio :=
    if fltb fzero price_numeric
    then fdiv playtime_avg (max_with_1 price_numeric)
    else playtime_avg in
  cur ← column row col_current_players;
  p24 ← column row col_peak_24h;
  pall ← column row col_peak_alltime;
  let current_players := to_numeric read_text cur in
  let peak_24h := to_numeric read_text p24 in
  let peak_alltime := to_numeric read_text pall in
  Ok (<["historical_growth" := ratio_or_0 peak_alltime peak_24h]>
      (<["activity_ratio" := ratio_or_0 current_players peak_24h]>
      (<["peak_alltime" := peak_alltime]>
      (<["peak_24h" := peak_24h]>
      (<["current_players" := current_players]>
      (<["playtime_price_ratio" := playtime_price_ratio]>
      (<["playtime_median" := to_numeric read_text median]>
      (<["playtime_avg" := playtime_avg]>
      (<["price_numeric" := price_numeric]>
      (<["is_free" := float_of_Z (is_free_of price)]>
      (<["game_age_years" :=
           float_of_Z (calculate_game_age current_year date)]> ∅))))))))))).

Definition extract_features (read_text : ReadText) (current_year : Z)
    (df : list (gmap string Value)) : Res (list (gmap string float)) :=
  mapM (extract_row read_text current_year) df.

(** ** Training set of one target *)

Definition feature_cols_for (target_field : string) : Res (list string) :=
  if String.eqb target_field "current_players" then
    Ok ["game_age_years"; "is_free"; "price_numeric";
        "playtime_avg"; "playtime_median"; "playtime_price_ratio";
        "peak_24h"; "peak_alltime"; "historical_growth"]
  else if String.eqb target_field "peak_24h" then
    Ok ["game_age_years"; "is_free"; "price_numeric";
        "playtime_avg"; "playtime_median"; "playtime_price_ratio";
        "current_players"; "peak_alltime"]
  else if String.eqb target_field "peak_alltime" then
    Ok ["game_age_years"; "is_free"; "price_numeric";
        "playtime_avg"; "playtime_median"; "playtime_price_ratio";
        "current_players"; "peak_24h"; "activity_ratio"]
  else Raise ValueError.

(** A cell of the feature frame. *)
Definition feature (r : gmap string float) (col : string) : float :=
  default fnan (r !! col).

(** [df[target_field] > 0] for one row. *)
Definition valid_mask (target_field : string) (r : gmap string float) : bool :=
  fltb fzero (feature r target_field).

(** [(X, y, feature_cols)] *)
Definition prepare_training_data (df : list (gmap string float)) (target_field : string)
  : Res (list (list float) * list float * list string) :=
  let df_valid := List.filter (valid_mask target_field) df in
  feature_cols ← feature_cols_for target_field;
  Ok (map (fun r => map (feature r) feature_cols) df_valid,
      map (fun r => feature r target_field) df_valid,
      feature_cols).

(** ** The training run *)

Definition targets : list string := ["current_players"; "peak_24h"; "peak_alltime"].

(** [train_model] (lines 142-263), taken from outside: the splitting, the
    fitting and the selection are those of scikit-learn.  For a target and
    its training set it gives the regressor chosen, or the exception one
    of these calls raises. *)
Definition Fit : Type :=
  string -> list (list float) -> list float -> Res (list Value -> Res float).

(** One round of the loop of [train_all_models] over the targets. *)
Definition train_target (train_model : Fit) (features_df : list (gmap string float))
    (models : gmap string ModelInfo) (target : string) : Res (gmap string ModelInfo) :=
  '(X, y, feature_cols) ← prepare_training_data features_df target;
  if Nat.ltb (length X) 10 then Ok models
  else
    model ← train_model target X y;
    Ok (<[target := {| model := model; feature_cols := feature_cols |}]> models).

(** [train_all_models]: the dictionary [self.models] that [save_models]
    writes out, one file per entry.  An exception of [train_model] leaves
    the loop before [save_models] is reached. *)
Definition train_all_models (read_text : ReadText) (train_model : Fit)
    (current_year : Z) (df : list (gmap string Value))
  : Res (gmap string ModelInfo) :=
  features_df ← extract_features read_text current_year df;
  for_each (train_target train_model features_df) ∅ targets.

(** ** Writing the models *)

(** [f"model_{target}.pkl"] *)
Definition model_path (target : string) : string := "model_" +:+ target +:+ ".pkl".

(** [save_models], as the change it makes to the directory of the script:
    one file per entry of [self.models], then the statistics and the
    feature importances, two text files.  The entries go to files of
    different names, so that the order in which they are written does not
    show. *)
Definition save_models (models : gmap string ModelInfo)
    (script_dir : gmap string StoredFile) : gmap string StoredFile :=
  let script_dir :=
    map_fold (fun target model_info dir => <[model_path target := Pickle model_info]> dir)
             script_dir models in
  <["feature_importance.txt" := OtherFile]>
    (<["model_training_stats.json" := OtherFile]> script_dir).

End Trainer.

(* ===================================================================== *)
(** * Vocabulary of the statements                                        *)
(* ===================================================================== *)

Import Py Cleaner.

(** Two column or kind names that differ. *)
Ltac str_ne := let H := fresh in intros H; vm_compute in H; discriminate H.

(** ** Classifier *)

(** None of the characters is white space for [str.strip]. *)
Definition no_space (l : list ascii) : Prop := Forall (fun c => is_space c = false) l.

(** The number the classifier reads in a cell: [float(value)] of line 168,
    where a text has been stripped by line 157. *)
Definition number_read (v : Value) : Res float :=
  py_float (match v with
            | VStr s => VStr (strip s)
            | _ => v
            end).

(** ** Estimators *)

(** The three columns of the cluster with their kinds. *)
Definition cluster : list (string * string) :=
  [("current_players", col_current_players);
   ("peak_24h", col_peak_24h);
   ("peak_alltime", col_peak_alltime)].

(** [int(x)] as the value written to the estimates. *)
Definition truncated (x : float) : option Value :=
  match int_of_float x with
  | Ok n => Some (VInt n)
  | Raise _ => None
  end.

Definition is_positive (v : Value) : bool :=
  match v with
  | VInt z => 0 <? z
  | VFloat f => fltb fzero f
  | _ => false
  end.

Definition scaled (v : Value) (c : float) : option Value :=
  match py_mul_float v c with
  | Ok x => truncated x
  | Raise _ => None
  end.

(** The row of features handed to a model (lines 381-382). *)
Definition feature_row (model_info : ModelInfo) (features_dict : gmap string Value)
  : list Value :=
  map (fun col => default (VInt 0) (features_dict !! col)) (feature_cols model_info).

(** The model consulted for a target: none when the target is not listed
    or has no entry in the bank. *)
Definition consulted (ml_models : gmap string ModelInfo) (missing : list string)
    (target : string) : option ModelInfo :=
  if str_in target missing then ml_models !! target else None.

(** The prediction of the third block: the activity ratio is refreshed
    first, and an exception there skips the prediction. *)
Definition alltime_prediction (mi : ModelInfo) (feats : gmap string Value) : option Z :=
  match refresh_activity_ratio feats with
  | Ok feats' => try_predict mi feats'
  | Raise _ => None
  end.

(** ** External completion *)

(** The columns each source is the authority for, with their kinds. *)
Definition store_fields : list (string * string) :=
  [(col_release_date, "release_date"); (col_price, "price")].
Definition steamspy_fields : list (string * string) :=
  [(col_playtime_avg, "playtime_avg"); (col_playtime_median, "playtime_median");
   (col_current_players, "current_players"); (col_peak_24h, "peak_24h")].
Definition charts_fields : list (string * string) :=
  [(col_peak_24h, "peak_24h"); (col_peak_alltime, "peak_alltime")].

(** [col] is a column of the source whose kind is among the fields asked for. *)
Definition asked (missing : list string) (fields : list (string * string))
    (col : string) : Prop :=
  exists field, In (col, field) fields /\ str_in field missing = true.

(** ** Orchestrator *)

(** The record as external completion leaves it; a completion that raises
    leaves the record as it was. *)
Definition row_after_completion (w : World) (row : gmap string Value)
  : gmap string Value :=
  match fetch_missing_data w (missing_fields_of row) with
  | Ok sup => sup ∪ row
  | Raise _ => row
  end.

(** The frame takes every value of [d] in its column. *)
Definition takes (dtypes : Dtypes) (d : gmap string Value) : Prop :=
  forall col value, d !! col = Some value -> dtypes col value = None.

(** The frame refuses a value of [d], with the exception [e]. *)
Definition refuses (dtypes : Dtypes) (d : gmap string Value) (e : Exn) : Prop :=
  exists col value, d !! col = Some value /\ dtypes col value = Some e.

(** The critical columns of a record whose field is classified missing:
    what is left unresolved in it. *)
Definition unresolved (row : gmap string Value) : list string :=
  map fst
    (List.filter (fun '(field_cn, field_type) =>
                    is_field_missing (cell row field_cn) field_type)
                 critical_fields).

(** All three cluster fields are classified missing. *)
Definition cluster_missing (row : gmap string Value) : bool :=
  is_field_missing (cell row col_current_players) "current_players"
  && is_field_missing (cell row col_peak_24h) "peak_24h"
  && is_field_missing (cell row col_peak_alltime) "peak_alltime".

(** ** Batch *)

Section BatchOutcomes.
Variable dtypes : Dtypes.
Variable ml_models : gmap string ModelInfo.
Variable current_year : Z.
Variable world_of : nat -> World.

(** Each record processed on its own, from index [n] on. *)
Fixpoint outcomes_from (n : nat) (rows : list (gmap string Value)) : list Outcome :=
  match rows with
  | [] => []
  | row :: rest =>
      clean_record dtypes ml_models current_year (world_of n) row
      :: outcomes_from (S n) rest
  end.

End BatchOutcomes.

(** The deletion marks these outcomes leave. *)
Fixpoint marks_from (n : nat) (os : list Outcome) : list nat :=
  match os with
  | [] => []
  | o :: rest => (replicate (o_deleted o) n ++ marks_from (S n) rest)%list
  end.

Fixpoint logs_from (n : nat) (os : list Outcome) : list (nat * list Event) :=
  match os with
  | [] => []
  | o :: rest => (n, o_log o) :: logs_from (S n) rest
  end.

(** ** Trainer *)

(** The raw value of the target's column is strictly positive: an integer
    or a float above zero, or a text in which pandas reads a number above
    zero.  Zero, a negative number, NaN, [None] and a text that is no
    number are not. *)
Definition raw_positive (read_text : Trainer.ReadText) (col : string)
    (row : gmap string Value) : bool :=
  match row !! col with
  | Some (VInt z) => 0 <? z
  | Some (VFloat f) => fltb fzero f
  | Some (VStr s) => fltb fzero (read_text s)
  | _ => false
  end.

(** The training set of a target out of the valid feature rows: the
    feature rows [X] and the target values [y]. *)
Definition training_X (cols : list string) (valid : list (gmap string float))
  : list (list float) :=
  map (fun r => map (Trainer.feature r) cols) valid.

Definition training_y (target : string) (valid : list (gmap string float))
  : list float :=
  map (fun r => Trainer.feature r target) valid.

(** ** Records, answers and banks used as instances *)

(** A title sold for less than one unit of currency. *)
Definition cheap_title : gmap string Value :=
  <["AppID" := VInt 10]>
  (<[col_release_date := VStr "Nov 1, 2018"]>
  (<[col_price := VStr "$0.99"]>
  (<[col_playtime_avg := VInt 600]>
  (<[col_playtime_median := VInt 400]>
  (<[col_current_players := VInt 50]>
  (<[col_peak_24h := VInt 80]>
  (<[col_peak_alltime := VInt 900]> ∅))))))).

(** A title released last year, with three players on line. *)
Definition young_title : gmap string Value :=
  <["AppID" := VInt 20]>
  (<[col_release_date := VStr "Mar 5, 2024"]>
  (<[col_price := VStr "$9.99"]>
  (<[col_playtime_avg := VInt 120]>
  (<[col_playtime_median := VInt 90]>
  (<[col_current_players := VInt 3]>
  (<[col_peak_24h := VInt 0]>
  (<[col_peak_alltime := VInt 40]> ∅))))))).

(** The scenario of the design: released in 2018, 50 players on line, both
    peaks unknown. *)
Definition old_title : gmap string Value :=
  <["AppID" := VInt 10]>
  (<[col_release_date := VStr "Nov 1, 2018"]>
  (<[col_price := VStr "$29.99"]>
  (<[col_playtime_avg := VInt 600]>
  (<[col_playtime_median := VInt 400]>
  (<[col_current_players := VInt 50]>
  (<[col_peak_24h := VInt 0]>
  (<[col_peak_alltime := VInt 0]> ∅))))))).

(** The scenario of the design: the three counts of the cluster are 0. *)
Definition idle_title : gmap string Value :=
  <[col_current_players := VInt 0]> old_title.

(** Everything is known but the price. *)
Definition unpriced_title : gmap string Value :=
  <[col_price := VFloat fnan]>
  (<[col_peak_24h := VInt 80]> (<[col_peak_alltime := VInt 900]> old_title)).

(** The scenario of the design, the price unknown as well. *)
Definition unpriced_old_title : gmap string Value :=
  <[col_price := VFloat fnan]> old_title.

(** Neither price nor play times. *)
Definition untimed_title : gmap string Value :=
  <[col_playtime_avg := VInt 0]> (<[col_playtime_median := VInt 0]> unpriced_title).

(** No provider answers. *)
Definition silent_world : World :=
  {| w_details := None; w_steamspy := None;
     w_charts := ChartsFailed; w_steamspy_again := None |}.

(** The statistics give 70 players on line; the charts page gives an
    all-time peak of 900, and the statistics, asked again, 80. *)
Definition answering_world : World :=
  {| w_details := None;
     w_steamspy := Some {| average_forever := Some (VInt 300);
                           median_forever := Some (VInt 200);
                           ccu := Some (VInt 70) |};
     w_charts := ChartsPage [450; 900; 610];
     w_steamspy_again := Some {| average_forever := Some (VInt 300);
                                 median_forever := Some (VInt 200);
                                 ccu := Some (VInt 80) |} |}.

(** The statistics give the live count as a text. *)
Definition garbled_world : World :=
  {| w_details := None;
     w_steamspy := Some {| average_forever := Some (VInt 300);
                           median_forever := Some (VInt 200);
                           ccu := Some (VStr "many") |};
     w_charts := ChartsFailed;
     w_steamspy_again := None |}.

(** Three records: one the heuristic resolves, one whose lookup raises,
    one that lacks only its price. *)
Definition small_batch : list (gmap string Value) :=
  [old_title; idle_title; unpriced_title].

Definition small_batch_world (idx : nat) : World :=
  if Nat.eqb idx 1 then garbled_world else silent_world.

(** A bank with one model, which answers 120.7 whatever the features. *)
Definition one_model_bank : gmap string ModelInfo :=
  {[ "peak_24h" := {| model := fun _ => Ok (float_of_ratio 1207 10);
                      feature_cols := ["game_age_years"; "current_players"] |} ]}.

(** A reference row with the given live count and 24-hour peak, and no
    all-time peak. *)
Definition reference_row (current_players peak_24h : Z) : gmap string Value :=
  <["AppID" := VInt current_players]>
  (<[col_release_date := VStr "Nov 1, 2018"]>
  (<[col_price := VStr "$29.99"]>
  (<[col_playtime_avg := VInt 600]>
  (<[col_playtime_median := VInt 400]>
  (<[col_current_players := VInt current_players]>
  (<[col_peak_24h := VInt peak_24h]>
  (<[col_peak_alltime := VFloat fnan]> ∅))))))).

(** Twelve rows: all have a live count, five have a 24-hour peak. *)
Definition reference_rows : list (gmap string Value) :=
  [reference_row 10 15; reference_row 20 0; reference_row 30 45;
   reference_row 40 0; reference_row 50 75; reference_row 60 0;
   reference_row 70 105; reference_row 80 0; reference_row 90 135;
   reference_row 100 0; reference_row 110 0; reference_row 120 0].

(** A regressor that answers the first target value it was given. *)
Definition first_value_fit : Trainer.Fit :=
  fun _ _ y => Ok (fun _ => Ok (hd fzero y)).

(** A reading of texts that finds no number in any. *)
Definition no_number : Trainer.ReadText := fun _ => fnan.

(** A frame whose columns take every value: columns of dtype [object], or
    a pandas that upcasts the column. *)
Definition open_frame : Dtypes := fun _ _ => None.

(** A frame whose price column holds floats only, all prices being empty
    when the file is read, under a pandas that raises on a value that does
    not fit: the column takes no text. *)
Definition numeric_price_frame : Dtypes :=
  fun col value =>
    if String.eqb col col_price
    then match value with
         | VStr _ => Some TypeError
         | _ => None
         end
    else None.

(** ** The classifier on the two text kinds *)

(** The texts that stand for no value: blank, [n/a] and [nan] in any
    letter case, and for a release date [Coming Soon] and [TBA] as they
    are written here; white space around the text is left out. *)
Definition text_sentinel (field_type : string) (s : string) : bool :=
  let t := strip s in
  str_in (lower t) [""; "n/a"; "nan"]
  || (String.eqb field_type "release_date" && str_in t ["Coming Soon"; "TBA"]).

(** ** The store request *)

(** The seconds slept in all. *)
Definition total (waits : list Z) : Z := fold_right Z.add 0 waits.

(** A reply after which the loop goes on to the next attempt, if one is
    left: the status 429, or an exception, that of a [success] without
    [data] included. *)
Definition retried {D} (r : StoreReply D) : bool :=
  match r with
  | TooManyRequests | RequestFailed | Decoded (Some (true, None)) => true
  | _ => false
  end.

(** What a reply that is not retried makes the call return. *)
Definition answer_of {D} (r : StoreReply D) : option D :=
  match r with
  | Decoded (Some (true, Some d)) => Some d
  | _ => None
  end.

(** The sleep that follows a retried reply when another attempt is left. *)
Definition wait_after {D} (reply : nat -> StoreReply D) (attempt : nat) : Z :=
  match reply attempt with
  | TooManyRequests => (Z.of_nat attempt + 1) * 30
  | _ => 5
  end.

(** ** The charts *)

(** [m] is the largest of the peaks. *)
Definition largest (m : Z) (peaks : list Z) : Prop :=
  In m peaks /\ Forall (fun p => p <= m) peaks.

(** A digit or a comma. *)
Definition digit_or_comma (c : ascii) : bool := is_digit c || Ascii.eqb c ",".

(** A table as the charts site lays it out: a heading row, then one row
    a month, the peak in the last cell. *)
Definition charts_rows : list (list Td) :=
  [ [ {| td_class := None; td_text := "Month" |} ];
    [ {| td_class := None; td_text := "May 2024" |};
      {| td_class := Some ["right"; "num-f"]; td_text := "812.6" |};
      {| td_class := Some ["right"]; td_text := "+1.0" |};
      {| td_class := Some ["right"; "num"]; td_text := "1,234" |} ];
    [ {| td_class := None; td_text := "April 2024" |};
      {| td_class := Some ["right"; "num-f"]; td_text := "640.1" |};
      {| td_class := Some ["right"]; td_text := "-" |};
      {| td_class := Some ["right"; "num"]; td_text := "987" |} ] ].

(** Only the charts answer, with that table. *)
Definition charts_world : World :=
  {| w_details := None; w_steamspy := None;
     w_charts := charts_page (Some charts_rows);
     w_steamspy_again := None |}.

(** ** The providers a list of missing fields calls for (lines 508-510) *)

Definition needs_store (missing_fields : list string) : bool :=
  existsb (fun field => str_in field ["release_date"; "price"]) missing_fields.

Definition needs_steamspy (missing_fields : list string) : bool :=
  existsb (fun field => str_in field
             ["playtime_avg"; "playtime_median"; "current_players"; "peak_24h"])
          missing_fields.

Definition needs_steamcharts (missing_fields : list string) : bool :=
  str_in "peak_alltime" missing_fields || str_in "peak_24h" missing_fields.

(** An entry of the aggregate statistics that is a number, or is not
    there. *)
Definition numeric_entry (o : option Value) : bool :=
  match o with
  | Some (VStr _) | Some VNone => false
  | _ => true
  end.

(** ** The estimates a record is kept with *)

(** The kinds handed to the estimator for a record as external completion
    left it (lines 674 and 678). *)
Definition estimation_targets (row : gmap string Value) (missing_fields : list string)
  : list string :=
  types_of (List.filter is_player_column (still_missing_of row missing_fields)).

(** [v] is the estimate that the estimator, called as the loop body calls
    it for this record, gives for the column. *)
Definition accepted_estimate (ml_models : gmap string ModelInfo) (current_year : Z)
    (w : World) (row : gmap string Value) (col : string) (v : Value) : Prop :=
  exists sup est,
    fetch_missing_data w (missing_fields_of row) = Ok sup
    /\ estimate_player_fields ml_models current_year (sup ∪ row)
         (estimation_targets (sup ∪ row) (missing_fields_of row)) = Ok est
    /\ est !! col = Some v.

(** How an outcome ends when the text ['Free'] is to be written: salvaged
    when the frame takes it, dropped with one mark when it does not. *)
Definition free_written (dtypes : Dtypes) (o : Outcome) : Prop :=
  match dtypes col_price (VStr "Free") with
  | None => decision o = Salvaged /\ o_row o !! col_price = Some (VStr "Free")
  | Some e => o_deleted o = 1%nat /\ o_completed o = 0%nat
  end.

(** The places of the [try] block of one iteration where an exception can
    come from, each by what goes into the iteration: the external lookup
    (line 649); the assignment of a supplied value (line 663); the
    estimation (line 687), called when some but not all of the cluster
    fields are missing after completion; the assignment of an estimate
    (line 692); and the assignment of ['Free'], at line 655 for a record
    that lacks only a price that completion does not supply, at line 703
    for a record in which completion and the estimates [est] leave only
    the price unresolved. *)
Inductive raises_in (dtypes : Dtypes) (ml_models : gmap string ModelInfo)
    (current_year : Z) (w : World) (row : gmap string Value) : Exn -> Prop :=
  | lookup_raises e :
      fetch_missing_data w (missing_fields_of row) = Raise e ->
      raises_in dtypes ml_models current_year w row e
  | supply_refused sup e :
      fetch_missing_data w (missing_fields_of row) = Ok sup ->
      refuses dtypes sup e ->
      raises_in dtypes ml_models current_year w row e
  | estimation_raises sup e :
      fetch_missing_data w (missing_fields_of row) = Ok sup ->
      takes dtypes sup ->
      cluster_missing (sup ∪ row) = false ->
      estimation_targets (sup ∪ row) (missing_fields_of row) <> [] ->
      estimate_player_fields ml_models current_year (sup ∪ row)
        (estimation_targets (sup ∪ row) (missing_fields_of row)) = Raise e ->
      raises_in dtypes ml_models current_year w row e
  | estimate_refused sup est e :
      fetch_missing_data w (missing_fields_of row) = Ok sup ->
      takes dtypes sup ->
      cluster_missing (sup ∪ row) = false ->
      estimation_targets (sup ∪ row) (missing_fields_of row) <> [] ->
      estimate_player_fields ml_models current_year (sup ∪ row)
        (estimation_targets (sup ∪ row) (missing_fields_of row)) = Ok est ->
      refuses dtypes est e ->
      raises_in dtypes ml_models current_year w row e
  | early_price_refused e :
      missing_fields_of row = ["price"] ->
      (forall sup, fetch_missing_data w ["price"] = Ok sup -> sup !! col_price = None) ->
      dtypes col_price (VStr "Free") = Some e ->
      raises_in dtypes ml_models current_year w row e
  | late_price_refused sup est e :
      fetch_missing_data w (missing_fields_of row) = Ok sup ->
      takes dtypes sup ->
      cluster_missing (sup ∪ row) = false ->
      (estimation_targets (sup ∪ row) (missing_fields_of row) <> [] ->
       estimate_player_fields ml_models current_year (sup ∪ row)
         (estimation_targets (sup ∪ row) (missing_fields_of row)) = Ok est
       /\ takes dtypes est) ->
      (estimation_targets (sup ∪ row) (missing_fields_of row) = [] -> est = ∅) ->
      unresolved (est ∪ (sup ∪ row)) = [col_price] ->
      dtypes col_price (VStr "Free") = Some e ->
      raises_in dtypes ml_models current_year w row e.

(** A title with one player at its 24-hour peak and no live count. *)
Definition quiet_title : gmap string Value :=
  <[col_current_players := VInt 0]>
  (<[col_peak_24h := VInt 1]> (<[col_peak_alltime := VInt 5]> old_title)).

(** ** The counts of a batch *)

(** The record is not marked for deletion. *)
Definition kept (o : Outcome) : bool := Nat.eqb (o_deleted o) 0.

Definition dropped (o : Outcome) : bool := Nat.ltb 0 (o_deleted o).

Definition completed (o : Outcome) : bool := Nat.eqb (o_completed o) 1.

(** ** Texts with a point *)

Fixpoint has_point (s : string) : bool :=
  match s with
  | EmptyString => false
  | String c s' => Ascii.eqb c "." || has_point s'
  end.

(** ** Signs *)

(** A float that is a number and is not negative: [+0.0], a positive
    number, or [+inf]. *)
Definition not_negative (f : float) : bool :=
  match f with
  | S754_zero false | S754_infinity false | S754_finite false _ _ => true
  | _ => false
  end.

(** A digit or a point. *)
Definition digit_or_point (c : ascii) : bool := is_digit c || Ascii.eqb c ".".

(** ** What the providers supply *)

(** A number that is not zero and, for a float, is above zero: what the
    tests of lines 543-572 let through for a play time or a count. *)
Definition supplied_number (v : Value) : bool :=
  match v with
  | VInt z => negb (z =? 0)
  | VFloat f => fltb fzero f
  | _ => false
  end.

(** ** Cells that do not read as numbers *)

(** The columns feature extraction reads with [float]. *)
Definition numeric_columns : list string :=
  [col_playtime_avg; col_playtime_median; col_current_players; col_peak_24h;
   col_peak_alltime].

(** The record holds in the column a value that is true for [or] and that
    [float] rejects: a text that is not empty and is not a numeric
    literal, or an integer beyond the range of floats. *)
Definition unreadable (row : gmap string Value) (col : string) : Prop :=
  exists v, row !! col = Some v /\ py_truthy v = true /\ is_Raise (py_float v) = true.

(** A title whose 24-hour peak is a text. *)
Definition mistyped_title : gmap string Value :=
  <[col_peak_24h := VStr "unknown"]> old_title.

(** ** The features *)

(** The names [_extract_features_for_prediction] gives a value to. *)
Definition feature_names : list string :=
  ["game_age_years"; "is_free"; "price_numeric"; "playtime_avg"; "playtime_median";
   "playtime_price_ratio"; "current_players"; "peak_24h"; "peak_alltime";
   "activity_ratio"; "historical_growth"].

(** The features computed from a target: the target itself and the ratios
    it enters. *)
Definition derived_from (target : string) : list string :=
  if String.eqb target "current_players" then ["current_players"; "activity_ratio"]
  else if String.eqb target "peak_24h"
       then ["peak_24h"; "activity_ratio"; "historical_growth"]
  else if String.eqb target "peak_alltime" then ["peak_alltime"; "historical_growth"]
  else [target].

(** ** The model files *)

(** The entry [joblib.load] gives for a file name of the directory, when
    the file is there and loads. *)
Definition loadable (script_dir : gmap string StoredFile) (filename : string)
  : option ModelInfo :=
  match script_dir !! filename with
  | Some (Pickle model_info) => Some model_info
  | _ => None
  end.

(** A directory that holds a model of an earlier run for the 24-hour peak. *)
Definition earlier_run : gmap string StoredFile :=
  {[ "model_peak_24h.pkl" :=
       Pickle {| model := fun _ => Ok (float_of_Z 7);
                 feature_cols := ["game_age_years"] |} ]}.

(* ===================================================================== *)
(** * Properties                                                          *)
(* ===================================================================== *)

(** ** Floats and text *)

Lemma positive_not_zero_nor_nan (f : float) :
  fltb fzero f = true -> feqb f fzero = false /\ is_nan f = false.
Proof.
  destruct f as [s | s | | s m e]; try destruct s; cbn; intros H;
    try discriminate H; split; reflexivity.
Qed.

(** [float(n)] for an integer that is not zero. *)

Lemma shr_1_nonneg (mrs : shr_record) : 0 <= shr_m mrs -> 0 <= shr_m (shr_1 mrs).
Proof.
  destruct mrs as [m r s]. cbn [shr_m]. intros H.
  destruct m as [|[p|p|]|p]; cbn; lia.
Qed.

Lemma digits2_size (p : positive) : digits2_pos p = Pos.size p.
Proof. induction p as [p IH|p IH|]; cbn; [rewrite IH| rewrite IH|]; reflexivity. Qed.

Lemma Zdigits2_log2 (m : Z) : 0 < m -> Zdigits2 m = Z.log2 m + 1.
Proof.
  destruct m as [|p|p]; try lia. intros _. cbn [Zdigits2]. rewrite digits2_size.
  destruct p as [p|p|]; cbn [Z.log2 Pos.size]; lia.
Qed.

Lemma shr_1_div2 (mrs : shr_record) :
  0 <= shr_m mrs -> shr_m (shr_1 mrs) = Z.div2 (shr_m mrs).
Proof.
  destruct mrs as [m r s]. cbn [shr_m]. intros H.
  destruct m as [|[p|p|]|p]; try reflexivity. lia.
Qed.

Lemma iter_pos_shiftr (n : positive) :
  forall mrs,
    0 <= shr_m mrs ->
    shr_m (SpecFloat.iter_pos shr_1 n mrs) = Z.shiftr (shr_m mrs) (Z.pos n).
Proof.
  induction n as [n IH|n IH|]; intros mrs H; cbn [SpecFloat.iter_pos].
  - assert (H1 : 0 <= shr_m (shr_1 mrs)) by (apply shr_1_nonneg, H).
    assert (H2 : 0 <= shr_m (SpecFloat.iter_pos shr_1 n (shr_1 mrs))).
    { rewrite IH by exact H1. apply Z.shiftr_nonneg, H1. }
    rewrite IH by exact H2. rewrite IH by exact H1.
    rewrite (shr_1_div2 mrs H), Z.div2_spec.
    rewrite !Z.shiftr_shiftr by lia. f_equal. lia.
  - assert (H2 : 0 <= shr_m (SpecFloat.iter_pos shr_1 n mrs)).
    { rewrite IH by exact H. apply Z.shiftr_nonneg, H. }
    rewrite IH by exact H2. rewrite IH by exact H.
    rewrite Z.shiftr_shiftr by lia. f_equal. lia.
  - rewrite (shr_1_div2 mrs H), Z.div2_spec. reflexivity.
Qed.

(** One shift to the exponent of the format, of a mantissa that does not
    underflow: the mantissa stays positive, and digits and exponent move
    together. *)
Lemma shr_fexp_spec (m e : Z) (l : location) (mrs : shr_record) (e' : Z) :
  0 < m ->
  SpecFloat.emin prec emax < Zdigits2 m + e ->
  shr_fexp prec emax m e l = (mrs, e') ->
  0 < shr_m mrs
  /\ Zdigits2 (shr_m mrs) + e' = Zdigits2 m + e
  /\ e' = Z.max e (fexp prec emax (Zdigits2 m + e)).
Proof.
  intros Hm He. unfold shr_fexp, shr.
  assert (H0 : shr_m (shr_record_of_loc m l) = m) by (destruct l as [|[]]; reflexivity).
  pose proof (Zdigits2_log2 m Hm) as Hd.
  destruct (fexp prec emax (Zdigits2 m + e) - e) as [|p|p] eqn:Hn; intros [= <- <-].
  - rewrite H0. repeat split; lia.
  - rewrite iter_pos_shiftr by (rewrite H0; lia). rewrite H0.
    assert (Hp : Z.pos p <= Z.log2 m).
    { unfold fexp, SpecFloat.emin, prec, emax in *. lia. }
    assert (Hl : Z.log2 (Z.shiftr m (Z.pos p)) = Z.log2 m - Z.pos p).
    { rewrite Z.log2_shiftr by exact Hm. lia. }
    assert (Hpos : 0 < Z.shiftr m (Z.pos p)).
    { assert (Z.shiftr m (Z.pos p) <> 0).
      { rewrite Z.shiftr_eq_0_iff. lia. }
      pose proof (proj2 (Z.shiftr_nonneg m (Z.pos p)) ltac:(lia)). lia. }
    split; [exact Hpos|].
    rewrite (Zdigits2_log2 _ Hpos), Hl. split; lia.
  - rewrite H0. repeat split; lia.
Qed.

Lemma round_nearest_even_bounds (m : Z) (l : location) :
  m <= round_nearest_even m l <= m + 1.
Proof. destruct l as [|[]]; cbn; try lia. destruct (Z.even m); lia. Qed.

(** Rounding a positive mantissa that does not underflow gives a number
    that is not zero; it is finite when the exponent has room. *)
Lemma binary_round_aux_positive (sx : bool) (mx ex : Z) (lx : location) :
  0 < mx ->
  SpecFloat.emin prec emax < Zdigits2 mx + ex ->
  match binary_round_aux prec emax sx mx ex lx with
  | S754_finite s _ _ | S754_infinity s => s = sx
  | _ => False
  end
  /\ (ex <= emax - prec -> Zdigits2 mx + ex < emax ->
      exists m e, binary_round_aux prec emax sx mx ex lx = S754_finite sx m e).
Proof.
  intros Hm He. unfold binary_round_aux.
  destruct (shr_fexp prec emax mx ex lx) as [mrs' e'] eqn:E1.
  destruct (shr_fexp_spec mx ex lx mrs' e' Hm He E1) as (H1 & D1 & X1).
  pose proof (round_nearest_even_bounds (shr_m mrs') (loc_of_shr_record mrs')) as Hr.
  set (m2 := round_nearest_even (shr_m mrs') (loc_of_shr_record mrs')) in *.
  assert (Hm2 : 0 < m2) by lia.
  assert (Hd2 : Zdigits2 (shr_m mrs') <= Zdigits2 m2 <= Zdigits2 (shr_m mrs') + 1).
  { rewrite (Zdigits2_log2 _ H1), (Zdigits2_log2 _ Hm2).
    pose proof (Z.log2_le_mono (shr_m mrs') m2 ltac:(lia)).
    pose proof (Z.log2_le_mono m2 (Z.succ (shr_m mrs')) ltac:(lia)).
    pose proof (Z.log2_succ_le (shr_m mrs')). lia. }
  destruct (shr_fexp prec emax m2 e' loc_Exact) as [mrs'' e''] eqn:E2.
  destruct (shr_fexp_spec m2 e' loc_Exact mrs'' e'' Hm2 ltac:(lia) E2) as (H2 & D2 & X2).
  destruct (shr_m mrs'') as [|m|m]; try lia.
  split.
  - destruct (e'' <=? emax - prec); reflexivity.
  - intros Hex Hroom.
    assert (Hle : e'' <= emax - prec).
    { unfold fexp, SpecFloat.emin, prec, emax in *. lia. }
    apply Z.leb_le in Hle. rewrite Hle. eauto.
Qed.

Lemma digits2_iter_xO (p k : positive) :
  Z.pos (digits2_pos (Pos.iter xO p k)) = Z.pos (digits2_pos p) + Z.pos k.
Proof.
  induction k as [|k IH] using Pos.peano_ind.
  - cbn. lia.
  - rewrite Pos.iter_succ. cbn [digits2_pos]. lia.
Qed.

(** [float(n)]: for an integer that is not zero, a float that is not
    zero, of the sign of the integer; below [2^1023] in absolute value, a
    finite one. *)
Lemma float_of_Z_nonzero (z : Z) :
  z <> 0 ->
  match float_of_Z z with
  | S754_finite s _ _ | S754_infinity s => s = (z <? 0)
  | _ => False
  end
  /\ (Z.abs z < 2 ^ 1023 -> exists m e, float_of_Z z = S754_finite (z <? 0) m e).
Proof.
  intros Hz. unfold float_of_Z, binary_normalize.
  assert (Hround : forall (sx : bool) (p : positive),
             match binary_round prec emax sx p 0 with
             | S754_finite s _ _ | S754_infinity s => s = sx
             | _ => False
             end
             /\ (Z.pos p < 2 ^ 1023 ->
                 exists m e, binary_round prec emax sx p 0 = S754_finite sx m e)).
  { intros sx p. unfold binary_round, shl_align.
    assert (Hsmall : Z.pos p < 2 ^ 1023 -> Z.pos (digits2_pos p) <= 1023).
    { intros Hp. change (Z.pos (digits2_pos p)) with (Zdigits2 (Z.pos p)).
      rewrite Zdigits2_log2 by lia.
      pose proof (proj1 (Z.log2_lt_pow2 (Z.pos p) 1023 ltac:(lia)) Hp). lia. }
    destruct (fexp prec emax (Z.pos (digits2_pos p) + 0) - 0) as [|d|d] eqn:Hn.
    - destruct (binary_round_aux_positive sx (Z.pos p) 0 loc_Exact) as [Ha Hb];
        [lia | cbn [Zdigits2]; unfold SpecFloat.emin, prec, emax; lia |].
      split; [exact Ha|]. intros Hp. apply Hb; [unfold prec, emax; lia|].
      cbn [Zdigits2]. specialize (Hsmall Hp). unfold emax. lia.
    - destruct (binary_round_aux_positive sx (Z.pos p) 0 loc_Exact) as [Ha Hb];
        [lia | cbn [Zdigits2]; unfold SpecFloat.emin, prec, emax; lia |].
      split; [exact Ha|]. intros Hp. apply Hb; [unfold prec, emax; lia|].
      cbn [Zdigits2]. specialize (Hsmall Hp). unfold emax. lia.
    - assert (Hf : fexp prec emax (Z.pos (digits2_pos p) + 0) = Z.neg d) by lia.
      rewrite Hf.
      destruct (binary_round_aux_positive sx (Z.pos (Pos.iter xO p d)) (Z.neg d) loc_Exact)
        as [Ha Hb].
      + lia.
      + cbn [Zdigits2]. rewrite digits2_iter_xO.
        unfold fexp, SpecFloat.emin, prec, emax in *. lia.
      + split; [exact Ha|]. intros Hp. apply Hb; [unfold prec, emax; lia|].
        cbn [Zdigits2]. rewrite digits2_iter_xO. specialize (Hsmall Hp).
        unfold emax. lia. }
  destruct z as [|p|p]; [contradiction| |].
  - destruct (Hround false p) as [Ha Hb]. split; [exact Ha|].
    intros Hp. apply Hb. lia.
  - destruct (Hround true p) as [Ha Hb]. split; [exact Ha|].
    intros Hp. apply Hb. lia.
Qed.

(** An integer reads as a float that is no NaN, above zero exactly when
    the integer is. *)
Lemma float_of_Z_positive (z : Z) :
  is_nan (float_of_Z z) = false /\ fltb fzero (float_of_Z z) = (0 <? z).
Proof.
  destruct (Z.eq_dec z 0) as [->|Hz]; [split; reflexivity|].
  destruct (float_of_Z_nonzero z Hz) as [Hs _].
  destruct (float_of_Z z) as [s|s| |s m e]; try contradiction; subst s;
    (split; [reflexivity|]); unfold fltb, fzero, SFltb, SFcompare;
    destruct (Z.ltb_spec z 0), (Z.ltb_spec 0 z); try reflexivity; lia.
Qed.

Lemma lower_char_n (c : ascii) :
  lower_char c = "n"%char -> c = "n"%char \/ c = "N"%char.
Proof.
  destruct c as [[] [] [] [] [] [] [] []]; vm_compute; intros H;
    first [ discriminate H | left; reflexivity | right; reflexivity ].
Qed.

Lemma lower_char_a (c : ascii) :
  lower_char c = "a"%char -> c = "a"%char \/ c = "A"%char.
Proof.
  destruct c as [[] [] [] [] [] [] [] []]; vm_compute; intros H;
    first [ discriminate H | left; reflexivity | right; reflexivity ].
Qed.

Lemma lower_char_slash (c : ascii) : lower_char c = "/"%char -> c = "/"%char.
Proof.
  destruct c as [[] [] [] [] [] [] [] []]; vm_compute; intros H;
    first [ discriminate H | reflexivity ].
Qed.

(** A text that reads [nan] in lower case is read by [float] as NaN. *)
Lemma float_of_nan_text (s : string) :
  lower s = "nan" -> float_of_string s = Ok fnan.
Proof.
  destruct s as [|c1 [|c2 [|c3 [|c4 s]]]]; cbn [lower]; intros H;
    try discriminate H.
  injection H as H1 H2 H3.
  apply lower_char_n in H1, H3. apply lower_char_a in H2.
  destruct H1, H2, H3; subst; vm_compute; reflexivity.
Qed.

(** A text that reads [n/a] in lower case is no number. *)
Lemma float_of_na_text (s : string) :
  lower s = "n/a" -> float_of_string s = Raise ValueError.
Proof.
  destruct s as [|c1 [|c2 [|c3 [|c4 s]]]]; cbn [lower]; intros H;
    try discriminate H.
  injection H as H1 H2 H3.
  apply lower_char_n in H1. apply lower_char_slash in H2. apply lower_char_a in H3.
  destruct H1, H3; subst; vm_compute; reflexivity.
Qed.

(** *** A numeric literal holds no white space *)

Lemma cspace_is_space (c : ascii) : is_cspace c = true -> is_space c = true.
Proof.
  destruct c as [[] [] [] [] [] [] [] []]; vm_compute; intros H;
    first [ discriminate H | reflexivity ].
Qed.

Lemma digit_no_space (c : ascii) : is_digit c = true -> is_space c = false.
Proof.
  destruct c as [[] [] [] [] [] [] [] []]; vm_compute; intros H;
    first [ discriminate H | reflexivity ].
Qed.

Lemma lower_no_space (c : ascii) : is_space (lower_char c) = false -> is_space c = false.
Proof.
  destruct c as [[] [] [] [] [] [] [] []]; vm_compute; intros H;
    first [ discriminate H | reflexivity ].
Qed.

Lemma lower_word_no_space (s : string) :
  no_space (list_ascii_of_string (lower s)) -> no_space (list_ascii_of_string s).
Proof.
  unfold no_space. induction s as [|c s IH]; cbn; intros H; [constructor|].
  inversion H; subst. constructor; [apply lower_no_space; assumption | auto].
Qed.

Lemma span_digits_app (l ds r : list ascii) :
  span_digits l = (ds, r) -> l = (ds ++ r)%list /\ no_space ds.
Proof.
  revert ds r. induction l as [|c l IH]; intros ds r; cbn.
  - intros [= <- <-]. split; [reflexivity | constructor].
  - destruct (is_digit c) eqn:Hd.
    + destruct (span_digits l) as [ds' r']. intros [= <- <-].
      destruct (IH ds' r' eq_refl) as [-> Hns]. split; [reflexivity|].
      constructor; [apply digit_no_space, Hd | exact Hns].
    + intros [= <- <-]. split; [reflexivity | constructor].
Qed.

Lemma take_sign_no_space (l r : list ascii) (neg : bool) :
  take_sign l = (neg, r) -> no_space r -> no_space l.
Proof.
  unfold take_sign. destruct l as [|c l]; [intros [= <- <-]; auto|].
  destruct (Ascii.eqb_spec c "-") as [-> | _].
  { intros [= <- <-] H. constructor; [reflexivity | exact H]. }
  destruct (Ascii.eqb_spec c "+") as [-> | _].
  { intros [= <- <-] H. constructor; [reflexivity | exact H]. }
  intros [= <- <-] H. exact H.
Qed.

Lemma parse_exponent_no_space (l : list ascii) (ex : Z) :
  parse_exponent l = (ex, []) -> no_space l.
Proof.
  unfold parse_exponent. destruct l as [|c r]; [constructor|].
  destruct (is_e c) eqn:He; [|discriminate].
  destruct (take_sign r) as [eneg r1] eqn:Hs.
  destruct (span_digits r1) as [ed r2] eqn:Hd.
  destruct ed as [|d ed]; [discriminate|].
  intros [= _ ->]. apply span_digits_app in Hd as [-> Hns].
  rewrite app_nil_r in Hs. constructor.
  - unfold is_e in He. apply orb_prop in He as [He | He];
      apply Ascii.eqb_eq in He; subst c; reflexivity.
  - apply (take_sign_no_space _ _ _ Hs Hns).
Qed.

Lemma parse_number_no_space (neg : bool) (l : list ascii) (f : float) :
  parse_number neg l = Some f -> no_space l.
Proof.
  unfold parse_number.
  destruct (span_digits l) as [ip r1] eqn:H1.
  apply span_digits_app in H1 as [-> Hip].
  destruct r1 as [|c r].
  - rewrite !app_nil_r. intros _. exact Hip.
  - destruct (Ascii.eqb_spec c ".") as [-> | _].
    + destruct (span_digits r) as [fp r2] eqn:H2.
      apply span_digits_app in H2 as [-> Hfp].
      destruct (ip ++ fp)%list; [discriminate|].
      destruct (parse_exponent r2) as [ex [|x rest]] eqn:He; [|discriminate].
      intros _. apply parse_exponent_no_space in He.
      apply Forall_app. split; [exact Hip|]. constructor; [reflexivity|].
      apply Forall_app. split; assumption.
    + rewrite app_nil_r. destruct ip as [|d ip']; [discriminate|].
      destruct (parse_exponent (c :: r)) as [ex [|x rest]] eqn:He; [|discriminate].
      intros _. apply parse_exponent_no_space in He.
      apply Forall_app. split; assumption.
Qed.

Lemma parse_float_no_space (l : list ascii) (f : float) :
  parse_float_ascii l = Some f -> no_space l.
Proof.
  unfold parse_float_ascii. destruct (take_sign l) as [neg r] eqn:Hs.
  intros H. apply (take_sign_no_space _ _ _ Hs).
  destruct (String.eqb_spec (lower (string_of_list_ascii r)) "inf") as [He | _].
  { rewrite <- (list_ascii_of_string_of_list_ascii r). apply lower_word_no_space.
    rewrite He. repeat constructor. }
  destruct (String.eqb_spec (lower (string_of_list_ascii r)) "infinity") as [He | _].
  { rewrite <- (list_ascii_of_string_of_list_ascii r). apply lower_word_no_space.
    rewrite He. repeat constructor. }
  cbn [orb] in H.
  destruct (String.eqb_spec (lower (string_of_list_ascii r)) "nan") as [He | _].
  { rewrite <- (list_ascii_of_string_of_list_ascii r). apply lower_word_no_space.
    rewrite He. repeat constructor. }
  apply (parse_number_no_space _ _ _ H).
Qed.

Lemma drop_underscores_no_space (lit l : list ascii) :
  forall prev, drop_underscores prev lit = Some l -> no_space l -> no_space lit.
Proof.
  revert l. induction lit as [|c lit IH]; intros l prev; cbn; [constructor|].
  destruct (Ascii.eqb_spec c "_") as [-> | _].
  - destruct (is_digit prev); [|discriminate]. intros H Hns.
    constructor; [reflexivity | exact (IH _ _ H Hns)].
  - destruct (_ && _); [discriminate|].
    destruct (drop_underscores c lit) as [l'|] eqn:Hd; [|discriminate].
    intros [= <-] Hns. inversion Hns; subst.
    constructor; [assumption | exact (IH _ _ Hd ltac:(assumption))].
Qed.

Lemma lstrip_by_sub (p q : ascii -> bool) (s : string) :
  (forall c, q c = true -> p c = true) ->
  lstrip_by p (lstrip_by q s) = lstrip_by p s.
Proof.
  intros Hsub. induction s as [|c s IH]; cbn; [reflexivity|].
  destruct (q c) eqn:Hq.
  - rewrite (Hsub c Hq). exact IH.
  - reflexivity.
Qed.

Lemma rstrip_by_cons (p : ascii -> bool) (c : ascii) (s : string) :
  rstrip_by p (String c s)
  = match rstrip_by p s with
    | EmptyString => if p c then EmptyString else String c EmptyString
    | r => String c r
    end.
Proof. reflexivity. Qed.

Lemma rstrip_by_sub (p q : ascii -> bool) (s : string) :
  (forall c, q c = true -> p c = true) ->
  rstrip_by p (rstrip_by q s) = rstrip_by p s.
Proof.
  intros Hsub. induction s as [|c s IH]; [reflexivity|].
  rewrite (rstrip_by_cons q c s), (rstrip_by_cons p c s), <- IH.
  destruct (rstrip_by q s) as [|d t].
  - cbn [rstrip_by]. destruct (q c) eqn:Hc.
    + rewrite (Hsub c Hc). reflexivity.
    + reflexivity.
  - rewrite (rstrip_by_cons p c (String d t)). reflexivity.
Qed.

Lemma rstrip_by_head (q : ascii -> bool) (s : string) (c : ascii) (x : string) :
  rstrip_by q s = String c x -> exists y, s = String c y.
Proof.
  destruct s as [|a s]; cbn; [discriminate|].
  destruct (rstrip_by q s); [destruct (q a); [discriminate|]|];
    intros [= <- _]; eexists; reflexivity.
Qed.

Lemma rstrip_by_id (p : ascii -> bool) (s : string) :
  Forall (fun c => p c = false) (list_ascii_of_string s) -> rstrip_by p s = s.
Proof.
  induction s as [|c s IH]; cbn; [reflexivity|]. intros H. inversion H; subst.
  rewrite IH by assumption. destruct s; [|reflexivity].
  match goal with Hc : p c = false |- _ => rewrite Hc end. reflexivity.
Qed.

Lemma lstrip_by_id (p : ascii -> bool) (s : string) :
  Forall (fun c => p c = false) (list_ascii_of_string s) -> lstrip_by p s = s.
Proof.
  destruct s as [|c s]; cbn; [reflexivity|]. intros H. inversion H; subst.
  match goal with Hc : p c = false |- _ => rewrite Hc end. reflexivity.
Qed.

(** A text that [float] reads is read the same once [strip] has been
    applied to it. *)
Lemma float_of_stripped (s : string) (f : float) :
  float_of_string s = Ok f -> float_of_string (strip s) = Ok f.
Proof.
  unfold float_of_string. cbn zeta.
  set (lit := rstrip_by is_cspace (lstrip_by is_cspace s)).
  destruct (drop_underscores "000" (list_ascii_of_string lit)) as [l|] eqn:Hd;
    [|discriminate].
  destruct (parse_float_ascii l) as [f'|] eqn:Hp; [|discriminate].
  intros [= <-].
  assert (Hns : no_space (list_ascii_of_string lit)).
  { apply (drop_underscores_no_space _ _ _ Hd), (parse_float_no_space _ _ Hp). }
  assert (Hnc : Forall (fun c => is_cspace c = false) (list_ascii_of_string lit)).
  { eapply Forall_impl; [exact Hns|]. cbn. intros c Hc.
    destruct (is_cspace c) eqn:E; [|reflexivity].
    rewrite (cspace_is_space c E) in Hc. discriminate Hc. }
  assert (Hstrip : strip s = lit).
  { unfold strip.
    rewrite <- (lstrip_by_sub is_space is_cspace s cspace_is_space).
    destruct lit as [|c x] eqn:Hlit.
    { cbn in Hd. injection Hd as <-. cbn in Hp. discriminate Hp. }
    destruct (rstrip_by_head _ _ _ _ Hlit) as [y Hy].
    inversion Hns; subst.
    rewrite Hy. cbn [lstrip_by].
    match goal with Hc : is_space c = false |- _ => rewrite Hc end.
    rewrite <- Hy.
    rewrite <- (rstrip_by_sub is_space is_cspace _ cspace_is_space).
    fold lit. rewrite Hlit. apply rstrip_by_id. constructor; assumption. }
  rewrite Hstrip. rewrite (lstrip_by_id is_cspace lit Hnc), (rstrip_by_id is_cspace lit Hnc).
  rewrite Hd, Hp. reflexivity.
Qed.

(** ** C7: the classifier on numeric-count fields *)

Lemma numeric_type_not_text_kind (ft : string) :
  In ft numeric_types ->
  String.eqb ft "release_date" = false /\ String.eqb ft "price" = false
  /\ str_in ft numeric_types = true.
Proof.
  cbn. intros [<- | [<- | [<- | [<- | [<- | []]]]]]; repeat split; reflexivity.
Qed.

Lemma is_field_missing_numeric_cases (ft : string) (v : Value) :
  In ft numeric_types ->
  (v = VNone -> is_field_missing v ft = true)
  /\ (forall e, number_read v = Raise e -> is_field_missing v ft = true)
  /\ (forall f, number_read v = Ok f -> feqb f fzero = true ->
                is_field_missing v ft = true)
  /\ (forall f, number_read v = Ok f -> fltb fzero f = true ->
                is_field_missing v ft = false).
Proof.
  intros Hft.
  destruct (numeric_type_not_text_kind ft Hft) as (Hrd & Hpr & Hnum).
  unfold is_field_missing, number_read.
  destruct v as [| z | f0 | s]; cbn [pd_isna].
  - repeat split; intros; try reflexivity. discriminate.
  - rewrite Hnum. repeat split.
    + discriminate.
    + intros e ->. reflexivity.
    + intros f -> ->. reflexivity.
    + intros f -> Hpos. apply positive_not_zero_nor_nan in Hpos as [-> ->].
      reflexivity.
  - rewrite Hnum. cbn [py_float]. destruct (is_nan f0) eqn:Hnan.
    + repeat split; intros; try reflexivity.
      match goal with H : Ok _ = Ok _ |- _ => injection H as <- end.
      destruct f0; try discriminate Hnan.
      match goal with H : fltb _ _ = true |- _ => discriminate H end.
    + repeat split.
      * discriminate.
      * discriminate.
      * intros f [= <-] ->. reflexivity.
      * intros f [= <-] Hpos. apply positive_not_zero_nor_nan in Hpos as [-> _].
        reflexivity.
  - rewrite Hrd, Hpr, Hnum. cbn [andb py_float].
    destruct (String.eqb (strip s) "") eqn:He.
    { apply String.eqb_eq in He. rewrite He. cbn [orb].
      repeat split; intros; try reflexivity.
      match goal with H : float_of_string "" = Ok _ |- _ =>
        vm_compute in H; discriminate H end. }
    destruct (String.eqb (lower (strip s)) "n/a") eqn:Hna.
    { apply String.eqb_eq in Hna. cbn [orb].
      repeat split; intros; try reflexivity.
      match goal with H : float_of_string _ = Ok _ |- _ =>
        rewrite (float_of_na_text _ Hna) in H; discriminate H end. }
    destruct (String.eqb (lower (strip s)) "nan") eqn:Hnn.
    { apply String.eqb_eq in Hnn. cbn [orb].
      repeat split; intros; try reflexivity.
      match goal with H : float_of_string _ = Ok _ |- _ =>
        rewrite (float_of_nan_text _ Hnn) in H; injection H as <- end.
      match goal with H : fltb _ _ = true |- _ => discriminate H end. }
    cbn [orb]. repeat split.
    + discriminate.
    + intros e ->. reflexivity.
    + intros f -> ->. reflexivity.
    + intros f -> Hpos. apply positive_not_zero_nor_nan in Hpos as [-> ->].
      reflexivity.
Qed.

(** Whatever [float] reads in a cell, the classifier reads too. *)
Lemma number_read_of_float (v : Value) (f : float) :
  py_float v = Ok f -> number_read v = Ok f.
Proof.
  destruct v as [| z | x | s]; try (intros H; exact H).
  apply float_of_stripped.
Qed.

(** A value that is read as NaN is missing: the float NaN, which is the
    null of pandas, and a text that [float] reads as NaN. *)
Lemma is_field_missing_nan (ft : string) (v : Value) :
  In ft numeric_types ->
  number_read v = Ok S754_nan -> is_field_missing v ft = true.
Proof.
  intros Hft.
  destruct (numeric_type_not_text_kind ft Hft) as (Hrd & Hpr & Hnum).
  unfold is_field_missing, number_read.
  destruct v as [| z | f0 | s]; cbn [pd_isna py_float].
  - reflexivity.
  - rewrite Hnum. intros ->. reflexivity.
  - intros [= ->]. reflexivity.
  - rewrite Hrd, Hpr, Hnum. cbn [andb]. intros ->.
    destruct (_ || _); reflexivity.
Qed.

(** C7.  For each of the five numeric-count kinds, the classifier returns
    true on a null value ([None], or the float NaN, the null of pandas),
    on a value that fails to be read as a number, on a value read as NaN
    and on a value read as zero, and false on a value read as a strictly
    positive number.  The number is read as line 168 reads it, by [float]
    after [str.strip] of a text (line 157); it is the number [float] itself
    gives whenever [float] accepts the value. *)
Theorem is_field_missing_numeric_count (ft : string) (v : Value) :
  In ft numeric_types ->
  ((v = VNone \/ v = VFloat S754_nan -> is_field_missing v ft = true)
   /\ (forall e, number_read v = Raise e -> is_field_missing v ft = true)
   /\ (number_read v = Ok S754_nan -> is_field_missing v ft = true)
   /\ (forall f, number_read v = Ok f -> feqb f fzero = true ->
                 is_field_missing v ft = true)
   /\ (forall f, number_read v = Ok f -> fltb fzero f = true ->
                 is_field_missing v ft = false))
  /\ (forall f, py_float v = Ok f -> number_read v = Ok f).
Proof.
  intros Hft.
  destruct (is_field_missing_numeric_cases ft v Hft) as (Hnone & Hraise & Hzero & Hpos).
  split; [|intros f; apply number_read_of_float].
  split; [|split; [exact Hraise|split; [|split; [exact Hzero | exact Hpos]]]].
  - intros [Hv | ->]; [exact (Hnone Hv)|].
    apply (is_field_missing_nan ft _ Hft). reflexivity.
  - apply (is_field_missing_nan ft v Hft).
Qed.

Lemma is_field_missing_numeric_count_witness :
  is_field_missing (VStr " 0.0 ") "peak_24h" = true
  /\ is_field_missing (VStr " 12 ") "peak_24h" = false
  /\ is_field_missing (VFloat S754_nan) "peak_24h" = true.
Proof.
  assert (Hin : In "peak_24h" numeric_types) by (cbn; tauto).
  split; [|split].
  - destruct (is_field_missing_numeric_count "peak_24h" (VStr " 0.0 ") Hin)
      as [(_ & _ & _ & Hzero & _) Hread].
    apply (Hzero fzero); [apply Hread|]; vm_compute; reflexivity.
  - destruct (is_field_missing_numeric_count "peak_24h" (VStr " 12 ") Hin)
      as [(_ & _ & _ & _ & Hpos) Hread].
    apply (Hpos (float_of_Z 12)); [apply Hread|]; vm_compute; reflexivity.
  - destruct (is_field_missing_numeric_count "peak_24h" (VFloat S754_nan) Hin)
      as [(Hnull & _) _].
    apply Hnull. right. reflexivity.
Defined.

(** ** C3: the play-time to price ratio *)

(** The ratio written by the extractor used for prediction. *)
Lemma predict_ratio_shape (current_year : Z) (row feats : gmap string Value) :
  _extract_features_for_prediction current_year row = Ok feats ->
  exists playtime_avg price_numeric : float,
    feats !! "playtime_avg" = Some (VFloat playtime_avg)
    /\ feats !! "price_numeric" = Some (VFloat price_numeric)
    /\ feats !! "playtime_price_ratio"
       = Some (VFloat (if fltb fzero price_numeric
                       then fdiv playtime_avg price_numeric
                       else playtime_avg)).
Proof.
  unfold _extract_features_for_prediction.
  destruct (float_cell row col_playtime_avg) as [avg|]; [|discriminate].
  destruct (float_cell row col_playtime_median) as [med|]; [|discriminate].
  destruct (float_cell row col_current_players) as [cur|]; [|discriminate].
  destruct (float_cell row col_peak_24h) as [p24|]; [|discriminate].
  destruct (float_cell row col_peak_alltime) as [pall|]; [|discriminate].
  cbn [mbind Res_bind].
  destruct (fltb fzero p24); intros [= <-]; eexists _, _;
    (split; [|split]); reflexivity.
Qed.

(** The ratio written by the extractor used for training. *)
Lemma train_ratio_shape (read_text : Trainer.ReadText) (current_year : Z)
    (row : gmap string Value) (feats : gmap string float) :
  Trainer.extract_row read_text current_year row = Ok feats ->
  exists playtime_avg price_numeric : float,
    feats !! "playtime_avg" = Some playtime_avg
    /\ feats !! "price_numeric" = Some price_numeric
    /\ feats !! "playtime_price_ratio"
       = Some (if fltb fzero price_numeric
               then fdiv playtime_avg (Trainer.max_with_1 price_numeric)
               else playtime_avg).
Proof.
  unfold Trainer.extract_row.
  destruct (Trainer.column row col_release_date); [|discriminate].
  destruct (Trainer.column row col_price); [|discriminate].
  destruct (Trainer.column row col_playtime_avg); [|discriminate].
  destruct (Trainer.column row col_playtime_median); [|discriminate].
  destruct (Trainer.column row col_current_players); [|discriminate].
  destruct (Trainer.column row col_peak_24h); [|discriminate].
  destruct (Trainer.column row col_peak_alltime); [|discriminate].
  cbn [mbind Res_bind]. intros [= <-]. eexists _, _.
  (split; [|split]); reflexivity.
Qed.

(** C3.  On a record priced 0.99 with 600 minutes of average play time,
    prediction-time extraction gives the ratio 600 / 0.99, while
    training-time extraction divides by [max(0.99, 1)] and gives 600: the
    two extractors disagree, and the training one is not
    [playtime_avg / price_numeric].  The record holds no text in a numeric
    column, so that the way pandas reads such a text plays no part. *)
Theorem playtime_price_ratio_train_differs (read_text : Trainer.ReadText) :
  let quotient := fdiv (float_of_Z 600) (float_of_ratio 99 100) in
  (fun d : gmap string Value => d !! "playtime_price_ratio")
    <$> _extract_features_for_prediction 2025 cheap_title
  = Ok (Some (VFloat quotient))
  /\ (fun d : gmap string float => d !! "playtime_price_ratio")
       <$> Trainer.extract_row read_text 2025 cheap_title
     = Ok (Some (float_of_Z 600))
  /\ feqb (float_of_Z 600) quotient = false
  /\ float_repr quotient = "606.0606060606061".
Proof. vm_compute. repeat split; reflexivity. Qed.

(** ** C9: what feature extraction depends on *)

(** The one record, extracted in two different years. *)
Lemma feature_extraction_depends_on_clock :
  _extract_features_for_prediction 2024 cheap_title
  <> _extract_features_for_prediction 2025 cheap_title.
Proof.
  intros H.
  apply (f_equal (fmap (fun d : gmap string Value => d !! "game_age_years"))) in H.
  vm_compute in H. discriminate H.
Qed.

(** C9 (amended).  Feature extraction is a function of the current year
    and of the seven critical cells of the record: two records that agree
    on these cells give, in the same year, the same feature vector or the
    same exception, whatever else they hold. *)
Theorem feature_extraction_deterministic
    (current_year : Z) (r1 r2 : gmap string Value) :
  (forall col, In col (map fst critical_fields) -> r1 !! col = r2 !! col) ->
  _extract_features_for_prediction current_year r1
  = _extract_features_for_prediction current_year r2.
Proof.
  intros H. unfold _extract_features_for_prediction, float_cell.
  rewrite (H col_release_date), (H col_price), (H col_playtime_avg),
    (H col_playtime_median), (H col_current_players), (H col_peak_24h),
    (H col_peak_alltime) by (cbn; tauto).
  reflexivity.
Qed.

Lemma feature_extraction_deterministic_witness :
  _extract_features_for_prediction 2025 cheap_title
  = _extract_features_for_prediction 2025 (<["AppID" := VInt 11]> cheap_title).
Proof.
  apply (feature_extraction_deterministic 2025 cheap_title
           (<["AppID" := VInt 11]> cheap_title)).
  intros col Hcol. symmetry. apply lookup_insert_ne.
  cbn in Hcol. intuition (subst; discriminate).
Defined.

(** ** C4: the heuristic estimator *)

Lemma estimate_peak_24h_entries missing decay alltime cp p24 pall est pk :
  estimate_peak_24h missing decay alltime cp p24 pall = Ok (est, pk) ->
  est !! col_peak_24h
  = (if str_in "peak_24h" missing then
       if fltb fzero cp then truncated (fdiv cp decay)
       else if fltb fzero pall then truncated (fdiv pall alltime)
       else None
     else None)
  /\ (forall col, col <> col_peak_24h -> est !! col = None)
  /\ pk = default (VFloat p24) (est !! col_peak_24h).
Proof.
  unfold estimate_peak_24h, truncated.
  destruct (str_in "peak_24h" missing); [destruct (fltb fzero cp); [|destruct (fltb fzero pall)]|].
  all: try destruct (int_of_float _) as [n|]; cbn [mbind Res_bind]; intros [= <- <-].
  all: rewrite ?lookup_insert_eq, ?lookup_empty; repeat split; try reflexivity.
  all: intros col Hc; rewrite ?lookup_insert_ne by congruence; apply lookup_empty.
Qed.

Lemma estimate_from_peak_24h_entries field col factor missing pk est est' :
  estimate_from_peak_24h field col factor missing pk est = Ok est' ->
  est' !! col
  = (if str_in field missing && is_positive pk then scaled pk factor else est !! col)
  /\ (forall c, c <> col -> est' !! c = est !! c).
Proof.
  unfold estimate_from_peak_24h, scaled, truncated.
  destruct (str_in field missing); cbn [andb]; [|intros [= <-]; split; reflexivity].
  destruct pk as [| z | f | s]; cbn [py_gt0 mbind Res_bind is_positive]; try discriminate.
  - destruct (0 <? z); [|intros [= <-]; split; reflexivity].
    destruct (py_mul_float (VInt z) factor) as [x|]; [|discriminate]. cbn [mbind Res_bind].
    destruct (int_of_float x) as [n|]; [|discriminate]. cbn [mbind Res_bind].
    intros [= <-]. rewrite lookup_insert_eq. split; [reflexivity|].
    intros c Hc. apply lookup_insert_ne. congruence.
  - destruct (fltb fzero f); [|intros [= <-]; split; reflexivity].
    cbn [py_mul_float mbind Res_bind].
    destruct (int_of_float _) as [n|]; [|discriminate]. cbn [mbind Res_bind].
    intros [= <-]. rewrite lookup_insert_eq. split; [reflexivity|].
    intros c Hc. apply lookup_insert_ne. congruence.
Qed.

Lemma simple_estimate_entries (current_year : Z) (row : gmap string Value)
    (missing : list string) (est : gmap string Value) :
  _simple_estimate current_year row missing = Ok est ->
  exists current_players peak_24h peak_alltime : float,
    float_cell row col_current_players = Ok current_players
    /\ float_cell row col_peak_24h = Ok peak_24h
    /\ float_cell row col_peak_alltime = Ok peak_alltime
    /\ let decay_factor := fst (age_factors (heuristic_age current_year row)) in
       let alltime_factor := snd (age_factors (heuristic_age current_year row)) in
       let known := default (VFloat peak_24h) (est !! col_peak_24h) in
       est !! col_peak_24h
       = (if str_in "peak_24h" missing then
            if fltb fzero current_players
            then truncated (fdiv current_players decay_factor)
            else if fltb fzero peak_alltime
            then truncated (fdiv peak_alltime alltime_factor)
            else None
          else None)
       /\ est !! col_current_players
          = (if str_in "current_players" missing && is_positive known
             then scaled known decay_factor else None)
       /\ est !! col_peak_alltime
          = (if str_in "peak_alltime" missing && is_positive known
             then scaled known alltime_factor else None)
       /\ (forall col, col <> col_peak_24h -> col <> col_current_players ->
                       col <> col_peak_alltime -> est !! col = None).
Proof.
  unfold _simple_estimate.
  destruct (age_factors (heuristic_age current_year row)) as [decay alltime].
  destruct (float_cell row col_current_players) as [cp|]; [|discriminate].
  destruct (float_cell row col_peak_24h) as [p24|]; [|discriminate].
  destruct (float_cell row col_peak_alltime) as [pall|]; [|discriminate].
  cbn [mbind Res_bind fst snd].
  destruct (estimate_peak_24h missing decay alltime cp p24 pall) as [[est1 pk]|] eqn:E1;
    [|discriminate].
  cbn [mbind Res_bind].
  destruct (estimate_from_peak_24h "current_players" col_current_players decay missing pk est1)
    as [est2|] eqn:E2; [|discriminate].
  cbn [mbind Res_bind]. intros E3.
  apply estimate_peak_24h_entries in E1 as (H1 & H1o & Hpk).
  apply estimate_from_peak_24h_entries in E2 as (H2 & H2o).
  apply estimate_from_peak_24h_entries in E3 as (H3 & H3o).
  exists cp, p24, pall. repeat (split; [reflexivity|]).
  assert (Ha : est !! col_peak_24h = est1 !! col_peak_24h).
  { rewrite H3o, H2o by str_ne. reflexivity. }
  cbn zeta. rewrite Ha, <- Hpk. split; [exact H1|]. split; [|split].
  - rewrite H3o, H2, H1o by str_ne. reflexivity.
  - rewrite H3, H2o, H1o by str_ne. reflexivity.
  - intros col Ha' Hb Hc. rewrite H3o, H2o, H1o by assumption. reflexivity.
Qed.

(** The estimate is the quotient cut to an integer, not the quotient:
    3 / 0.8 = 3.75 is recorded as 3. *)
Lemma heuristic_truncates_quotient :
  _simple_estimate 2025 young_title ["peak_24h"] = Ok (<[col_peak_24h := VInt 3]> ∅)
  /\ float_repr (fdiv (float_of_Z 3) c0_8) = "3.75"
  /\ feqb (float_of_Z 3) (fdiv (float_of_Z 3) c0_8) = false.
Proof. vm_compute. repeat split; reflexivity. Qed.

(** C4 (amended).  The factors follow the age bands; a listed [peak_24h]
    is [int(current_players / decay_factor)] when [current_players > 0],
    else [int(peak_alltime / alltime_factor)] when [peak_alltime > 0];
    with [peak_24h] the estimate just made or else the observed value, a
    listed [current_players] is [int(peak_24h * decay_factor)] and a
    listed [peak_alltime] is [int(peak_24h * alltime_factor)] when
    [peak_24h > 0]; nothing else is written, so that a target not listed
    is never overwritten; and the 2018 title with 50 players gets 250 and
    875. *)
Theorem heuristic_estimator_derivation :
  (forall age,
      (age <= 2 -> age_factors age = (c0_8, c1_3))
      /\ (3 <= age <= 5 -> age_factors age = (c0_5, c2_0))
      /\ (5 < age -> age_factors age = (c0_2, c3_5)))
  /\ map float_repr [c0_8; c1_3; c0_5; c2_0; c0_2; c3_5]
     = ["0.8"; "1.3"; "0.5"; "2.0"; "0.2"; "3.5"]
  /\ (forall current_year row missing est,
        _simple_estimate current_year row missing = Ok est ->
        exists current_players peak_24h peak_alltime : float,
          float_cell row col_current_players = Ok current_players
          /\ float_cell row col_peak_24h = Ok peak_24h
          /\ float_cell row col_peak_alltime = Ok peak_alltime
          /\ let decay_factor := fst (age_factors (heuristic_age current_year row)) in
             let alltime_factor := snd (age_factors (heuristic_age current_year row)) in
             let known := default (VFloat peak_24h) (est !! col_peak_24h) in
             est !! col_peak_24h
             = (if str_in "peak_24h" missing then
                  if fltb fzero current_players
                  then truncated (fdiv current_players decay_factor)
                  else if fltb fzero peak_alltime
                  then truncated (fdiv peak_alltime alltime_factor)
                  else None
                else None)
             /\ est !! col_current_players
                = (if str_in "current_players" missing && is_positive known
                   then scaled known decay_factor else None)
             /\ est !! col_peak_alltime
                = (if str_in "peak_alltime" missing && is_positive known
                   then scaled known alltime_factor else None)
             /\ (forall col, col <> col_peak_24h -> col <> col_current_players ->
                             col <> col_peak_alltime -> est !! col = None))
  /\ (forall current_year row missing est target col,
        _simple_estimate current_year row missing = Ok est ->
        In (target, col) cluster -> str_in target missing = false ->
        est !! col = None)
  /\ _simple_estimate 2025 old_title ["peak_24h"; "peak_alltime"]
     = Ok (<[col_peak_alltime := VInt 875]> (<[col_peak_24h := VInt 250]> ∅)).
Proof.
  split; [|split; [|split; [|split]]].
  - intros age. unfold age_factors. repeat split; intros H.
    + destruct (Z.leb_spec age 2); [reflexivity | lia].
    + destruct (Z.leb_spec age 2); [lia|].
      destruct (Z.leb_spec age 5); [reflexivity | lia].
    + destruct (Z.leb_spec age 2); [lia|].
      destruct (Z.leb_spec age 5); [lia | reflexivity].
  - vm_compute. reflexivity.
  - exact simple_estimate_entries.
  - intros current_year row missing est target col Hest Hin Hnot.
    apply simple_estimate_entries in Hest
      as (cp & p24 & pall & _ & _ & _ & H24 & Hcur & Hall & _).
    cbn zeta in H24, Hcur, Hall.
    cbn in Hin. destruct Hin as [[= <- <-] | [[= <- <-] | [[= <- <-] | []]]].
    + rewrite Hcur, Hnot. reflexivity.
    + rewrite H24, Hnot. reflexivity.
    + rewrite Hall, Hnot. reflexivity.
  - vm_compute. reflexivity.
Qed.

Lemma heuristic_estimator_derivation_witness :
  (<[col_peak_alltime := VInt 875]> (<[col_peak_24h := VInt 250]> ∅) : gmap string Value)
    !! col_current_players = None.
Proof.
  destruct heuristic_estimator_derivation as (_ & _ & _ & Hno & Hex).
  apply (Hno 2025 old_title ["peak_24h"; "peak_alltime"] _
           "current_players" col_current_players Hex).
  - cbn. tauto.
  - reflexivity.
Defined.

(** ** C10: model-based estimation *)

Lemma try_predict_Some (model_info : ModelInfo) (feats : gmap string Value) (p : Z) :
  try_predict model_info feats = Some p <->
  exists raw n, model model_info (feature_row model_info feats) = Ok raw
                /\ int_of_float raw = Ok n /\ p = Z.max 0 n /\ 0 < p.
Proof.
  unfold try_predict, feature_row. split.
  - destruct (model model_info _) as [raw|] eqn:Hm; [|discriminate].
    destruct (int_of_float raw) as [n|] eqn:Hi; [|discriminate].
    destruct (Z.ltb_spec 0 (Z.max 0 n)); [|discriminate].
    intros [= <-]. exists raw, n. auto.
  - intros (raw & n & -> & -> & -> & Hp).
    destruct (Z.ltb_spec 0 (Z.max 0 n)); [reflexivity | lia].
Qed.

Lemma try_predict_None (model_info : ModelInfo) (feats : gmap string Value) :
  try_predict model_info feats = None <->
  (exists e, model model_info (feature_row model_info feats) = Raise e)
  \/ (exists raw, model model_info (feature_row model_info feats) = Ok raw
       /\ ((exists e, int_of_float raw = Raise e)
           \/ exists n, int_of_float raw = Ok n /\ Z.max 0 n = 0)).
Proof.
  unfold try_predict, feature_row. split.
  - destruct (model model_info _) as [raw|e] eqn:Hm; [|intros _; left; eauto].
    intros H. right. exists raw. split; [reflexivity|].
    destruct (int_of_float raw) as [n|e] eqn:Hi; [|left; eauto].
    right. exists n. split; [reflexivity|].
    destruct (Z.ltb_spec 0 (Z.max 0 n)); [discriminate | lia].
  - intros [[e ->] | (raw & -> & [[e ->] | (n & -> & Hn)])]; try reflexivity.
    rewrite Hn. reflexivity.
Qed.

Lemma predict_peak_24h_entries ml_models missing feats :
  let st := predict_peak_24h ml_models missing feats in
  st.1 !! col_peak_24h
  = (consulted ml_models missing "peak_24h"
       ≫= fun mi => VInt <$> try_predict mi feats)
  /\ (forall col, col <> col_peak_24h -> st.1 !! col = None).
Proof.
  unfold predict_peak_24h, consulted.
  destruct (if str_in "peak_24h" missing then ml_models !! "peak_24h" else None)
    as [mi|]; cbn [mbind option_bind].
  - destruct (try_predict mi feats) as [p|]; cbn [fmap option_fmap option_map fst].
    + rewrite lookup_insert_eq. split; [reflexivity|].
      intros col Hc. rewrite lookup_insert_ne by congruence. apply lookup_empty.
    + rewrite lookup_empty. split; [reflexivity|]. intros; apply lookup_empty.
  - cbn [fst]. rewrite lookup_empty. split; [reflexivity|]. intros; apply lookup_empty.
Qed.

Lemma predict_current_players_entries ml_models missing st :
  let st' := predict_current_players ml_models missing st in
  st.1 !! col_current_players = None ->
  st'.1 !! col_current_players
  = (consulted ml_models missing "current_players"
       ≫= fun mi => VInt <$> try_predict mi st.2)
  /\ (forall col, col <> col_current_players -> st'.1 !! col = st.1 !! col).
Proof.
  destruct st as [est feats]. unfold predict_current_players, consulted. cbn [fst snd].
  intros Hnone.
  destruct (if str_in "current_players" missing then ml_models !! "current_players" else None)
    as [mi|]; cbn [mbind option_bind].
  - destruct (try_predict mi feats) as [p|]; cbn [fmap option_fmap option_map fst].
    + rewrite lookup_insert_eq. split; [reflexivity|].
      intros col Hc. rewrite lookup_insert_ne by congruence. reflexivity.
    + split; [exact Hnone | reflexivity].
  - cbn [fst]. split; [exact Hnone | reflexivity].
Qed.

Lemma predict_peak_alltime_entries ml_models missing st :
  let est' := predict_peak_alltime ml_models missing st in
  st.1 !! col_peak_alltime = None ->
  est' !! col_peak_alltime
  = (consulted ml_models missing "peak_alltime"
       ≫= fun mi => VInt <$> alltime_prediction mi st.2)
  /\ (forall col, col <> col_peak_alltime -> est' !! col = st.1 !! col).
Proof.
  destruct st as [est feats].
  unfold predict_peak_alltime, consulted, alltime_prediction. cbn [fst snd].
  intros Hnone.
  destruct (if str_in "peak_alltime" missing then ml_models !! "peak_alltime" else None)
    as [mi|]; cbn [mbind option_bind].
  - destruct (refresh_activity_ratio feats) as [feats'|].
    + destruct (try_predict mi feats') as [p|]; cbn [fmap option_fmap option_map].
      * rewrite lookup_insert_eq. split; [reflexivity|].
        intros col Hc. rewrite lookup_insert_ne by congruence. reflexivity.
      * split; [exact Hnone | reflexivity].
    + split; [exact Hnone | reflexivity].
  - split; [exact Hnone | reflexivity].
Qed.

Lemma consulted_written ml_models missing target (pred : ModelInfo -> option Z) v :
  consulted ml_models missing target ≫= (fun mi => VInt <$> pred mi) = Some v ->
  str_in target missing = true
  /\ exists mi p, ml_models !! target = Some mi /\ pred mi = Some p /\ v = VInt p.
Proof.
  unfold consulted. destruct (str_in target missing); [|discriminate].
  destruct (ml_models !! target) as [mi|]; [|discriminate]. cbn [mbind option_bind].
  destruct (pred mi) as [p|] eqn:Hp; [|discriminate].
  intros [= <-]. split; [reflexivity|]. exists mi, p. auto.
Qed.

Lemma consulted_not_listed ml_models missing target (pred : ModelInfo -> option Z) :
  str_in target missing = false ->
  consulted ml_models missing target ≫= (fun mi => VInt <$> pred mi) = None.
Proof. unfold consulted. intros ->. reflexivity. Qed.

(** C10.  With a model bank that is not empty, the estimates hold, for
    each cluster target, the clamped prediction [max(0, int(raw))] of the
    target's model when the target is listed as missing, has a model, and
    the clamped prediction is strictly positive; a prediction that clamps
    to zero or a [try] block that raises leaves the target out; a target
    that is not listed is never written, and a target left out keeps its
    cell when the estimates are written to the record. *)
Theorem model_estimation_writes_positive_only
    (ml_models : gmap string ModelInfo) (current_year : Z)
    (row : gmap string Value) (missing : list string) (est : gmap string Value) :
  ml_models <> ∅ ->
  estimate_player_fields ml_models current_year row missing = Ok est ->
  exists feats0,
    _extract_features_for_prediction current_year row = Ok feats0
    /\ let st1 := predict_peak_24h ml_models missing feats0 in
       let st2 := predict_current_players ml_models missing st1 in
       est !! col_peak_24h
       = (consulted ml_models missing "peak_24h"
            ≫= fun mi => VInt <$> try_predict mi feats0)
       /\ est !! col_current_players
          = (consulted ml_models missing "current_players"
               ≫= fun mi => VInt <$> try_predict mi st1.2)
       /\ est !! col_peak_alltime
          = (consulted ml_models missing "peak_alltime"
               ≫= fun mi => VInt <$> alltime_prediction mi st2.2)
       /\ (forall col, col <> col_peak_24h -> col <> col_current_players ->
                       col <> col_peak_alltime -> est !! col = None)
       /\ (forall target col v,
              In (target, col) cluster -> est !! col = Some v ->
              str_in target missing = true
              /\ exists mi feats raw n,
                   ml_models !! target = Some mi
                   /\ model mi (feature_row mi feats) = Ok raw
                   /\ int_of_float raw = Ok n
                   /\ 0 < Z.max 0 n
                   /\ v = VInt (Z.max 0 n))
       /\ (forall target col,
              In (target, col) cluster -> str_in target missing = false ->
              est !! col = None)
       /\ (forall col, est !! col = None -> (est ∪ row) !! col = row !! col).
Proof.
  intros Hbank. unfold estimate_player_fields.
  rewrite bool_decide_eq_false_2 by exact Hbank.
  destruct (_extract_features_for_prediction current_year row) as [feats0|]; [|discriminate].
  cbn [mbind Res_bind]. intros [= <-]. exists feats0. split; [reflexivity|].
  cbn zeta.
  set (st1 := predict_peak_24h ml_models missing feats0).
  set (st2 := predict_current_players ml_models missing st1).
  destruct (predict_peak_24h_entries ml_models missing feats0) as [H1 H1o].
  fold st1 in H1, H1o.
  destruct (predict_current_players_entries ml_models missing st1) as [H2 H2o].
  { apply H1o. str_ne. }
  fold st2 in H2, H2o.
  destruct (predict_peak_alltime_entries ml_models missing st2) as [H3 H3o].
  { rewrite H2o by str_ne. apply H1o. str_ne. }
  assert (E24 : predict_peak_alltime ml_models missing st2 !! col_peak_24h
                = consulted ml_models missing "peak_24h"
                    ≫= (fun mi => VInt <$> try_predict mi feats0)).
  { rewrite H3o, H2o by str_ne. exact H1. }
  assert (Ecur : predict_peak_alltime ml_models missing st2 !! col_current_players
                 = consulted ml_models missing "current_players"
                     ≫= (fun mi => VInt <$> try_predict mi st1.2)).
  { rewrite H3o by str_ne. exact H2. }
  split; [exact E24|]. split; [exact Ecur|]. split; [exact H3|].
  split; [|split; [|split]].
  - intros col Ha Hb Hc. rewrite H3o, H2o, H1o by assumption. reflexivity.
  - intros target col v Hin Hv. cbn in Hin.
    destruct Hin as [[= <- <-] | [[= <- <-] | [[= <- <-] | []]]].
    + rewrite Ecur in Hv. apply consulted_written in Hv as (Hl & mi & p & Hmi & Hp & ->).
      split; [exact Hl|]. apply try_predict_Some in Hp as (raw & n & Hm & Hi & -> & Hpos).
      exists mi, st1.2, raw, n. auto.
    + rewrite E24 in Hv. apply consulted_written in Hv as (Hl & mi & p & Hmi & Hp & ->).
      split; [exact Hl|]. apply try_predict_Some in Hp as (raw & n & Hm & Hi & -> & Hpos).
      exists mi, feats0, raw, n. auto.
    + rewrite H3 in Hv. apply consulted_written in Hv as (Hl & mi & p & Hmi & Hp & ->).
      split; [exact Hl|]. unfold alltime_prediction in Hp.
      destruct (refresh_activity_ratio st2.2) as [feats'|]; [|discriminate].
      apply try_predict_Some in Hp as (raw & n & Hm & Hi & -> & Hpos).
      exists mi, feats', raw, n. auto.
  - intros target col Hin Hnot. cbn in Hin.
    destruct Hin as [[= <- <-] | [[= <- <-] | [[= <- <-] | []]]].
    + rewrite Ecur. apply consulted_not_listed, Hnot.
    + rewrite E24. apply consulted_not_listed, Hnot.
    + rewrite H3. apply consulted_not_listed, Hnot.
  - intros col Hnone. apply lookup_union_r, Hnone.
Qed.

Lemma model_estimation_writes_positive_only_witness :
  exists feats0, _extract_features_for_prediction 2025 old_title = Ok feats0.
Proof.
  assert (Hbank : one_model_bank <> ∅).
  { intros H. apply (f_equal (fun m => bool_decide (is_Some (m !! "peak_24h")))) in H.
    vm_compute in H. discriminate H. }
  assert (Hest : estimate_player_fields one_model_bank 2025 old_title
                   ["peak_24h"; "peak_alltime"]
                 = Ok (<[col_peak_24h := VInt 120]> ∅)).
  { vm_compute. reflexivity. }
  destruct (model_estimation_writes_positive_only one_model_bank 2025 old_title
              ["peak_24h"; "peak_alltime"] _ Hbank Hest) as (feats0 & H0 & _).
  exists feats0. exact H0.
Defined.

(** ** C8: external completion, source by source *)

Lemma insert_frame (k col : string) (v : Value) (d : gmap string Value) :
  <[k := v]> d !! col = d !! col \/ col = k.
Proof.
  destruct (decide (k = col)) as [->|Hne]; [right; reflexivity|].
  left. apply lookup_insert_ne, Hne.
Qed.

(** The store writes the release date and the price, each only when it
    was asked for. *)
Lemma fetch_store_frame (w : World) (missing : list string)
    (d : gmap string Value) (col : string) :
  fetch_store w missing d !! col = d !! col
  \/ (col = col_release_date /\ str_in "release_date" missing = true)
  \/ (col = col_price /\ str_in "price" missing = true).
Proof.
  unfold fetch_store, supply_if.
  destruct (existsb _ missing); [|left; reflexivity].
  destruct (w_details w) as [gd|]; [|left; reflexivity].
  destruct (str_in "release_date" missing) eqn:Hd;
    destruct (str_in "price" missing) eqn:Hp; cbn [andb].
  all: repeat match goal with
         | |- context [if ?b then _ else _] => destruct b
         | |- context [match ?o with Some _ => _ | None => _ end !! _] => destruct o
         end.
  all: repeat match goal with
         | |- context [<[?k := ?v]> ?m !! ?c] =>
             destruct (insert_frame k c v m) as [-> | ->]; [|tauto]
         end.
  all: left; reflexivity.
Qed.

Lemma supply_positive_frame (missing : list string) (field k : string)
    (o : option Value) (d d' : gmap string Value) (col : string) :
  supply_positive missing field k o d = Ok d' ->
  d' !! col = d !! col \/ (col = k /\ str_in field missing = true).
Proof.
  unfold supply_positive. destruct (str_in field missing); [|intros [= <-]; tauto].
  destruct (truthy_and_gt0 (or_zero o)) as [[]|]; cbn [mbind Res_bind];
    intros [= <-]; [|tauto].
  destruct (insert_frame k col (or_zero o) d) as [-> | ->]; tauto.
Qed.

(** The aggregate statistics write the two play times, the live count
    and the 24-hour peak, each only when it was asked for. *)
Lemma fetch_steamspy_frame (w : World) (missing : list string)
    (d d' : gmap string Value) (col : string) :
  fetch_steamspy w missing d = Ok d' ->
  d' !! col = d !! col
  \/ (col = col_playtime_avg /\ str_in "playtime_avg" missing = true)
  \/ (col = col_playtime_median /\ str_in "playtime_median" missing = true)
  \/ (col = col_current_players /\ str_in "current_players" missing = true)
  \/ (col = col_peak_24h /\ str_in "peak_24h" missing = true).
Proof.
  unfold fetch_steamspy.
  destruct (existsb _ missing); [|intros [= <-]; tauto].
  destruct (w_steamspy w) as [sd|]; [|intros [= <-]; tauto].
  destruct (supply_positive missing "playtime_avg" _ _ d) as [d1|] eqn:E1; [|discriminate].
  cbn [mbind Res_bind].
  destruct (supply_positive missing "playtime_median" _ _ d1) as [d2|] eqn:E2; [|discriminate].
  cbn [mbind Res_bind].
  destruct (supply_positive missing "current_players" _ _ d2) as [d3|] eqn:E3; [|discriminate].
  cbn [mbind Res_bind]. intros E4.
  apply (supply_positive_frame _ _ _ _ _ _ col) in E1, E2, E3, E4.
  destruct E4 as [-> | ?]; [|tauto].
  destruct E3 as [-> | ?]; [|tauto].
  destruct E2 as [-> | ?]; [|tauto].
  destruct E1 as [-> | ?]; tauto.
Qed.

(** The charts write the two peaks, each only when it was asked for, and
    the 24-hour peak only when no earlier source has supplied it. *)
Lemma fetch_steamcharts_frame (w : World) (missing : list string)
    (d : gmap string Value) (col : string) :
  fetch_steamcharts w missing d !! col = d !! col
  \/ (col = col_peak_24h /\ str_in "peak_24h" missing = true
      /\ d !! col_peak_24h = None)
  \/ (col = col_peak_alltime /\ str_in "peak_alltime" missing = true).
Proof.
  unfold fetch_steamcharts.
  destruct (str_in "peak_alltime" missing || str_in "peak_24h" missing);
    [|left; reflexivity].
  destruct (get_steamcharts_data w) as [p24 pall].
  destruct pall as [va|]; [destruct (str_in "peak_alltime" missing) eqn:Ha;
                           destruct (py_truthy va)|]; cbn [andb].
  all: try (destruct (insert_frame col_peak_alltime col va
              (match p24 with
               | Some v => if str_in "peak_24h" missing && py_truthy v
                              && bool_decide (d !! col_peak_24h = None)
                           then <[col_peak_24h := v]> d else d
               | None => d
               end)) as [-> | ->]; [|tauto]).
  all: destruct p24 as [v|]; [|left; reflexivity].
  all: destruct (str_in "peak_24h" missing) eqn:H24; [|left; reflexivity].
  all: destruct (py_truthy v); [|left; reflexivity].
  all: cbn [andb]; case_bool_decide as Hnone; [|left; reflexivity].
  all: destruct (insert_frame col_peak_24h col v d) as [-> | ->]; tauto.
Qed.

(** C8.  In one call of [fetch_missing_data], with [d1] the supply after
    the store, [d2] after the aggregate statistics and [sup] after the
    charts: each source adds or changes only columns it is the authority
    for and that were asked for, and what an earlier source has supplied is
    still there, unchanged, after every later source. *)
Theorem fetch_sources_frame (w : World) (missing : list string)
    (sup : gmap string Value) :
  fetch_missing_data w missing = Ok sup ->
  exists d1 d2 : gmap string Value,
    d1 = fetch_store w missing ∅
    /\ fetch_steamspy w missing d1 = Ok d2
    /\ sup = fetch_steamcharts w missing d2
    /\ (forall col, is_Some (d1 !! col) -> asked missing store_fields col)
    /\ (forall col, d2 !! col <> d1 !! col -> asked missing steamspy_fields col)
    /\ (forall col, sup !! col <> d2 !! col -> asked missing charts_fields col)
    /\ d1 ⊆ d2
    /\ d2 ⊆ sup.
Proof.
  unfold fetch_missing_data.
  destruct (fetch_steamspy w missing (fetch_store w missing ∅)) as [d2|] eqn:E2;
    [|discriminate].
  cbn [mbind Res_bind]. intros [= <-].
  exists (fetch_store w missing ∅), d2.
  split; [reflexivity|]. split; [exact E2|]. split; [reflexivity|].
  assert (Hstore : forall col, is_Some (fetch_store w missing ∅ !! col) ->
                               asked missing store_fields col).
  { intros col [v Hv].
    destruct (fetch_store_frame w missing ∅ col) as [H | [[-> H] | [-> H]]].
    - rewrite H, lookup_empty in Hv. discriminate Hv.
    - exists "release_date". split; [cbn; tauto | exact H].
    - exists "price". split; [cbn; tauto | exact H]. }
  assert (Hspy : forall col, d2 !! col <> fetch_store w missing ∅ !! col ->
                             asked missing steamspy_fields col).
  { intros col Hne.
    destruct (fetch_steamspy_frame w missing _ _ col E2)
      as [H | [[-> H] | [[-> H] | [[-> H] | [-> H]]]]].
    - contradiction.
    - exists "playtime_avg". split; [cbn; tauto | exact H].
    - exists "playtime_median". split; [cbn; tauto | exact H].
    - exists "current_players". split; [cbn; tauto | exact H].
    - exists "peak_24h". split; [cbn; tauto | exact H]. }
  assert (Hcharts : forall col, fetch_steamcharts w missing d2 !! col <> d2 !! col ->
                                asked missing charts_fields col).
  { intros col Hne.
    destruct (fetch_steamcharts_frame w missing d2 col) as [H | [(-> & H & _) | [-> H]]].
    - contradiction.
    - exists "peak_24h". split; [cbn; tauto | exact H].
    - exists "peak_alltime". split; [cbn; tauto | exact H]. }
  split; [exact Hstore|]. split; [exact Hspy|]. split; [exact Hcharts|].
  assert (Hsub1 : fetch_store w missing ∅ ⊆ d2).
  { apply map_subseteq_spec. intros col v Hv.
    destruct (Hstore col (mk_is_Some _ _ Hv)) as (f1 & Hin1 & _).
    destruct (fetch_steamspy_frame w missing _ _ col E2)
      as [-> | [[H _] | [[H _] | [[H _] | [H _]]]]]; [exact Hv | | | |];
      exfalso; cbn in Hin1; subst col;
      destruct Hin1 as [[= H _] | [[= H _] | []]];
      vm_compute in H; discriminate H. }
  split; [exact Hsub1|].
  apply map_subseteq_spec. intros col v Hv.
  destruct (fetch_steamcharts_frame w missing d2 col) as [-> | [(-> & _ & Hn) | [-> _]]].
  - exact Hv.
  - rewrite Hn in Hv. discriminate Hv.
  - exfalso.
    destruct (fetch_steamspy_frame w missing _ _ col_peak_alltime E2)
      as [H | [[H _] | [[H _] | [[H _] | [H _]]]]];
      try (vm_compute in H; discriminate H).
    rewrite H in Hv.
    destruct (fetch_store_frame w missing ∅ col_peak_alltime) as [H' | [[H' _] | [H' _]]];
      try (vm_compute in H'; discriminate H').
    rewrite H', lookup_empty in Hv. discriminate Hv.
Qed.

Lemma fetch_sources_frame_witness :
  (<[col_peak_24h := VInt 70]> ∅ : gmap string Value)
  ⊆ <[col_peak_alltime := VInt 900]> (<[col_peak_24h := VInt 70]> ∅).
Proof.
  assert (Hsup : fetch_missing_data answering_world ["peak_24h"; "peak_alltime"]
                 = Ok (<[col_peak_alltime := VInt 900]> (<[col_peak_24h := VInt 70]> ∅))).
  { vm_compute. reflexivity. }
  assert (Hd2 : fetch_steamspy answering_world ["peak_24h"; "peak_alltime"]
                  (fetch_store answering_world ["peak_24h"; "peak_alltime"] ∅)
                = Ok (<[col_peak_24h := VInt 70]> ∅)).
  { vm_compute. reflexivity. }
  destruct (fetch_sources_frame answering_world ["peak_24h"; "peak_alltime"] _ Hsup)
    as (d1 & d2 & -> & H2 & _ & _ & _ & _ & _ & Hsub).
  rewrite Hd2 in H2. injection H2 as <-. exact Hsub.
Defined.

(** ** The orchestrator: shared lemmas *)

Lemma str_in_In (s : string) (l : list string) : str_in s l = true <-> In s l.
Proof.
  unfold str_in. rewrite existsb_exists. split.
  - intros (x & Hin & Heq). apply String.eqb_eq in Heq. subst x. exact Hin.
  - intros Hin. exists s. split; [exact Hin | apply String.eqb_refl].
Qed.

Lemma assoc_of_In (col field : string) :
  In (col, field) critical_fields -> assoc col critical_fields = Some field.
Proof.
  cbn. intros [H | [H | [H | [H | [H | [H | [H | []]]]]]]];
    injection H as <- <-; vm_compute; reflexivity.
Qed.

Lemma In_of_assoc (col field : string) :
  assoc col critical_fields = Some field -> In (col, field) critical_fields.
Proof.
  unfold critical_fields. cbn [assoc].
  repeat match goal with
         | |- context [String.eqb col ?k] =>
             destruct (String.eqb_spec col k) as [-> | _];
             [intros [= <-]; cbn; tauto|]
         end.
  discriminate.
Qed.

(** A field that is classified missing is listed as missing. *)
Lemma listed_if_missing (row : gmap string Value) (col field : string) :
  In (col, field) critical_fields ->
  is_field_missing (cell row col) field = true ->
  str_in field (missing_fields_of row) = true.
Proof.
  intros Hin Hm. apply str_in_In. unfold missing_fields_of.
  apply in_map_iff. exists (col, field). split; [reflexivity|].
  apply List.filter_In. split; [exact Hin | exact Hm].
Qed.

(** External completion supplies only columns whose kind was asked for. *)
Lemma fetch_only_asked (w : World) (missing : list string)
    (sup : gmap string Value) (col : string) :
  fetch_missing_data w missing = Ok sup ->
  is_Some (sup !! col) ->
  exists field, In (col, field) critical_fields /\ str_in field missing = true.
Proof.
  unfold fetch_missing_data.
  destruct (fetch_steamspy w missing (fetch_store w missing ∅)) as [d2|] eqn:E2;
    [|discriminate].
  cbn [mbind Res_bind]. intros [= <-] [v Hv].
  destruct (fetch_steamcharts_frame w missing d2 col) as [H | [(-> & H & _) | [-> H]]].
  2: { exists "peak_24h". split; [cbn; tauto | exact H]. }
  2: { exists "peak_alltime". split; [cbn; tauto | exact H]. }
  rewrite H in Hv.
  destruct (fetch_steamspy_frame w missing _ _ col E2)
    as [H' | [[-> H'] | [[-> H'] | [[-> H'] | [-> H']]]]].
  2: { exists "playtime_avg". split; [cbn; tauto | exact H']. }
  2: { exists "playtime_median". split; [cbn; tauto | exact H']. }
  2: { exists "current_players". split; [cbn; tauto | exact H']. }
  2: { exists "peak_24h". split; [cbn; tauto | exact H']. }
  rewrite H' in Hv.
  destruct (fetch_store_frame w missing ∅ col) as [H'' | [[-> H''] | [-> H'']]].
  - rewrite H'', lookup_empty in Hv. discriminate Hv.
  - exists "release_date". split; [cbn; tauto | exact H''].
  - exists "price". split; [cbn; tauto | exact H''].
Qed.

(** A field that was not listed is left alone by external completion and
    is not classified missing afterwards. *)
Lemma listed_if_missing_after (w : World) (row sup : gmap string Value)
    (col field : string) :
  In (col, field) critical_fields ->
  fetch_missing_data w (missing_fields_of row) = Ok sup ->
  is_field_missing (cell (sup ∪ row) col) field = true ->
  str_in field (missing_fields_of row) = true.
Proof.
  intros Hin Hf Hm.
  destruct (sup !! col) as [v|] eqn:Hv.
  - destruct (fetch_only_asked _ _ _ col Hf (mk_is_Some _ _ Hv)) as (f & Hin' & Hl).
    apply assoc_of_In in Hin, Hin'. rewrite Hin in Hin'. injection Hin' as <-. exact Hl.
  - apply (listed_if_missing row col field Hin).
    unfold cell in *. rewrite lookup_union_r in Hm by exact Hv. exact Hm.
Qed.

(** The names left in [still_missing], kind by kind. *)
Lemma still_missing_of_shape (row : gmap string Value) (missing : list string) :
  let c col field := str_in field missing && is_field_missing (cell row col) field in
  still_missing_of row missing
  = ((if c col_release_date "release_date" then [col_release_date] else [])
     ++ (if c col_price "price" then [col_price] else [])
     ++ (if c col_playtime_avg "playtime_avg" then [col_playtime_avg] else [])
     ++ (if c col_playtime_median "playtime_median" then [col_playtime_median] else [])
     ++ (if c col_current_players "current_players" then [col_current_players] else [])
     ++ (if c col_peak_24h "peak_24h" then [col_peak_24h] else [])
     ++ (if c col_peak_alltime "peak_alltime" then [col_peak_alltime] else []))%list.
Proof.
  cbn zeta. unfold still_missing_of, critical_fields. cbn [List.filter].
  repeat match goal with
         | |- context [if ?b then _ else _] => destruct b
         end; reflexivity.
Qed.

Lemma player_part_all (row : gmap string Value) (missing : list string) :
  str_in "current_players" missing = true ->
  str_in "peak_24h" missing = true ->
  str_in "peak_alltime" missing = true ->
  cluster_missing row = true ->
  List.filter is_player_column (still_missing_of row missing)
  = [col_current_players; col_peak_24h; col_peak_alltime].
Proof.
  intros L1 L2 L3 H. unfold cluster_missing in H.
  apply andb_prop in H as [H H3]. apply andb_prop in H as [H1 H2].
  rewrite still_missing_of_shape. cbn zeta.
  rewrite L1, L2, L3, H1, H2, H3. cbn [andb].
  repeat match goal with
         | |- context [if ?b then _ else _] => destruct b
         end; reflexivity.
Qed.

Lemma list_not_nil_of_In {A} (x : A) (l : list A) `{EqDecision (list A)} :
  In x l -> bool_decide (l = []) = false.
Proof.
  intros Hin. apply bool_decide_eq_false_2. intros ->. destruct Hin.
Qed.

Lemma not_price_only_of_In (x : string) (l : list string) :
  In x l -> x <> col_price -> bool_decide (l = [col_price]) = false.
Proof.
  intros Hin Hne. apply bool_decide_eq_false_2. intros ->.
  destruct Hin as [H | []]. congruence.
Qed.

Lemma In_still_missing (row : gmap string Value) (missing : list string)
    (col field : string) :
  In (col, field) critical_fields ->
  str_in field missing = true ->
  is_field_missing (cell row col) field = true ->
  In col (still_missing_of row missing).
Proof.
  intros Hin Hl Hm. unfold still_missing_of. apply in_map_iff.
  exists (col, field). split; [reflexivity|].
  apply List.filter_In. split; [exact Hin|]. rewrite Hl, Hm. reflexivity.
Qed.

(** *** The kinds and the columns *)

Lemma kind_names_column (c1 c2 kind : string) :
  In (c1, kind) critical_fields -> In (c2, kind) critical_fields -> c1 = c2.
Proof.
  cbn. intros [H | [H | [H | [H | [H | [H | [H | []]]]]]]];
    injection H as <- <-;
    intros [H | [H | [H | [H | [H | [H | [H | []]]]]]]];
    first [ injection H as <-; reflexivity | vm_compute in H; discriminate H ].
Qed.

Lemma cluster_critical (target col : string) :
  In (target, col) cluster -> In (col, target) critical_fields.
Proof.
  cbn. intros [[= <- <-] | [[= <- <-] | [[= <- <-] | []]]]; tauto.
Qed.

(** A kind that is listed as missing is that of a field classified
    missing. *)
Lemma missing_if_listed (row : gmap string Value) (col kind : string) :
  In (col, kind) critical_fields ->
  str_in kind (missing_fields_of row) = true ->
  is_field_missing (cell row col) kind = true.
Proof.
  intros Hin Hl. apply str_in_In in Hl. unfold missing_fields_of in Hl.
  apply in_map_iff in Hl as ([c k] & Hk & Hf). cbn in Hk. subst k.
  apply List.filter_In in Hf as [Hc Hm].
  rewrite (kind_names_column col c kind Hin Hc). exact Hm.
Qed.

Lemma still_missing_inv (row : gmap string Value) (missing : list string) (col : string) :
  In col (still_missing_of row missing) ->
  exists kind,
    In (col, kind) critical_fields
    /\ str_in kind missing = true
    /\ is_field_missing (cell row col) kind = true.
Proof.
  unfold still_missing_of. intros H.
  apply in_map_iff in H as ([c k] & Hk & Hf). cbn in Hk. subst c.
  apply List.filter_In in Hf as [Hc Hm]. apply andb_prop in Hm as [Hl Hm].
  exists k. auto.
Qed.

Lemma types_of_inv (target : string) (fs : list string) :
  str_in target (types_of fs) = true ->
  exists f, In f fs /\ In (f, target) critical_fields.
Proof.
  intros H. apply str_in_In in H. unfold types_of in H.
  apply list_elem_of_In, list_elem_of_omap in H as (f & Hf & Ha).
  exists f. split; [apply list_elem_of_In, Hf | apply In_of_assoc, Ha].
Qed.

(** The estimates, of the models or of the heuristic, are for cluster
    columns whose kind was listed. *)
Lemma estimate_only_listed (ml_models : gmap string ModelInfo) (current_year : Z)
    (row : gmap string Value) (types : list string) (est : gmap string Value)
    (col : string) (v : Value) :
  estimate_player_fields ml_models current_year row types = Ok est ->
  est !! col = Some v ->
  exists target, In (target, col) cluster /\ str_in target types = true.
Proof.
  unfold estimate_player_fields.
  destruct (bool_decide (ml_models = ∅)).
  - intros Hest Hv.
    apply simple_estimate_entries in Hest
      as (cp & p24 & pall & _ & _ & _ & H24 & Hcur & Hall & Hother).
    cbn zeta in H24, Hcur, Hall.
    destruct (decide (col = col_peak_24h)) as [->|N1].
    { exists "peak_24h". split; [cbn; tauto|].
      rewrite H24 in Hv. destruct (str_in "peak_24h" types); [reflexivity | discriminate Hv]. }
    destruct (decide (col = col_current_players)) as [->|N2].
    { exists "current_players". split; [cbn; tauto|].
      rewrite Hcur in Hv.
      destruct (str_in "current_players" types); [reflexivity | discriminate Hv]. }
    destruct (decide (col = col_peak_alltime)) as [->|N3].
    { exists "peak_alltime". split; [cbn; tauto|].
      rewrite Hall in Hv.
      destruct (str_in "peak_alltime" types); [reflexivity | discriminate Hv]. }
    rewrite (Hother col N1 N2 N3) in Hv. discriminate Hv.
  - destruct (_extract_features_for_prediction current_year row) as [feats0|];
      [|discriminate].
    cbn [mbind Res_bind]. intros [= <-] Hv.
    set (st1 := predict_peak_24h ml_models types feats0) in *.
    set (st2 := predict_current_players ml_models types st1) in *.
    destruct (predict_peak_24h_entries ml_models types feats0) as [P1 P1o].
    fold st1 in P1, P1o.
    destruct (predict_current_players_entries ml_models types st1) as [P2 P2o].
    { apply P1o. str_ne. }
    fold st2 in P2, P2o.
    destruct (predict_peak_alltime_entries ml_models types st2) as [P3 P3o].
    { rewrite P2o by str_ne. apply P1o. str_ne. }
    destruct (decide (col = col_peak_alltime)) as [->|N3].
    { exists "peak_alltime". split; [cbn; tauto|].
      rewrite P3 in Hv. apply consulted_written in Hv as [Hl _]. exact Hl. }
    rewrite (P3o col N3) in Hv.
    destruct (decide (col = col_current_players)) as [->|N2].
    { exists "current_players". split; [cbn; tauto|].
      rewrite P2 in Hv. apply consulted_written in Hv as [Hl _]. exact Hl. }
    rewrite (P2o col N2) in Hv.
    destruct (decide (col = col_peak_24h)) as [->|N1].
    { exists "peak_24h". split; [cbn; tauto|].
      rewrite P1 in Hv. apply consulted_written in Hv as [Hl _]. exact Hl. }
    rewrite (P1o col N1) in Hv. discriminate Hv.
Qed.

(** *** The assignments *)

Lemma items_in_In (cols : list string) (d : gmap string Value) (col : string)
    (value : Value) :
  In (col, value) (items_in cols d) <-> In col cols /\ d !! col = Some value.
Proof.
  unfold items_in. rewrite <- list_elem_of_In, list_elem_of_omap. split.
  - intros (c & Hc & Hv). apply list_elem_of_In in Hc.
    destruct (d !! c) as [v|] eqn:Hd; [|discriminate Hv].
    cbn in Hv. injection Hv as <- <-. auto.
  - intros [Hc Hv]. exists col. split; [apply list_elem_of_In, Hc|].
    rewrite Hv. reflexivity.
Qed.

(** What a run of assignments leaves: every cell is as it was or holds the
    value assigned to it; when none raises every value is in its cell, and
    when one raises it is one the frame refuses. *)
Lemma set_items_spec (dtypes : Dtypes) (d : gmap string Value)
    (items : list (string * Value)) :
  (forall col value, In (col, value) items -> d !! col = Some value) ->
  forall (row r : gmap string Value) (raised : option Exn),
    set_items dtypes items row = (r, raised) ->
    (forall col, r !! col = row !! col
                 \/ (In col (map fst items) /\ r !! col = d !! col))
    /\ match raised with
       | None =>
           (forall col value, In (col, value) items -> dtypes col value = None)
           /\ (forall col, In col (map fst items) -> r !! col = d !! col)
       | Some e =>
           exists col value, In (col, value) items /\ dtypes col value = Some e
       end.
Proof.
  induction items as [|[c v] items IH]; intros Hd row r raised; cbn [set_items].
  - intros [= <- <-]. split; [tauto|]. split; [intros ? ? []| intros ? []].
  - assert (Hcv : d !! c = Some v) by (apply Hd; left; reflexivity).
    destruct (dtypes c v) as [e|] eqn:Hdt.
    + intros [= <- <-]. split; [tauto|]. exists c, v. split; [left; reflexivity | exact Hdt].
    + intros Hs.
      destruct (IH (fun col value H => Hd col value (or_intror H)) _ _ _ Hs)
        as [Hframe Hrest].
      assert (Hc : r !! c = d !! c).
      { destruct (Hframe c) as [H | [_ H]]; [|exact H].
        rewrite H, lookup_insert_eq. symmetry. exact Hcv. }
      split.
      * intros col. destruct (Hframe col) as [H | [Hin H]].
        -- destruct (decide (c = col)) as [<-|Hne].
           ++ right. split; [left; reflexivity | exact Hc].
           ++ left. rewrite H. apply lookup_insert_ne, Hne.
        -- right. split; [right; exact Hin | exact H].
      * destruct raised as [e|].
        -- destruct Hrest as (col & value & Hin & He). exists col, value.
           split; [right; exact Hin | exact He].
        -- destruct Hrest as [Hacc Hval]. split.
           ++ intros col value [[= <- <-] | Hin]; [exact Hdt | exact (Hacc col value Hin)].
           ++ intros col [<- | Hin]; [exact Hc | exact (Hval col Hin)].
Qed.

(** The assignments of a dictionary whose keys are among [cols]: when none
    raises, the row is the dictionary on top of the row as it was. *)
Lemma set_items_in (dtypes : Dtypes) (cols : list string)
    (d row r : gmap string Value) (raised : option Exn) :
  (forall col, is_Some (d !! col) -> In col cols) ->
  set_items dtypes (items_in cols d) row = (r, raised) ->
  (forall col, r !! col = row !! col \/ (is_Some (d !! col) /\ r !! col = d !! col))
  /\ match raised with
     | None => takes dtypes d /\ r = d ∪ row
     | Some e => refuses dtypes d e
     end.
Proof.
  intros Hkeys Hs.
  destruct (set_items_spec dtypes d (items_in cols d)
              (fun col value H => proj2 (proj1 (items_in_In cols d col value) H))
              row r raised Hs) as [Hframe Hrest].
  assert (Hfst : forall col, In col (map fst (items_in cols d)) -> is_Some (d !! col)).
  { intros col Hin. apply in_map_iff in Hin as ([c v] & <- & Hin).
    apply items_in_In in Hin as [_ Hv]. cbn. rewrite Hv. eauto. }
  split.
  - intros col. destruct (Hframe col) as [H | [Hin H]]; [left; exact H|].
    right. split; [exact (Hfst col Hin) | exact H].
  - destruct raised as [e|].
    + destruct Hrest as (col & value & Hin & He). exists col, value.
      split; [exact (proj2 (proj1 (items_in_In _ _ _ _) Hin)) | exact He].
    + destruct Hrest as [Hacc Hval]. split.
      * intros col value Hv. apply Hacc. apply items_in_In.
        split; [apply Hkeys; rewrite Hv; eauto | exact Hv].
      * apply map_eq. intros col. destruct (d !! col) as [v|] eqn:Hv.
        -- rewrite (lookup_union_Some_l _ _ _ _ Hv), <- Hv. apply Hval.
           apply in_map_iff. exists (col, v). split; [reflexivity|].
           apply items_in_In. split; [apply Hkeys; rewrite Hv; eauto | exact Hv].
        -- rewrite lookup_union_r by exact Hv.
           destruct (Hframe col) as [H | [Hin _]]; [exact H|].
           destruct (Hfst col Hin) as [x Hx]. rewrite Hv in Hx. discriminate Hx.
Qed.

(** The assignments of the supply. *)
Lemma set_supply (dtypes : Dtypes) (w : World) (missing : list string)
    (sup row r : gmap string Value) (raised : option Exn) :
  fetch_missing_data w missing = Ok sup ->
  set_items dtypes (items_in supply_order sup) row = (r, raised) ->
  (forall col, r !! col = row !! col \/ (is_Some (sup !! col) /\ r !! col = sup !! col))
  /\ match raised with
     | None => takes dtypes sup /\ r = sup ∪ row
     | Some e => refuses dtypes sup e
     end.
Proof.
  intros Hf. apply set_items_in. intros col Hs.
  destruct (fetch_only_asked w missing sup col Hf Hs) as (kind & Hk & _).
  unfold supply_order. apply in_map_iff. exists (col, kind). split; [reflexivity | exact Hk].
Qed.

(** The assignments of the estimates. *)
Lemma set_estimates (dtypes : Dtypes) (ml_models : gmap string ModelInfo)
    (current_year : Z) (row0 : gmap string Value) (types : list string)
    (est row r : gmap string Value) (raised : option Exn) :
  estimate_player_fields ml_models current_year row0 types = Ok est ->
  set_items dtypes (items_in estimate_order est) row = (r, raised) ->
  (forall col, r !! col = row !! col \/ (is_Some (est !! col) /\ r !! col = est !! col))
  /\ match raised with
     | None => takes dtypes est /\ r = est ∪ row
     | Some e => refuses dtypes est e
     end.
Proof.
  intros He. apply set_items_in. intros col [v Hv].
  destruct (estimate_only_listed _ _ _ _ _ _ _ He Hv) as (target & Hcl & _).
  cbn in Hcl. unfold estimate_order.
  destruct Hcl as [[= _ <-] | [[= _ <-] | [[= _ <-] | []]]]; cbn; tauto.
Qed.

Lemma takes_not_refuses (dtypes : Dtypes) (d : gmap string Value) (e : Exn) :
  takes dtypes d -> refuses dtypes d e -> False.
Proof.
  intros Ht (col & value & Hv & He). rewrite (Ht col value Hv) in He. discriminate He.
Qed.

(** *** The end of an iteration *)

Lemma finish_row (dtypes : Dtypes) (row : gmap string Value)
    (still_missing : list string) (deleted : nat) (log : list Event) :
  o_row (finish dtypes row still_missing deleted log)
  = if bool_decide (still_missing = [col_price])
       && bool_decide (dtypes col_price (VStr "Free") = None)
    then <[col_price := VStr "Free"]> row else row.
Proof.
  unfold finish. destruct (bool_decide (still_missing = [col_price])).
  - destruct (dtypes col_price (VStr "Free")); reflexivity.
  - destruct (bool_decide (still_missing = [])); reflexivity.
Qed.

Lemma finish_deleted (dtypes : Dtypes) (row : gmap string Value)
    (still_missing : list string) (deleted : nat) (log : list Event) :
  o_deleted (finish dtypes row still_missing deleted log)
  = if (bool_decide (still_missing = [col_price])
        && bool_decide (dtypes col_price (VStr "Free") = None))
       || bool_decide (still_missing = [])
    then deleted else S deleted.
Proof.
  unfold finish. destruct (bool_decide (still_missing = [col_price])) eqn:E.
  - apply bool_decide_eq_true_1 in E. subst still_missing.
    change (bool_decide ([col_price] = [])) with false.
    destruct (dtypes col_price (VStr "Free")); reflexivity.
  - destruct (bool_decide (still_missing = [])); reflexivity.
Qed.

Lemma finish_completed (dtypes : Dtypes) (row : gmap string Value)
    (still_missing : list string) (deleted : nat) (log : list Event) :
  o_completed (finish dtypes row still_missing deleted log)
  = if (bool_decide (still_missing = [col_price])
        && bool_decide (dtypes col_price (VStr "Free") = None))
       || bool_decide (still_missing = [])
    then 1%nat else 0%nat.
Proof.
  unfold finish. destruct (bool_decide (still_missing = [col_price])) eqn:E.
  - apply bool_decide_eq_true_1 in E. subst still_missing.
    change (bool_decide ([col_price] = [])) with false.
    destruct (dtypes col_price (VStr "Free")); reflexivity.
  - destruct (bool_decide (still_missing = [])); reflexivity.
Qed.

Lemma apply_estimates_row (row est : gmap string Value) (still mpf : list string) :
  (apply_estimates row est still mpf).1 = est ∪ row.
Proof. reflexivity. Qed.

Lemma apply_estimates_sub (row est : gmap string Value) (still mpf : list string)
    (f : string) :
  In f (apply_estimates row est still mpf).2 -> In f still.
Proof.
  unfold apply_estimates. cbn [snd]. intros H.
  apply List.filter_In in H as [H _]. apply List.filter_In in H as [H _]. exact H.
Qed.

(** A name stays in [still_missing] through the estimation when it got no
    estimate and its field is still classified missing. *)
Lemma apply_estimates_stays (row est : gmap string Value) (still mpf : list string)
    (f kind : string) :
  In f still ->
  est !! f = None ->
  In (f, kind) critical_fields ->
  is_field_missing (cell (est ∪ row) f) kind = true ->
  In f (apply_estimates row est still mpf).2.
Proof.
  intros Hin Hnone Hk Hm. unfold apply_estimates. cbn [snd].
  assert (Hne : (str_in f mpf && bool_decide (is_Some (est !! f))) = false).
  { rewrite Hnone. rewrite (bool_decide_eq_false_2 (is_Some None)).
    - apply andb_false_r.
    - intros [x Hx]; discriminate Hx. }
  apply List.filter_In. split.
  - apply List.filter_In. split; [exact Hin | rewrite Hne; reflexivity].
  - rewrite (assoc_of_In f kind Hk). change (default "" (Some kind)) with kind.
    rewrite Hm. apply orb_true_r.
Qed.

(** How one record ends, path by path of the loop body. *)
Lemma clean_record_shape (dtypes : Dtypes) (ml_models : gmap string ModelInfo)
    (current_year : Z) (w : World) (row : gmap string Value) :
  let o := clean_record dtypes ml_models current_year w row in
  let missing := missing_fields_of row in
  (missing = []
   /\ o = {| o_row := row; o_deleted := 0; o_completed := 0; o_log := [] |})
  \/ (missing <> []
      /\ exists e, fetch_missing_data w missing = Raise e
                   /\ o_row o = row /\ o_deleted o = 1%nat /\ o_completed o = 0%nat
                   /\ o_log o = [EvMissing missing; EvError e])
  \/ (missing = ["price"]
      /\ exists sup,
           fetch_missing_data w missing = Ok sup
           /\ sup !! col_price = None
           /\ ((dtypes col_price (VStr "Free") = None
                /\ o = {| o_row := <[col_price := VStr "Free"]> row; o_deleted := 0;
                          o_completed := 1;
                          o_log := [EvMissing missing; EvPriceFetchFailed] |})
               \/ (exists e,
                      dtypes col_price (VStr "Free") = Some e
                      /\ o = {| o_row := row; o_deleted := 1; o_completed := 0;
                                o_log := [EvMissing missing; EvPriceFetchFailed;
                                          EvError e] |})))
  \/ (missing <> []
      /\ exists sup,
           fetch_missing_data w missing = Ok sup
           /\ (missing = ["price"] -> sup !! col_price <> None)
           /\ let row1 := sup ∪ row in
              let still := still_missing_of row1 missing in
              let mpf := List.filter is_player_column still in
              (exists e,
                 refuses dtypes sup e
                 /\ (forall col, o_row o !! col = row !! col
                                 \/ (is_Some (sup !! col) /\ o_row o !! col = sup !! col))
                 /\ o_deleted o = 1%nat /\ o_completed o = 0%nat
                 /\ existsb is_estimate (o_log o) = false
                 /\ existsb is_price_fill (o_log o) = false)
              \/ (takes dtypes sup
                  /\ ((mpf = []
                       /\ exists log, existsb is_estimate log = false
                                      /\ existsb is_price_fill log = false
                                      /\ o = finish dtypes row1 still 0 log)
                      \/ (mpf <> []
                          /\ list_to_set (types_of mpf)
                             =@{gset string} list_to_set player_fields
                          /\ exists log, existsb is_estimate log = false
                                         /\ existsb is_price_fill log = false
                                         /\ o = finish dtypes row1 still 1 log)
                      \/ (mpf <> []
                          /\ list_to_set (types_of mpf)
                             ≠@{gset string} list_to_set player_fields
                          /\ exists e,
                               estimate_player_fields ml_models current_year row1
                                 (types_of mpf) = Raise e
                               /\ o_row o = row1 /\ o_deleted o = 1%nat
                               /\ o_completed o = 0%nat
                               /\ existsb is_price_fill (o_log o) = false)
                      \/ (mpf <> []
                          /\ list_to_set (types_of mpf)
                             ≠@{gset string} list_to_set player_fields
                          /\ exists est,
                               estimate_player_fields ml_models current_year row1
                                 (types_of mpf) = Ok est
                               /\ ((exists e,
                                      refuses dtypes est e
                                      /\ (forall col,
                                            o_row o !! col = row1 !! col
                                            \/ (is_Some (est !! col)
                                                /\ o_row o !! col = est !! col))
                                      /\ o_deleted o = 1%nat /\ o_completed o = 0%nat
                                      /\ existsb is_price_fill (o_log o) = false)
                                   \/ (takes dtypes est
                                       /\ exists log,
                                            existsb is_price_fill log = false
                                            /\ o = finish dtypes (est ∪ row1)
                                                   (apply_estimates row1 est still mpf).2
                                                   0 log)))))).
Proof.
  cbn zeta. unfold clean_record.
  destruct (bool_decide (missing_fields_of row = [])) eqn:Hnil.
  { left. apply bool_decide_eq_true_1 in Hnil. split; [exact Hnil | reflexivity]. }
  apply bool_decide_eq_false_1 in Hnil. right.
  unfold record_progress.
  destruct (fetch_missing_data w (missing_fields_of row)) as [sup|e] eqn:Hf.
  2: { left. split; [exact Hnil|]. exists e. repeat split. }
  right.
  destruct (bool_decide (missing_fields_of row = ["price"])
            && bool_decide (sup !! col_price = None)) eqn:Hearly.
  { left. apply andb_prop in Hearly as [H1 H2].
    apply bool_decide_eq_true_1 in H1, H2.
    split; [exact H1|]. exists sup. split; [reflexivity|]. split; [exact H2|].
    destruct (dtypes col_price (VStr "Free")) as [e|].
    - right. exists e. split; reflexivity.
    - left. split; reflexivity. }
  right. split; [exact Hnil|]. exists sup. split; [reflexivity|]. split.
  { intros Hp Hn. rewrite (bool_decide_eq_true_2 _ Hp), (bool_decide_eq_true_2 _ Hn) in Hearly.
    discriminate Hearly. }
  cbn zeta.
  set (log0 := if bool_decide (sup = ∅) then [EvMissing (missing_fields_of row)]
               else ([EvMissing (missing_fields_of row)] ++ [EvSupplied (size sup)])%list).
  assert (Hlog0 : existsb is_estimate log0 = false /\ existsb is_price_fill log0 = false).
  { subst log0. destruct (bool_decide (sup = ∅)); split; reflexivity. }
  destruct Hlog0 as [Hle0 Hlp0].
  destruct (set_items dtypes (items_in supply_order sup) row) as [r [e|]] eqn:Hs;
    destruct (set_supply dtypes w _ sup row r _ Hf Hs) as [Hframe Hres].
  { left. exists e. split; [exact Hres|]. split; [exact Hframe|].
    cbn [o_deleted o_completed o_log]. rewrite !existsb_app, Hle0, Hlp0.
    repeat split. }
  destruct Hres as [Htakes ->]. right. split; [exact Htakes|].
  destruct (bool_decide (List.filter is_player_column
                           (still_missing_of (sup ∪ row) (missing_fields_of row)) = []))
    eqn:Hmpf.
  { left. apply bool_decide_eq_true_1 in Hmpf. split; [exact Hmpf|].
    exists log0. repeat split; assumption. }
  apply bool_decide_eq_false_1 in Hmpf. right.
  destruct (bool_decide (list_to_set (types_of (List.filter is_player_column
              (still_missing_of (sup ∪ row) (missing_fields_of row))))
            =@{gset string} list_to_set player_fields)) eqn:Hset.
  { left. apply bool_decide_eq_true_1 in Hset. split; [exact Hmpf|].
    split; [exact Hset|]. exists (log0 ++ [EvAllPlayerFieldsMissing])%list.
    rewrite !existsb_app, Hle0, Hlp0. repeat split. }
  apply bool_decide_eq_false_1 in Hset. right.
  destruct (estimate_player_fields ml_models current_year (sup ∪ row) _) as [est|e] eqn:He.
  2: { left. split; [exact Hmpf|]. split; [exact Hset|]. exists e.
       cbn [o_row o_deleted o_completed o_log]. rewrite !existsb_app, Hlp0.
       repeat split. }
  right. split; [exact Hmpf|]. split; [exact Hset|]. exists est. split; [reflexivity|].
  set (log1 := if bool_decide (est = ∅) then (log0 ++ [EvEstimate])%list
               else ((log0 ++ [EvEstimate]) ++ [EvEstimated (size est)])%list).
  assert (Hlp1 : existsb is_price_fill log1 = false).
  { subst log1. destruct (bool_decide (est = ∅)); rewrite !existsb_app, Hlp0; reflexivity. }
  destruct (set_items dtypes (items_in estimate_order est) (sup ∪ row)) as [r' [e|]] eqn:Hs';
    destruct (set_estimates dtypes _ _ _ _ est (sup ∪ row) r' _ He Hs') as [Hframe' Hres'].
  { left. exists e. split; [exact Hres'|]. split; [exact Hframe'|].
    cbn [o_deleted o_completed o_log]. rewrite !existsb_app, Hlp1. repeat split. }
  destruct Hres' as [Htakes' _]. right. split; [exact Htakes'|].
  exists log1. split; [exact Hlp1|].
  destruct (apply_estimates (sup ∪ row) est _ _) as [r2 s2] eqn:Ha.
  cbn [snd].
  assert (Hr : r2 = est ∪ (sup ∪ row)).
  { change r2 with (r2, s2).1. rewrite <- Ha. reflexivity. }
  rewrite Hr. reflexivity.
Qed.

Lemma all_player_types (mpf : list string) (kind col : string) :
  list_to_set (types_of mpf) =@{gset string} list_to_set player_fields ->
  In (kind, col) cluster ->
  In col mpf.
Proof.
  intros Hset Hcl.
  assert (Hin : kind ∈@{gset string} list_to_set player_fields).
  { apply elem_of_list_to_set, list_elem_of_In.
    cbn in Hcl. destruct Hcl as [[= <- _] | [[= <- _] | [[= <- _] | []]]]; cbn; tauto. }
  rewrite <- Hset in Hin. apply elem_of_list_to_set, list_elem_of_In in Hin.
  apply str_in_In, types_of_inv in Hin as (f & Hf & Hk).
  rewrite <- (kind_names_column f col kind Hk (cluster_critical _ _ Hcl)). exact Hf.
Qed.

(** ** C1: the three cluster fields all missing *)

(** C1.  When the three cluster fields are all classified missing after
    external completion, the record is dropped and no estimation, by
    model or by heuristic, is attempted, whatever the model bank holds and
    whatever the frame takes. *)
Theorem all_cluster_missing_dropped
    (dtypes : Dtypes) (ml_models : gmap string ModelInfo) (current_year : Z)
    (w : World) (row : gmap string Value) :
  cluster_missing (row_after_completion w row) = true ->
  let o := clean_record dtypes ml_models current_year w row in
  decision o = Dropped /\ existsb is_estimate (o_log o) = false.
Proof.
  intros H. cbn zeta. pose proof H as Hall.
  unfold cluster_missing in H.
  apply andb_prop in H as [H H3]. apply andb_prop in H as [H1 H2].
  unfold row_after_completion in *.
  assert (Hd : forall o : Outcome, (0 < o_deleted o)%nat -> decision o = Dropped).
  { intros o Ho. unfold decision. destruct (Nat.ltb_spec 0 (o_deleted o)); [reflexivity | lia]. }
  destruct (clean_record_shape dtypes ml_models current_year w row)
    as [[Hnil _] | [(_ & e & Hf & _ & Hdel & _ & Hlog)
        | [(Hp & sup & Hf & _) | (_ & sup & Hf & _ & Hcases)]]].
  - exfalso. rewrite Hnil in *.
    destruct (fetch_missing_data w []) as [sup|e] eqn:Hf.
    + pose proof Hf as Hf'. rewrite <- Hnil in Hf'.
      pose proof (listed_if_missing_after w row sup col_current_players
                    "current_players" ltac:(cbn; tauto) Hf' H1) as L.
      rewrite Hnil in L. discriminate L.
    + pose proof (listed_if_missing row col_current_players
                    "current_players" ltac:(cbn; tauto) H1) as L.
      rewrite Hnil in L. discriminate L.
  - split; [apply Hd; lia|]. rewrite Hlog. reflexivity.
  - exfalso. rewrite Hf in *.
    pose proof (listed_if_missing_after w row sup col_current_players
                  "current_players" ltac:(cbn; tauto) Hf H1) as L.
    rewrite Hp in L. discriminate L.
  - rewrite Hf in *. cbn zeta in Hcases.
    assert (L1 := listed_if_missing_after w row sup col_current_players
                    "current_players" ltac:(cbn; tauto) Hf H1).
    assert (L2 := listed_if_missing_after w row sup col_peak_24h
                    "peak_24h" ltac:(cbn; tauto) Hf H2).
    assert (L3 := listed_if_missing_after w row sup col_peak_alltime
                    "peak_alltime" ltac:(cbn; tauto) Hf H3).
    rewrite (player_part_all _ _ L1 L2 L3 Hall) in Hcases.
    assert (Hsm : In col_current_players
                    (still_missing_of (sup ∪ row) (missing_fields_of row))).
    { apply (In_still_missing _ _ _ "current_players"); [cbn; tauto | exact L1 | exact H1]. }
    destruct Hcases as [(e & _ & _ & Hdel & _ & Hlog & _)
                       | (_ & [(Hmpf & _) | [(_ & _ & log & Hlog & _ & Ho)
                          | [(_ & Hset & _) | (_ & Hset & _)]]])].
    + split; [apply Hd; lia | exact Hlog].
    + discriminate Hmpf.
    + rewrite Ho. unfold finish.
      rewrite (not_price_only_of_In _ _ Hsm) by (intros Hc; vm_compute in Hc; discriminate Hc).
      rewrite (list_not_nil_of_In _ _ Hsm). cbn [o_deleted o_log].
      split; [apply Hd; cbn; lia|]. rewrite existsb_app, Hlog. reflexivity.
    + exfalso. apply Hset. reflexivity.
    + exfalso. apply Hset. reflexivity.
Qed.

Lemma all_cluster_missing_dropped_witness :
  decision (clean_record open_frame ∅ 2025 silent_world idle_title) = Dropped
  /\ existsb is_estimate (o_log (clean_record open_frame ∅ 2025 silent_world idle_title))
     = false.
Proof.
  apply (all_cluster_missing_dropped open_frame ∅ 2025 silent_world idle_title).
  vm_compute. reflexivity.
Defined.

(** ** C2: a record that lacks only its price *)

(** Asked for the price alone, external completion does not raise. *)
Lemma fetch_price_only_ok (w : World) :
  exists sup, fetch_missing_data w ["price"] = Ok sup.
Proof.
  unfold fetch_missing_data.
  change (fetch_steamspy w ["price"] (fetch_store w ["price"] ∅))
    with (Ok (fetch_store w ["price"] ∅) : Res (gmap string Value)).
  cbn [mbind Res_bind]. eexists. reflexivity.
Qed.

Lemma unresolved_In (row : gmap string Value) (col kind : string) :
  In (col, kind) critical_fields ->
  In col (unresolved row) <-> is_field_missing (cell row col) kind = true.
Proof.
  intros Hk. unfold unresolved. rewrite in_map_iff. split.
  - intros ([c k] & Hc & Hf). cbn in Hc. subst c.
    apply List.filter_In in Hf as [Hck Hm].
    apply assoc_of_In in Hk, Hck. rewrite Hk in Hck. injection Hck as <-. exact Hm.
  - intros Hm. exists (col, kind). split; [reflexivity|].
    apply List.filter_In. split; [exact Hk | exact Hm].
Qed.

Lemma NoDup_map_filter {A B} (f : A -> B) (P : A -> bool) (l : list A) :
  List.NoDup (map f l) -> List.NoDup (map f (List.filter P l)).
Proof.
  induction l as [|a l IH]; cbn [map List.filter]; [intros H; exact H|].
  intros H. apply List.NoDup_cons_iff in H as [Hn Hd].
  destruct (P a); [|exact (IH Hd)].
  cbn [map]. apply List.NoDup_cons_iff. split; [|exact (IH Hd)].
  intros Hin. apply Hn. apply in_map_iff in Hin as (x & Hx & Hf).
  apply in_map_iff. exists x. split; [exact Hx|].
  apply List.filter_In in Hf as [Hf _]. exact Hf.
Qed.

Lemma critical_columns_NoDup : List.NoDup (map fst critical_fields).
Proof.
  cbn. repeat (apply List.NoDup_cons_iff; split;
               [cbn; intros H; repeat (destruct H as [H|H]; [vm_compute in H; discriminate H|]);
                exact H|]).
  apply List.NoDup_nil.
Qed.

Lemma still_missing_NoDup (row : gmap string Value) (missing : list string) :
  List.NoDup (still_missing_of row missing).
Proof. apply NoDup_map_filter, critical_columns_NoDup. Qed.

Lemma only_element {A} (a : A) (l : list A) :
  List.NoDup l -> In a l -> (forall x, In x l -> x = a) -> l = [a].
Proof.
  intros Hd Hin Hall. destruct l as [|x l]; [destruct Hin|].
  assert (x = a) by (apply Hall; left; reflexivity). subst x.
  destruct l as [|y l]; [reflexivity|].
  assert (y = a) by (apply Hall; right; left; reflexivity). subst y.
  apply List.NoDup_cons_iff in Hd as [Hn _]. exfalso. apply Hn. left. reflexivity.
Qed.

Lemma apply_estimates_not_estimated (row est : gmap string Value)
    (still mpf : list string) (f : string) :
  In f (apply_estimates row est still mpf).2 ->
  In f mpf -> est !! f = None.
Proof.
  unfold apply_estimates. cbn [snd]. intros H Hm.
  apply List.filter_In in H as [H _]. apply List.filter_In in H as [_ H].
  rewrite (proj2 (str_in_In f mpf) Hm) in H. cbn [andb] in H.
  apply negb_true_iff, bool_decide_eq_false_1 in H.
  destruct (est !! f) as [v|]; [|reflexivity]. exfalso. apply H. eauto.
Qed.

(** When the price is the only field that completion and estimation
    leave unresolved, it is the only name in [still_missing] at line 700. *)
Lemma still_missing_price_only (row1 est : gmap string Value) (missing : list string) :
  let still := still_missing_of row1 missing in
  let mpf := List.filter is_player_column still in
  (forall col v, est !! col = Some v ->
                 exists target, In (target, col) cluster
                                /\ str_in target (types_of mpf) = true) ->
  (forall col kind, In (col, kind) critical_fields ->
                    is_field_missing (cell row1 col) kind = true ->
                    str_in kind missing = true) ->
  unresolved (est ∪ row1) = [col_price] ->
  (apply_estimates row1 est still mpf).2 = [col_price].
Proof.
  cbn zeta. intros Hest Hlisted Hun.
  set (still := still_missing_of row1 missing).
  set (mpf := List.filter is_player_column still).
  assert (Hcell : forall col, est !! col = None -> cell (est ∪ row1) col = cell row1 col).
  { intros col Hn. unfold cell. rewrite lookup_union_r by exact Hn. reflexivity. }
  assert (Hnp : est !! col_price = None).
  { destruct (est !! col_price) as [v|] eqn:Hv; [|reflexivity]. exfalso.
    destruct (Hest _ _ Hv) as (target & Hcl & _). cbn in Hcl.
    destruct Hcl as [[= _ H] | [[= _ H] | [[= _ H] | []]]]; vm_compute in H; discriminate H. }
  assert (Hpm : is_field_missing (cell row1 col_price) "price" = true).
  { rewrite <- (Hcell _ Hnp). apply (unresolved_In _ col_price "price"); [cbn; tauto|].
    rewrite Hun. left. reflexivity. }
  assert (Hps : In col_price still).
  { apply (In_still_missing _ _ _ "price"); [cbn; tauto | | exact Hpm].
    apply (Hlisted col_price "price"); [cbn; tauto | exact Hpm]. }
  apply only_element.
  - unfold apply_estimates. cbn [snd]. apply List.NoDup_filter, List.NoDup_filter.
    apply still_missing_NoDup.
  - apply (apply_estimates_stays _ _ _ _ col_price "price"); [exact Hps | exact Hnp | cbn; tauto|].
    rewrite (Hcell _ Hnp). exact Hpm.
  - intros f Hf. destruct (decide (f = col_price)) as [Heq|Hne]; [exact Heq|]. exfalso.
    pose proof (apply_estimates_sub _ _ _ _ _ Hf) as Hs.
    destruct (still_missing_inv _ _ _ Hs) as (kind & Hk & _ & Hm).
    assert (Hfinal : is_field_missing (cell (est ∪ row1) f) kind = false).
    { destruct (is_field_missing (cell (est ∪ row1) f) kind) eqn:E; [|reflexivity].
      apply (unresolved_In _ f kind Hk) in E. rewrite Hun in E.
      destruct E as [E | []]. congruence. }
    destruct (est !! f) as [v|] eqn:Hv.
    + destruct (Hest _ _ Hv) as (target & Hcl & Ht).
      apply types_of_inv in Ht as (g & Hg & Hgt).
      rewrite (kind_names_column g f target Hgt (cluster_critical _ _ Hcl)) in Hg.
      rewrite (apply_estimates_not_estimated _ _ _ _ _ Hf Hg) in Hv. discriminate Hv.
    + rewrite (Hcell _ Hv), Hm in Hfinal. discriminate Hfinal.
Qed.


Lemma finish_price_only (dtypes : Dtypes) (r : gmap string Value) (log : list Event) :
  free_written dtypes (finish dtypes r [col_price] 0 log).
Proof.
  unfold free_written, finish.
  change (bool_decide ([col_price] = [col_price])) with true. cbn match.
  destruct (dtypes col_price (VStr "Free")) as [e|]; [split; reflexivity|].
  unfold decision. cbn [o_deleted o_log o_row Nat.ltb Nat.leb].
  rewrite existsb_app. cbn [existsb is_price_fill]. rewrite orb_true_r.
  split; [reflexivity | apply lookup_insert_eq].
Qed.

(** The three cluster fields are all missing after completion exactly when
    the three kinds are those of the player columns left in
    [still_missing] (line 680). *)
Lemma all_three_iff (w : World) (row sup : gmap string Value) :
  fetch_missing_data w (missing_fields_of row) = Ok sup ->
  list_to_set (types_of (List.filter is_player_column
                 (still_missing_of (sup ∪ row) (missing_fields_of row))))
  =@{gset string} list_to_set player_fields
  <-> cluster_missing (sup ∪ row) = true.
Proof.
  intros Hf. split.
  - intros Hset.
    assert (Hc : forall kind col, In (kind, col) cluster ->
                   is_field_missing (cell (sup ∪ row) col) kind = true).
    { intros kind col Hcl.
      pose proof (all_player_types _ kind col Hset Hcl) as Hin.
      apply List.filter_In in Hin as [Hin _].
      apply still_missing_inv in Hin as (k & Hk & _ & Hm).
      pose proof (cluster_critical _ _ Hcl) as Hck.
      apply assoc_of_In in Hk, Hck. rewrite Hk in Hck. injection Hck as ->. exact Hm. }
    unfold cluster_missing.
    rewrite (Hc "current_players" col_current_players),
            (Hc "peak_24h" col_peak_24h), (Hc "peak_alltime" col_peak_alltime)
      by (cbn; tauto).
    reflexivity.
  - intros Hall. pose proof Hall as H. unfold cluster_missing in H.
    apply andb_prop in H as [H H3]. apply andb_prop in H as [H1 H2].
    assert (L1 := listed_if_missing_after w row sup col_current_players
                    "current_players" ltac:(cbn; tauto) Hf H1).
    assert (L2 := listed_if_missing_after w row sup col_peak_24h
                    "peak_24h" ltac:(cbn; tauto) Hf H2).
    assert (L3 := listed_if_missing_after w row sup col_peak_alltime
                    "peak_alltime" ltac:(cbn; tauto) Hf H3).
    rewrite (player_part_all _ _ L1 L2 L3 Hall). reflexivity.
Qed.

(** The record in which the price is the only field left unresolved by
    completion and by the estimates [est]: it comes to the assignment of
    ['Free']. *)
Lemma price_only_outcome (dtypes : Dtypes) (ml_models : gmap string ModelInfo)
    (current_year : Z) (w : World) (row sup est : gmap string Value) :
  let missing := missing_fields_of row in
  let targets := estimation_targets (sup ∪ row) missing in
  fetch_missing_data w missing = Ok sup ->
  takes dtypes sup ->
  cluster_missing (sup ∪ row) = false ->
  (targets <> [] ->
   estimate_player_fields ml_models current_year (sup ∪ row) targets = Ok est
   /\ takes dtypes est) ->
  (targets = [] -> est = ∅) ->
  unresolved (est ∪ (sup ∪ row)) = [col_price] ->
  free_written dtypes (clean_record dtypes ml_models current_year w row).
Proof.
  cbn zeta. unfold estimation_targets.
  intros Hf Htakes Hcm Hcalled Hnone Hun.
  assert (Htypes : forall l, types_of (List.filter is_player_column l) = [] ->
                             List.filter is_player_column l = []).
  { intros l Hl. destruct (List.filter is_player_column l) as [|f fs] eqn:E; [reflexivity|].
    exfalso.
    assert (Hin : In f (List.filter is_player_column l)) by (rewrite E; left; reflexivity).
    apply List.filter_In in Hin as [_ Hp]. unfold is_player_column in Hp.
    unfold types_of in Hl.
    change (omap ?g (?x :: ?t))
      with (match g x with Some y => y :: omap g t | None => omap g t end) in Hl.
    destruct (assoc f critical_fields); [discriminate Hl | discriminate Hp]. }
  assert (Hlisted : forall col kind,
             In (col, kind) critical_fields ->
             is_field_missing (cell (sup ∪ row) col) kind = true ->
             str_in kind (missing_fields_of row) = true).
  { intros col kind Hk Hm. exact (listed_if_missing_after w row sup col kind Hk Hf Hm). }
  assert (Hkeys : forall col v,
             est !! col = Some v ->
             exists target,
               In (target, col) cluster
               /\ str_in target
                    (types_of (List.filter is_player_column
                       (still_missing_of (sup ∪ row) (missing_fields_of row)))) = true).
  { intros col v Hv.
    destruct (types_of (List.filter is_player_column
                (still_missing_of (sup ∪ row) (missing_fields_of row))))
      as [|t ts] eqn:Ht.
    - rewrite (Hnone eq_refl), lookup_empty in Hv. discriminate Hv.
    - destruct (Hcalled ltac:(discriminate)) as [He _].
      exact (estimate_only_listed _ _ _ _ _ _ _ He Hv). }
  pose proof (still_missing_price_only (sup ∪ row) est (missing_fields_of row)
                Hkeys Hlisted Hun) as Hstill.
  destruct (clean_record_shape dtypes ml_models current_year w row)
    as [[Hnil _] | [(_ & e & Hf' & _) | [(Hp & sup' & Hf' & Hn & Hearly)
        | (_ & sup' & Hf' & _ & Hcases)]]].
  - exfalso.
    assert (Hin : In col_price
                    (still_missing_of (sup ∪ row) (missing_fields_of row))).
    { apply (apply_estimates_sub (sup ∪ row) est
               (still_missing_of (sup ∪ row) (missing_fields_of row))
               (List.filter is_player_column
                  (still_missing_of (sup ∪ row) (missing_fields_of row)))
               col_price).
      rewrite Hstill. left. reflexivity. }
    apply still_missing_inv in Hin as (k & _ & Hl & _). rewrite Hnil in Hl.
    discriminate Hl.
  - rewrite Hf in Hf'. discriminate Hf'.
  - unfold free_written.
    destruct Hearly as [[Hd ->] | (e & Hd & ->)]; rewrite Hd.
    + split; [reflexivity|]. cbn [o_row]. apply lookup_insert_eq.
    + split; reflexivity.
  - rewrite Hf in Hf'. injection Hf' as <-. cbn zeta in Hcases.
    destruct Hcases as [(e & Href & _) | (_ & Hpaths)];
      [exfalso; exact (takes_not_refuses _ _ _ Htakes Href)|].
    destruct Hpaths as [(Hmpf & log & _ & _ & ->)
                       | [(_ & Hset & _) | [(Hmpf & _ & e & He & _)
                          | (Hmpf & _ & est' & He & Hw)]]].
    + rewrite Hmpf in Hstill.
      assert (Hs : still_missing_of (sup ∪ row) (missing_fields_of row) = [col_price]).
      { rewrite <- Hstill. unfold apply_estimates. cbn [snd str_in existsb andb negb orb].
        rewrite !List.forallb_filter_id; [reflexivity| |];
          apply forallb_forall; intros; reflexivity. }
      rewrite Hs. apply finish_price_only.
    + exfalso. apply (all_three_iff w row sup Hf) in Hset. congruence.
    + destruct (Hcalled ltac:(intros Hc; apply Hmpf, Htypes, Hc)) as [He' _].
      rewrite He in He'. discriminate He'.
    + destruct (Hcalled ltac:(intros Hc; apply Hmpf, Htypes, Hc)) as [He' Htakes'].
      rewrite He in He'. injection He' as ->.
      destruct Hw as [(e & Href & _) | (_ & log & _ & ->)];
        [exfalso; exact (takes_not_refuses _ _ _ Htakes' Href)|].
      rewrite Hstill. apply finish_price_only.
Qed.

(** The record that lacks only its price and gets none from completion. *)
Lemma early_price_outcome (dtypes : Dtypes) (ml_models : gmap string ModelInfo)
    (current_year : Z) (w : World) (row : gmap string Value) :
  missing_fields_of row = ["price"] ->
  (forall sup, fetch_missing_data w ["price"] = Ok sup -> sup !! col_price = None) ->
  free_written dtypes (clean_record dtypes ml_models current_year w row).
Proof.
  intros Hm Hno.
  destruct (clean_record_shape dtypes ml_models current_year w row)
    as [[Hnil _] | [(_ & e & Hf' & _) | [(_ & sup' & _ & _ & Hearly)
        | (_ & sup' & Hf' & Hne & _)]]].
  - rewrite Hm in Hnil. discriminate Hnil.
  - rewrite Hm in Hf'. destruct (fetch_price_only_ok w) as [sup Hf].
    rewrite Hf in Hf'. discriminate Hf'.
  - unfold free_written.
    destruct Hearly as [[Hd ->] | (e & Hd & ->)]; rewrite Hd.
    + split; [reflexivity|]. cbn [o_row]. apply lookup_insert_eq.
    + split; reflexivity.
  - exfalso. apply (Hne Hm). apply Hno. rewrite <- Hm. exact Hf'.
Qed.

Lemma unresolved_price_not_cluster (row : gmap string Value) :
  unresolved row = [col_price] -> cluster_missing row = false.
Proof.
  intros Hun. unfold cluster_missing.
  destruct (is_field_missing (cell row col_current_players) "current_players")
    eqn:E; [|reflexivity].
  apply (unresolved_In _ col_current_players "current_players") in E; [|cbn; tauto].
  rewrite Hun in E. destruct E as [E | []]. vm_compute in E. discriminate E.
Qed.

Lemma unresolved_price_no_target (row : gmap string Value) (missing : list string) :
  unresolved row = [col_price] -> estimation_targets row missing = [].
Proof.
  intros Hun. unfold estimation_targets.
  destruct (List.filter is_player_column (still_missing_of row missing))
    as [|f fs] eqn:E; [reflexivity|]. exfalso.
  assert (Hin : In f (List.filter is_player_column (still_missing_of row missing)))
    by (rewrite E; left; reflexivity).
  apply List.filter_In in Hin as [Hin Hp].
  apply still_missing_inv in Hin as (k & Hk & _ & Hm).
  apply (unresolved_In _ f k Hk) in Hm. rewrite Hun in Hm.
  destruct Hm as [<- | []]. vm_compute in Hp. discriminate Hp.
Qed.



(** ** C6: an exception stays within its record *)

Lemma marks_from_elem (os : list Outcome) :
  forall n idx,
    idx ∈ marks_from n os <->
    exists i o, idx = (n + i)%nat /\ os !! i = Some o /\ (0 < o_deleted o)%nat.
Proof.
  induction os as [|o rest IH]; intros n idx; cbn [marks_from].
  - split; [intros H; inversion H | intros (i & o & _ & H & _); discriminate H].
  - rewrite elem_of_app, elem_of_replicate, IH. split.
    + intros [[-> Hne] | (i & o' & -> & Ho & Hd)].
      * exists 0%nat, o. cbn. split; [lia|]. split; [reflexivity | lia].
      * exists (S i), o'. cbn. split; [lia|]. split; [exact Ho | exact Hd].
    + intros (i & o' & -> & Ho & Hd). destruct i as [|i]; cbn in Ho.
      * injection Ho as <-. left. split; [lia | lia].
      * right. exists i, o'. split; [lia|]. split; [exact Ho | exact Hd].
Qed.

Lemma logs_from_indices (os : list Outcome) :
  forall n, map fst (logs_from n os) = seq n (length os).
Proof. induction os as [|o rest IH]; intros n; cbn; [|rewrite IH]; reflexivity. Qed.

Lemma dropped_iff_marked (o : Outcome) :
  decision o = Dropped <-> (0 < o_deleted o)%nat.
Proof.
  unfold decision. destruct (Nat.ltb_spec 0 (o_deleted o)).
  - split; [intros _; assumption | reflexivity].
  - split; [|lia].
    destruct (existsb _ _); [discriminate|].
    destruct (Nat.ltb _ _); discriminate.
Qed.

(** Each of these exceptions leaves one deletion mark and no completion. *)
Lemma raises_in_marked (dtypes : Dtypes) (ml_models : gmap string ModelInfo)
    (current_year : Z) (w : World) (row : gmap string Value) (e : Exn) :
  raises_in dtypes ml_models current_year w row e ->
  let o := clean_record dtypes ml_models current_year w row in
  o_deleted o = 1%nat /\ o_completed o = 0%nat.
Proof.
  cbn zeta. intros Hr.
  assert (Htypes : forall l, List.filter is_player_column l = [] ->
                             types_of (List.filter is_player_column l) = []).
  { intros l ->. reflexivity. }
  destruct Hr as [e Hf | sup e Hf Href | sup e Hf Htakes Hcm Ht He
                 | sup est e Hf Htakes Hcm Ht He Href | e Hm Hno Hd
                 | sup est e Hf Htakes Hcm Hcalled Hnone Hun Hd].
  - destruct (clean_record_shape dtypes ml_models current_year w row)
      as [[Hnil _] | [(_ & e' & _ & _ & Hdel & Hc & _)
          | [(_ & sup & Hf' & _) | (_ & sup & Hf' & _)]]];
      [|split; assumption|rewrite Hf in Hf'; discriminate Hf'
       |rewrite Hf in Hf'; discriminate Hf'].
    rewrite Hnil in Hf. vm_compute in Hf. discriminate Hf.
  - destruct Href as (col & value & Hv & Hd).
    destruct (fetch_only_asked w _ sup col Hf (mk_is_Some _ _ Hv)) as (kind & Hk & Hl).
    destruct (clean_record_shape dtypes ml_models current_year w row)
      as [[Hnil _] | [(_ & e' & Hf' & _) | [(Hp & sup' & Hf' & Hn & _)
          | (_ & sup' & Hf' & _ & Hcases)]]].
    + rewrite Hnil in Hl. discriminate Hl.
    + rewrite Hf in Hf'. discriminate Hf'.
    + exfalso. rewrite Hf in Hf'. injection Hf' as <-.
      rewrite Hp in Hl. cbn in Hl. rewrite orb_false_r in Hl.
      apply String.eqb_eq in Hl. subst kind.
      rewrite (kind_names_column col col_price "price" Hk ltac:(cbn; tauto)) in Hv.
      rewrite Hn in Hv. discriminate Hv.
    + rewrite Hf in Hf'. injection Hf' as <-. cbn zeta in Hcases.
      destruct Hcases as [(e' & _ & _ & Hdel & Hc & _) | (Htakes & _)];
        [split; assumption|].
      rewrite (Htakes col value Hv) in Hd. discriminate Hd.
  - destruct (clean_record_shape dtypes ml_models current_year w row)
      as [[Hnil _] | [(_ & e' & Hf' & _) | [(Hp & sup' & Hf' & Hn & _)
          | (_ & sup' & Hf' & _ & Hcases)]]].
    + exfalso. apply Ht. unfold estimation_targets, still_missing_of. rewrite Hnil.
      cbn. reflexivity.
    + rewrite Hf in Hf'. discriminate Hf'.
    + exfalso. apply Ht. unfold estimation_targets.
      rewrite still_missing_of_shape. cbn zeta. rewrite Hp.
      cbn [str_in existsb String.eqb Ascii.eqb Bool.eqb orb andb].
      repeat match goal with
             | |- context [if ?b then _ else _] => destruct b
             end; reflexivity.
    + rewrite Hf in Hf'. injection Hf' as <-. cbn zeta in Hcases.
      unfold estimation_targets in *.
      destruct Hcases as [(e' & _ & _ & Hdel & Hc & _) | (_ & Hpaths)];
        [split; assumption|].
      destruct Hpaths as [(Hmpf & _) | [(_ & Hset & _) | [(_ & _ & e' & _ & _ & Hdel & Hc & _)
                         | (_ & _ & est & He' & _)]]].
      * exfalso. apply Ht, Htypes, Hmpf.
      * apply (all_three_iff w row sup Hf) in Hset. congruence.
      * split; assumption.
      * rewrite He in He'. discriminate He'.
  - destruct (clean_record_shape dtypes ml_models current_year w row)
      as [[Hnil _] | [(_ & e' & Hf' & _) | [(Hp & sup' & Hf' & Hn & _)
          | (_ & sup' & Hf' & _ & Hcases)]]].
    + exfalso. apply Ht. unfold estimation_targets, still_missing_of. rewrite Hnil.
      cbn. reflexivity.
    + rewrite Hf in Hf'. discriminate Hf'.
    + exfalso. apply Ht. unfold estimation_targets.
      rewrite still_missing_of_shape. cbn zeta. rewrite Hp.
      cbn [str_in existsb String.eqb Ascii.eqb Bool.eqb orb andb].
      repeat match goal with
             | |- context [if ?b then _ else _] => destruct b
             end; reflexivity.
    + rewrite Hf in Hf'. injection Hf' as <-. cbn zeta in Hcases.
      unfold estimation_targets in *.
      destruct Hcases as [(e' & _ & _ & Hdel & Hc & _) | (_ & Hpaths)];
        [split; assumption|].
      destruct Hpaths as [(Hmpf & _) | [(_ & Hset & _) | [(_ & _ & e' & _ & _ & Hdel & Hc & _)
                         | (_ & _ & est' & He' & Hw)]]].
      * exfalso. apply Ht, Htypes, Hmpf.
      * apply (all_three_iff w row sup Hf) in Hset. congruence.
      * split; assumption.
      * rewrite He in He'. injection He' as <-.
        destruct Hw as [(e' & _ & _ & Hdel & Hc & _) | (Htakes' & _)]; [split; assumption|].
        exfalso. exact (takes_not_refuses _ _ _ Htakes' Href).
  - pose proof (early_price_outcome dtypes ml_models current_year w row Hm Hno) as H.
    unfold free_written in H. rewrite Hd in H. exact H.
  - pose proof (price_only_outcome dtypes ml_models current_year w row sup est
                  Hf Htakes Hcm Hcalled Hnone Hun) as H.
    unfold free_written in H. rewrite Hd in H. exact H.
Qed.

Section Batch.
Variable dtypes : Dtypes.
Variable ml_models : gmap string ModelInfo.
Variable current_year : Z.
Variable world_of : nat -> World.

Lemma loop_from_closed (rows : list (gmap string Value)) :
  forall (n : nat) (done : list (gmap string Value)) del comp logs,
    length done = n ->
    loop_from dtypes ml_models current_year world_of n rows
      {| ls_rows := done ++ rows; ls_deleted := del;
         ls_completed := comp; ls_logs := logs |}
    = {| ls_rows := done ++ map o_row (outcomes_from dtypes ml_models current_year world_of n rows);
         ls_deleted := del ++ marks_from n (outcomes_from dtypes ml_models current_year world_of n rows);
         ls_completed := comp + sum_list (map o_completed (outcomes_from dtypes ml_models current_year world_of n rows));
         ls_logs := logs ++ logs_from n (outcomes_from dtypes ml_models current_year world_of n rows) |}%list%nat.
Proof.
  induction rows as [|row rest IH]; intros n done del comp logs Hlen.
  - cbn. rewrite !app_nil_r, Nat.add_0_r. reflexivity.
  - cbn [loop_from outcomes_from marks_from logs_from map sum_list sum_list_with].
    unfold loop_step. cbn [ls_rows ls_deleted ls_completed ls_logs].
    set (o := clean_record dtypes ml_models current_year (world_of n) row).
    assert (Hins : <[n := o_row o]> (done ++ row :: rest)%list
                   = ((done ++ [o_row o]) ++ rest)%list).
    { rewrite insert_app_r_alt by lia. rewrite Hlen, Nat.sub_diag. cbn.
      rewrite <- app_assoc. reflexivity. }
    rewrite Hins, IH by (rewrite length_app; cbn; lia).
    rewrite <- !app_assoc, Nat.add_assoc. reflexivity.
Qed.

Lemma clean_loop_closed (rows : list (gmap string Value)) :
  clean_loop dtypes ml_models current_year world_of rows
  = {| ls_rows := map o_row (outcomes_from dtypes ml_models current_year world_of 0 rows);
       ls_deleted := marks_from 0 (outcomes_from dtypes ml_models current_year world_of 0 rows);
       ls_completed := sum_list (map o_completed (outcomes_from dtypes ml_models current_year world_of 0 rows));
       ls_logs := logs_from 0 (outcomes_from dtypes ml_models current_year world_of 0 rows) |}.
Proof. exact (loop_from_closed rows 0 [] [] 0%nat [] eq_refl). Qed.

Lemma outcomes_from_lookup (rows : list (gmap string Value)) :
  forall n i row,
    rows !! i = Some row ->
    outcomes_from dtypes ml_models current_year world_of n rows !! i
    = Some (clean_record dtypes ml_models current_year (world_of (n + i)) row).
Proof.
  induction rows as [|r rest IH]; intros n i row H; [discriminate H|].
  destruct i as [|i].
  - cbn in H. injection H as <-. rewrite Nat.add_0_r. reflexivity.
  - change (rest !! i = Some row) in H.
    change (outcomes_from dtypes ml_models current_year world_of (S n) rest !! i
            = Some (clean_record dtypes ml_models current_year (world_of (n + S i)) row)).
    rewrite (IH (S n) i row H). do 3 f_equal. lia.
Qed.

Lemma outcomes_from_length (rows : list (gmap string Value)) :
  forall n, length (outcomes_from dtypes ml_models current_year world_of n rows) = length rows.
Proof. induction rows as [|r rest IH]; intros n; cbn; [|rewrite IH]; reflexivity. Qed.

(** C6.  Whatever exception the processing of a record raises, in the
    external lookup, in the estimation or in an update of the record (the
    assignment of a supplied value, of an estimate or of ['Free']), the
    record is dropped, with one deletion mark; the loop goes through every
    record of the batch, and what it leaves for each record (its row,
    whether it is marked for deletion) is what processing that record
    alone gives, whatever happened to the others; and [clean_data] returns
    its result for every frame that has the required columns and at least
    one row. *)
Theorem record_errors_do_not_abort (rows : list (gmap string Value)) :
  let st := clean_loop dtypes ml_models current_year world_of rows in
  let outcome idx row := clean_record dtypes ml_models current_year (world_of idx) row in
  (forall idx row e,
      rows !! idx = Some row ->
      raises_in dtypes ml_models current_year (world_of idx) row e ->
      decision (outcome idx row) = Dropped
      /\ o_completed (outcome idx row) = 0%nat
      /\ idx ∈ ls_deleted st)
  /\ (forall idx row,
        rows !! idx = Some row ->
        ls_rows st !! idx = Some (o_row (outcome idx row))
        /\ (idx ∈ ls_deleted st <-> decision (outcome idx row) = Dropped))
  /\ map fst (ls_logs st) = seq 0 (length rows)
  /\ (forall columns,
        forallb (fun col => str_in col columns) required_columns = true ->
        rows <> [] ->
        exists result,
          clean_data ml_models current_year world_of
            {| df_columns := columns; df_rows := rows; df_dtypes := dtypes |}
          = Ok (Some result)
          /\ cr_state result = st).
Proof.
  cbn zeta. rewrite clean_loop_closed.
  cbn [ls_rows ls_deleted ls_logs].
  assert (Hrec : forall idx row,
             rows !! idx = Some row ->
             map o_row (outcomes_from dtypes ml_models current_year world_of 0 rows) !! idx
             = Some (o_row (clean_record dtypes ml_models current_year (world_of idx) row))
             /\ (idx ∈ marks_from 0 (outcomes_from dtypes ml_models current_year world_of 0 rows)
                 <-> decision (clean_record dtypes ml_models current_year (world_of idx) row)
                     = Dropped)).
  { intros idx row Hrow.
    pose proof (outcomes_from_lookup rows 0 idx row Hrow) as Ho. cbn in Ho.
    split.
    - rewrite list_lookup_fmap, Ho. reflexivity.
    - rewrite dropped_iff_marked, marks_from_elem. split.
      + intros (i & o & Heq & Hi & Hd). cbn in Heq. subst i. rewrite Ho in Hi.
        injection Hi as <-. exact Hd.
      + intros Hd. exists idx, (clean_record dtypes ml_models current_year (world_of idx) row).
        split; [reflexivity|]. split; [exact Ho | exact Hd]. }
  split; [|split; [exact Hrec|split]].
  - intros idx row e Hrow Hr.
    destruct (raises_in_marked _ _ _ _ _ _ Hr) as [Hdel Hc].
    assert (Hd : decision (clean_record dtypes ml_models current_year (world_of idx) row)
                 = Dropped).
    { apply dropped_iff_marked. rewrite Hdel. lia. }
    split; [exact Hd|]. split; [exact Hc|]. apply (Hrec idx row Hrow), Hd.
  - rewrite logs_from_indices, outcomes_from_length. reflexivity.
  - intros columns Hcols Hne. unfold clean_data. cbn [df_columns df_rows df_dtypes].
    rewrite Hcols. cbn [negb]. destruct rows as [|r rs]; [contradiction|].
    eexists. split; [reflexivity|]. cbn [cr_state].
    apply clean_loop_closed.
Qed.

End Batch.

Lemma record_errors_do_not_abort_witness :
  (decision (clean_record numeric_price_frame ∅ 2025 (small_batch_world 1) idle_title)
   = Dropped
   /\ 1%nat ∈ ls_deleted (clean_loop numeric_price_frame ∅ 2025 small_batch_world
                            small_batch))
  /\ (decision (clean_record numeric_price_frame ∅ 2025 (small_batch_world 2)
                  unpriced_title) = Dropped
      /\ 2%nat ∈ ls_deleted (clean_loop numeric_price_frame ∅ 2025 small_batch_world
                               small_batch))
  /\ ls_rows (clean_loop numeric_price_frame ∅ 2025 small_batch_world small_batch)
       !! 0%nat
     = Some (o_row (clean_record numeric_price_frame ∅ 2025 (small_batch_world 0)
                      old_title)).
Proof.
  destruct (record_errors_do_not_abort numeric_price_frame ∅ 2025 small_batch_world
              small_batch) as (Hraise & Hrec & _).
  split; [|split].
  - destruct (Hraise 1%nat idle_title TypeError eq_refl) as (Hd & _ & Hin).
    { apply lookup_raises. vm_compute. reflexivity. }
    split; [exact Hd | exact Hin].
  - destruct (Hraise 2%nat unpriced_title TypeError eq_refl) as (Hd & _ & Hin).
    { apply early_price_refused.
      - vm_compute. reflexivity.
      - intros sup H. vm_compute in H. injection H as <-. reflexivity.
      - reflexivity. }
    split; [exact Hd | exact Hin].
  - apply (Hrec 0%nat old_title eq_refl).
Defined.

(** ** C5: the training sets and the threshold of ten rows *)

(** What [pd.to_numeric(...).fillna(0)] leaves of a cell is above zero
    exactly when the cell is. *)
Lemma to_numeric_positive (read_text : Trainer.ReadText) (row : gmap string Value)
    (col : string) (v : Value) :
  row !! col = Some v ->
  fltb fzero (Trainer.to_numeric read_text v) = raw_positive read_text col row.
Proof.
  intros Hv. unfold raw_positive, Trainer.to_numeric. rewrite Hv.
  destruct v as [|z|f|t].
  - reflexivity.
  - destruct (float_of_Z_positive z) as [Hn Hp]. rewrite Hn. exact Hp.
  - destruct f as [s|s| |s m e]; reflexivity.
  - destruct (read_text t) as [s|s| |s m e]; reflexivity.
Qed.

Lemma extract_row_mask (read_text : Trainer.ReadText) (current_year : Z)
    (row : gmap string Value) (r : gmap string float) (target col : string) :
  In (target, col) cluster ->
  Trainer.extract_row read_text current_year row = Ok r ->
  Trainer.valid_mask target r = raw_positive read_text col row.
Proof.
  intros Hin. unfold Trainer.extract_row, Trainer.column, Trainer.valid_mask,
    Trainer.feature.
  destruct (row !! col_release_date); [|discriminate].
  destruct (row !! col_price); [|discriminate].
  destruct (row !! col_playtime_avg); [|discriminate].
  destruct (row !! col_playtime_median); [|discriminate].
  destruct (row !! col_current_players) as [cur|] eqn:Hcur; [|discriminate].
  destruct (row !! col_peak_24h) as [p24|] eqn:H24; [|discriminate].
  destruct (row !! col_peak_alltime) as [pall|] eqn:Hall; [|discriminate].
  cbn [mbind Res_bind]. intros [= <-].
  cbn in Hin. destruct Hin as [[= <- <-] | [[= <- <-] | [[= <- <-] | []]]].
  - exact (to_numeric_positive read_text row col_current_players cur Hcur).
  - exact (to_numeric_positive read_text row col_peak_24h p24 H24).
  - exact (to_numeric_positive read_text row col_peak_alltime pall Hall).
Qed.

(** Extraction goes row by row, so that it commutes with the selection of
    the valid rows. *)
Lemma extract_features_filter (read_text : Trainer.ReadText) (current_year : Z)
    (target col : string)
    (df : list (gmap string Value)) (feats : list (gmap string float)) :
  In (target, col) cluster ->
  Trainer.extract_features read_text current_year df = Ok feats ->
  Trainer.extract_features read_text current_year
    (List.filter (raw_positive read_text col) df)
  = Ok (List.filter (Trainer.valid_mask target) feats).
Proof.
  intros Hin. unfold Trainer.extract_features. revert feats.
  induction df as [|row df IH]; intros feats; cbn [mapM List.filter].
  - intros [= <-]. reflexivity.
  - destruct (Trainer.extract_row read_text current_year row) as [r|] eqn:Hr;
      [|discriminate].
    cbn [mbind Res_bind].
    destruct (mapM (Trainer.extract_row read_text current_year) df) as [rs|];
      [|discriminate].
    cbn [mbind Res_bind mret Res_ret]. intros [= <-]. cbn [List.filter].
    rewrite (extract_row_mask _ _ _ _ _ _ Hin Hr). specialize (IH rs eq_refl).
    destruct (raw_positive read_text col row); [|exact IH].
    cbn [mapM]. rewrite Hr. cbn [mbind Res_bind]. rewrite IH. reflexivity.
Qed.

Lemma extract_features_length (read_text : Trainer.ReadText) (current_year : Z)
    (df : list (gmap string Value)) (feats : list (gmap string float)) :
  Trainer.extract_features read_text current_year df = Ok feats ->
  length feats = length df.
Proof.
  unfold Trainer.extract_features. revert feats.
  induction df as [|row df IH]; intros feats; cbn [mapM].
  - intros [= <-]. reflexivity.
  - destruct (Trainer.extract_row read_text current_year row); [|discriminate].
    cbn [mbind Res_bind].
    destruct (mapM (Trainer.extract_row read_text current_year) df) as [rs|];
      [|discriminate].
    cbn [mbind Res_bind mret Res_ret]. intros [= <-]. cbn [length].
    rewrite (IH rs eq_refl). reflexivity.
Qed.

(** One round of the loop over the targets: below ten valid rows the bank
    is left as it is; from ten on, the model fitted on the valid rows is
    entered under the target. *)
Lemma train_target_entries (train_model : Trainer.Fit)
    (feats : list (gmap string float)) (models models' : gmap string ModelInfo)
    (target : string) :
  Trainer.train_target train_model feats models target = Ok models' ->
  exists cols,
    Trainer.feature_cols_for target = Ok cols
    /\ let valid := List.filter (Trainer.valid_mask target) feats in
       ((length valid < 10)%nat -> models' !! target = models !! target)
       /\ ((10 <= length valid)%nat ->
           exists fitted,
             train_model target (training_X cols valid) (training_y target valid)
             = Ok fitted
             /\ models' !! target = Some {| model := fitted; feature_cols := cols |})
       /\ (forall t, t <> target -> models' !! t = models !! t).
Proof.
  unfold Trainer.train_target, Trainer.prepare_training_data, training_X, training_y.
  destruct (Trainer.feature_cols_for target) as [cols|]; [|discriminate].
  cbn [mbind Res_bind]. rewrite length_map. intros H.
  exists cols. split; [reflexivity|]. cbn zeta.
  destruct (Nat.ltb_spec (length (List.filter (Trainer.valid_mask target) feats)) 10)
    as [Hlt|Hge].
  - injection H as <-. split; [reflexivity|]. split; [lia|reflexivity].
  - destruct (train_model target _ _) as [fitted|] eqn:Hfit; [|discriminate H].
    cbn [mbind Res_bind] in H. injection H as <-. split; [lia|]. split.
    + intros _. exists fitted. split; [reflexivity|]. apply lookup_insert_eq.
    + intros t Ht. apply lookup_insert_ne. congruence.
Qed.



(* ===================================================================== *)
(** * Further properties of the code                                      *)
(* ===================================================================== *)

(** ** The classifier on release dates and prices *)

Lemma lower_empty (t : string) : String.eqb (lower t) "" = String.eqb t "".
Proof. destruct t; reflexivity. Qed.

Lemma lower_of_NA (t : string) :
  String.eqb t "N/A" = true -> String.eqb (lower t) "n/a" = true.
Proof. intros H. apply String.eqb_eq in H. subst t. reflexivity. Qed.

(** X1.  For a release date and for a price, the classifier returns true on a
    null value and on a text that is one of the sentinels, and false on
    everything else: on any number, zero included, and on any other text,
    [Free] among them.  The sentinels [N/A] and the empty text listed as
    valid for a price at line 162 are caught before, at line 158. *)
Theorem is_field_missing_text_kinds (value : Value) (field_type : string) :
  In field_type ["release_date"; "price"] ->
  is_field_missing value field_type
  = match value with
    | VNone => true
    | VInt _ => false
    | VFloat f => is_nan f
    | VStr s => text_sentinel field_type s
    end.
Proof.
  intros Hin. unfold is_field_missing, text_sentinel.
  destruct value as [|z|f|s]; cbn [pd_isna].
  - reflexivity.
  - destruct Hin as [<- | [<- | []]]; reflexivity.
  - destruct (is_nan f); [reflexivity|].
    destruct Hin as [<- | [<- | []]]; reflexivity.
  - cbn zeta. set (t := strip s). unfold str_in. cbn [existsb].
    rewrite lower_empty.
    destruct (String.eqb t "") eqn:E0; [reflexivity|].
    destruct (String.eqb (lower t) "n/a") eqn:E1; [reflexivity|].
    destruct (String.eqb (lower t) "nan") eqn:E2; [reflexivity|].
    cbn [orb].
    assert (ENA : String.eqb t "N/A" = false).
    { destruct (String.eqb t "N/A") eqn:E; [|reflexivity].
      rewrite (lower_of_NA t E) in E1. discriminate E1. }
    rewrite ENA. cbn [orb].
    destruct Hin as [<- | [<- | []]].
    + change (String.eqb "release_date" "release_date") with true.
      change (String.eqb "release_date" "price") with false.
      cbn [andb].
      destruct (String.eqb t "Coming Soon"); [reflexivity|].
      destruct (String.eqb t "TBA"); reflexivity.
    + change (String.eqb "price" "release_date") with false.
      change (String.eqb "price" "price") with true.
      cbn [andb orb].
      destruct (String.eqb t "Free"); reflexivity.
Qed.

Lemma is_field_missing_text_kinds_witness :
  is_field_missing (VStr " n/A ") "price" = text_sentinel "price" " n/A "
  /\ is_field_missing (VInt 0) "price" = false
  /\ is_field_missing (VStr "coming soon") "release_date"
     = text_sentinel "release_date" "coming soon".
Proof.
  split; [|split].
  - apply (is_field_missing_text_kinds (VStr " n/A ") "price"). cbn. tauto.
  - apply (is_field_missing_text_kinds (VInt 0) "price"). cbn. tauto.
  - apply (is_field_missing_text_kinds (VStr "coming soon") "release_date"). cbn. tauto.
Defined.

(** ** The store request and its retries *)

Lemma total_app (a b : list Z) : total (a ++ b) = total a + total b.
Proof. unfold total. induction a as [|x a IH]; cbn; [reflexivity | rewrite IH; lia]. Qed.

Lemma retry_from_bounds {D} (reply : nat -> StoreReply D) (max_retries : Z) :
  forall (k a sent : nat) (waits : list Z),
    let r := retry_from reply max_retries (seq a k) sent waits in
    (requests r <= sent + k)%nat
    /\ total waits <= total (slept r)
    /\ total (slept r)
       <= total waits + 15 * (Z.of_nat (a + k) * (Z.of_nat (a + k) + 1)
                              - Z.of_nat a * (Z.of_nat a + 1)).
Proof.
  induction k as [|k IH]; intros a sent waits; cbn zeta.
  - cbn [seq retry_from requests slept]. rewrite !Nat.add_0_r. lia.
  - cbn [seq retry_from].
    pose proof (IH (S a) (S sent) (waits ++ [5])%list) as H5.
    pose proof (IH (S a) (S sent) (waits ++ [(Z.of_nat a + 1) * 30])%list) as H30.
    cbn zeta in H5, H30. rewrite !total_app in H5, H30.
    change (total [5]) with 5 in H5.
    change (total [(Z.of_nat a + 1) * 30]) with ((Z.of_nat a + 1) * 30 + 0) in H30.
    replace (S a + k)%nat with (a + S k)%nat in H5, H30 by lia.
    assert (Hstop : forall o : option D,
               let r := {| fetched := o; requests := S sent; slept := waits |} in
               (requests r <= sent + S k)%nat
               /\ total waits <= total (slept r)
               /\ total (slept r)
                  <= total waits + 15 * (Z.of_nat (a + S k) * (Z.of_nat (a + S k) + 1)
                                         - Z.of_nat a * (Z.of_nat a + 1))).
    { intros o. cbn [requests slept]. split; [lia|]. split; [lia|]. nia. }
    assert (Hexc :
              let r := if Z.of_nat a <? max_retries - 1
                       then retry_from reply max_retries (seq (S a) k) (S sent)
                              (waits ++ [5])%list
                       else {| fetched := None; requests := S sent; slept := waits |} in
              (requests r <= sent + S k)%nat
              /\ total waits <= total (slept r)
              /\ total (slept r)
                 <= total waits + 15 * (Z.of_nat (a + S k) * (Z.of_nat (a + S k) + 1)
                                        - Z.of_nat a * (Z.of_nat a + 1))).
    { cbn zeta. destruct (Z.of_nat a <? max_retries - 1); [|apply Hstop].
      destruct H5 as (Ha & Hb & Hc). split; [lia|]. split; [lia|]. nia. }
    destruct (reply a) as [| |[[[] [d|]]|]].
    + destruct H30 as (Ha & Hb & Hc). split; [lia|]. split; [lia|]. nia.
    + exact Hexc.
    + apply Hstop.
    + exact Hexc.
    + apply Hstop.
    + apply Hstop.
    + apply Hstop.
Qed.

(** X2.  Whatever the store replies, [get_game_details] sends at most
    [max_retries] requests and sleeps at most [15 n (n + 1)] seconds in
    all, [n] being [max_retries]: 180 seconds with the default of 3. *)
Theorem get_game_details_bounds {D} (reply : nat -> StoreReply D) (max_retries : Z) :
  let r := get_game_details reply max_retries in
  let n := Z.max 0 max_retries in
  Z.of_nat (requests r) <= n
  /\ 0 <= total (slept r) <= 15 * n * (n + 1).
Proof.
  cbn zeta. unfold get_game_details.
  destruct (retry_from_bounds reply max_retries (Z.to_nat max_retries) 0 0 [])
    as (Ha & Hb & Hc).
  cbn [total fold_right] in Hb, Hc. cbn [Nat.add] in Ha, Hc.
  assert (Hn : Z.of_nat (Z.to_nat max_retries) = Z.max 0 max_retries) by lia.
  rewrite Hn in Hc. change (Z.of_nat 0) with 0 in Hc.
  split; [lia|]. split; [lia|]. lia.
Qed.

Lemma retry_from_decided {D} (reply : nat -> StoreReply D) (max_retries : Z) :
  forall (k a sent : nat) (waits : list Z) (rest : list nat),
    Z.of_nat (a + k) < max_retries ->
    (forall i, (a <= i < a + k)%nat -> retried (reply i) = true) ->
    retried (reply (a + k)%nat) = false ->
    retry_from reply max_retries (seq a k ++ (a + k)%nat :: rest) sent waits
    = {| fetched := answer_of (reply (a + k)%nat);
         requests := S (sent + k);
         slept := waits ++ map (wait_after reply) (seq a k) |}.
Proof.
  induction k as [|k IH]; intros a sent waits rest Hlt Hre Hk.
  - replace (a + 0)%nat with a in * by lia. replace (sent + 0)%nat with sent by lia.
    cbn [seq app retry_from map]. rewrite app_nil_r.
    destruct (reply a) as [| |[[[] [d|]]|]]; try discriminate Hk; reflexivity.
  - cbn [seq app retry_from map].
    assert (Ha : retried (reply a) = true) by (apply Hre; lia).
    assert (Hlt' : (Z.of_nat a <? max_retries - 1) = true) by (apply Z.ltb_lt; lia).
    rewrite Hlt'.
    replace (a + S k)%nat with (S a + k)%nat in * by lia.
    assert (Hnext : forall w,
               retry_from reply max_retries (seq (S a) k ++ (S a + k)%nat :: rest)
                 (S sent) (waits ++ [w])
               = {| fetched := answer_of (reply (S a + k)%nat);
                    requests := S (sent + S k);
                    slept := waits ++ w :: map (wait_after reply) (seq (S a) k) |}).
    { intros w. rewrite IH; [|lia|intros i Hi; apply Hre; lia|exact Hk].
      rewrite <- app_assoc. cbn [app]. do 2 f_equal. lia. }
    unfold wait_after at 1.
    destruct (reply a) as [| |[[[] [d|]]|]]; try discriminate Ha; apply Hnext.
Qed.

(** X3.  The first reply that is neither a 429 nor an exception decides: when
    the replies before attempt [k] are all retried and that of attempt
    [k], one of the [max_retries] attempts, is not, the call returns what
    this reply gives, the [data] of a successful entry or [None], after
    [k + 1] requests and one sleep for each reply before. *)
Theorem get_game_details_first_answer {D} (reply : nat -> StoreReply D)
    (max_retries : Z) (k : nat) :
  Z.of_nat k < max_retries ->
  (forall i, (i < k)%nat -> retried (reply i) = true) ->
  retried (reply k) = false ->
  get_game_details reply max_retries
  = {| fetched := answer_of (reply k);
       requests := S k;
       slept := map (wait_after reply) (seq 0 k) |}.
Proof.
  intros Hlt Hre Hk. unfold get_game_details.
  assert (Hseq : seq 0 (Z.to_nat max_retries)
                 = (seq 0 k ++ (0 + k)%nat :: seq (S k) (Z.to_nat max_retries - S k))%list).
  { replace (Z.to_nat max_retries) with (k + S (Z.to_nat max_retries - S k))%nat at 1 by lia.
    rewrite seq_app. cbn [seq Nat.add]. reflexivity. }
  rewrite Hseq. rewrite (retry_from_decided reply max_retries k 0 0 [] _).
  - reflexivity.
  - cbn. lia.
  - intros i Hi. apply Hre. lia.
  - exact Hk.
Qed.

Lemma get_game_details_first_answer_witness :
  get_game_details
    (fun attempt => match attempt with
                    | O => TooManyRequests
                    | 1%nat => RequestFailed
                    | _ => Decoded (Some (true, Some 7))
                    end) 3
  = {| fetched := Some 7; requests := 3; slept := [30; 5] |}.
Proof.
  apply (get_game_details_first_answer
           (fun attempt => match attempt with
                           | O => TooManyRequests
                           | 1%nat => RequestFailed
                           | _ => Decoded (Some (true, Some 7))
                           end) 3 2).
  - lia.
  - intros [|[|i]] Hi; [reflexivity | reflexivity | lia].
  - reflexivity.
Defined.

Lemma retry_from_exhausted {D} (reply : nat -> StoreReply D) (max_retries : Z) :
  forall (k a sent : nat) (waits : list Z),
    Z.of_nat (a + k) = max_retries ->
    (forall i, (a <= i < a + k)%nat -> retried (reply i) = true) ->
    let r := retry_from reply max_retries (seq a k) sent waits in
    fetched r = None
    /\ requests r = (sent + k)%nat
    /\ slept r
       = (waits ++ map (wait_after reply) (seq a (k - 1))
          ++ match k with
             | O => []
             | S _ => match reply (a + k - 1)%nat with
                      | TooManyRequests => [max_retries * 30]
                      | _ => []
                      end
             end)%list.
Proof.
  induction k as [|k IH]; intros a sent waits Hn Hre; cbn zeta.
  - cbn. rewrite app_nil_r, Nat.add_0_r. repeat split.
  - cbn [seq retry_from].
    assert (Ha : retried (reply a) = true) by (apply Hre; lia).
    destruct k as [|k].
    + (* the last attempt *)
      assert (Hlast : (Z.of_nat a <? max_retries - 1) = false) by (apply Z.ltb_ge; lia).
      rewrite Hlast. cbn [retry_from seq map app Nat.sub].
      replace (a + 1 - 1)%nat with a by lia.
      destruct (reply a) as [| |[[[] [d|]]|]]; try discriminate Ha; cbn;
        rewrite ?app_nil_r; repeat split; try lia.
      f_equal. f_equal. lia.
    + assert (Hlt : (Z.of_nat a <? max_retries - 1) = true) by (apply Z.ltb_lt; lia).
      rewrite Hlt.
      assert (Hnext : forall w,
                 let r := retry_from reply max_retries (seq (S a) (S k)) (S sent)
                            (waits ++ [w]) in
                 fetched r = None
                 /\ requests r = (sent + S (S k))%nat
                 /\ slept r
                    = (waits ++ (w :: map (wait_after reply) (seq (S a) k))
                       ++ match reply (a + S (S k) - 1)%nat with
                          | TooManyRequests => [max_retries * 30]
                          | _ => []
                          end)%list).
      { intros w. cbn zeta.
        destruct (IH (S a) (S sent) (waits ++ [w])%list) as (H1 & H2 & H3);
          [lia | intros i Hi; apply Hre; lia |].
        split; [exact H1|]. split; [lia|].
        rewrite H3. rewrite <- !app_assoc. cbn [app Nat.sub].
        rewrite Nat.sub_0_r.
        replace (S a + S k - 1)%nat with (a + S (S k) - 1)%nat by lia. reflexivity. }
      change (S (S k) - 1)%nat with (S k). cbn [seq map].
      unfold wait_after at 1.
      destruct (reply a) as [| |[[[] [d|]]|]]; try discriminate Ha; apply Hnext.
Qed.

Lemma total_rate_limit_waits (k a : nat) :
  total (map (fun i => (Z.of_nat i + 1) * 30) (seq a k))
  = 15 * (Z.of_nat (a + k) * (Z.of_nat (a + k) + 1) - Z.of_nat a * (Z.of_nat a + 1)).
Proof.
  revert a. induction k as [|k IH]; intros a.
  - cbn. rewrite Nat.add_0_r. lia.
  - cbn [seq map]. change (total (?x :: ?l)) with (x + total l).
    rewrite IH. replace (S a + k)%nat with (a + S k)%nat by lia. nia.
Qed.

(** X4.  When every reply is retried the call gives up: it returns [None]
    after [max_retries] requests, having slept after each reply but the
    last, and after the last one too when that is a 429.  With nothing but
    429 it sleeps 30, 60, ... seconds, [15 n (n + 1)] in all. *)
Theorem get_game_details_gives_up {D} (reply : nat -> StoreReply D) (n : nat) :
  (forall i, (i < n)%nat -> retried (reply i) = true) ->
  let r := get_game_details reply (Z.of_nat n) in
  fetched r = None
  /\ requests r = n
  /\ slept r
     = (map (wait_after reply) (seq 0 (n - 1))
        ++ match n with
           | O => []
           | S _ => match reply (n - 1)%nat with
                    | TooManyRequests => [Z.of_nat n * 30]
                    | _ => []
                    end
           end)%list
  /\ ((forall i, (i < n)%nat -> reply i = TooManyRequests) ->
      total (slept r) = 15 * Z.of_nat n * (Z.of_nat n + 1)).
Proof.
  intros Hre. cbn zeta. unfold get_game_details. rewrite Nat2Z.id.
  destruct (retry_from_exhausted reply (Z.of_nat n) n 0 0 []) as (H1 & H2 & H3).
  { reflexivity. }
  { intros i Hi. apply Hre. lia. }
  cbn [Nat.add app] in H2, H3.
  split; [exact H1|]. split; [exact H2|]. split; [exact H3|].
  intros Hall. rewrite H3, total_app.
  assert (Hw : map (wait_after reply) (seq 0 (n - 1))
               = map (fun i => (Z.of_nat i + 1) * 30) (seq 0 (n - 1))).
  { apply map_ext_in. intros i Hi. apply in_seq in Hi. unfold wait_after.
    rewrite Hall by lia. reflexivity. }
  rewrite Hw, total_rate_limit_waits.
  destruct n as [|n]; [reflexivity|].
  rewrite (Hall (S n - 1)%nat) by lia.
  change (total [Z.of_nat (S n) * 30]) with (Z.of_nat (S n) * 30 + 0).
  replace (0 + (S n - 1))%nat with n by lia. lia.
Qed.

Lemma get_game_details_gives_up_witness :
  fetched (get_game_details (fun _ => @TooManyRequests unit) 3) = None
  /\ requests (get_game_details (fun _ => @TooManyRequests unit) 3) = 3%nat
  /\ slept (get_game_details (fun _ => @TooManyRequests unit) 3) = [30; 60; 90]
  /\ total (slept (get_game_details (fun _ => @TooManyRequests unit) 3)) = 180.
Proof.
  destruct (get_game_details_gives_up (fun _ => @TooManyRequests unit) 3)
    as (H1 & H2 & H3 & H4).
  - intros i _. reflexivity.
  - split; [exact H1|]. split; [exact H2|]. split; [exact H3|].
    apply H4. intros i _. reflexivity.
Defined.

(** ** The charts page *)

Lemma highest_peak_from (peaks : list Z) :
  forall a,
    exists m,
      fold_left (fun peak_alltime peak_value =>
                   match peak_alltime with
                   | None => Some peak_value
                   | Some p => if p <? peak_value then Some peak_value else Some p
                   end) peaks (Some a) = Some m
      /\ (m = a \/ In m peaks) /\ a <= m /\ Forall (fun p => p <= m) peaks.
Proof.
  induction peaks as [|x peaks IH]; intros a; cbn [fold_left].
  - exists a. split; [reflexivity|]. split; [left; reflexivity|]. split; [lia|constructor].
  - destruct (Z.ltb_spec a x) as [Hlt|Hge].
    + destruct (IH x) as (m & Hm & Hin & Hle & Hall). exists m.
      split; [exact Hm|]. split; [right; destruct Hin as [->|Hin]; [left; reflexivity | right; exact Hin]|].
      split; [lia|]. constructor; [lia | exact Hall].
    + destruct (IH a) as (m & Hm & Hin & Hle & Hall). exists m.
      split; [exact Hm|]. split; [destruct Hin as [->|Hin]; [left; reflexivity | right; right; exact Hin]|].
      split; [lia|]. constructor; [lia | exact Hall].
Qed.

Lemma highest_peak_largest (peaks : list Z) :
  match highest_peak peaks with
  | Some m => largest m peaks
  | None => peaks = []
  end.
Proof.
  unfold highest_peak. destruct peaks as [|x peaks]; [reflexivity|].
  cbn [fold_left].
  destruct (highest_peak_from peaks x) as (m & Hm & Hin & Hle & Hall).
  rewrite Hm. split.
  - destruct Hin as [->|Hin]; [left; reflexivity | right; exact Hin].
  - constructor; [exact Hle | exact Hall].
Qed.

Lemma positive_ccu_Some (answer : option SteamSpyData) (v : Value) :
  positive_ccu answer = Ok (Some v) ->
  exists steamspy_data,
    answer = Some steamspy_data
    /\ v = or_zero (ccu steamspy_data)
    /\ truthy_and_gt0 v = Ok true.
Proof.
  unfold positive_ccu. destruct answer as [sd|]; [|discriminate].
  destruct (truthy_and_gt0 (or_zero (ccu sd))) as [[]|] eqn:E; cbn [mbind Res_bind];
    intros H; try discriminate H.
  injection H as <-. exists sd. split; [reflexivity|]. split; [reflexivity | exact E].
Qed.

(** X5.  What [get_steamcharts_data] returns.  An all-time peak comes from a
    page that was fetched: it is the largest of the peaks read off the
    table and it is not zero.  A 24-hour peak is the live count of the
    aggregate statistics, asked again, and a count that is strictly
    positive; without an all-time peak it is returned for a page that was
    not found only.  A request that fails gives nothing. *)
Theorem steamcharts_data_peaks (w : World) :
  let peak_24h := (get_steamcharts_data w).1 in
  let peak_alltime := (get_steamcharts_data w).2 in
  (forall v, peak_alltime = Some v ->
             exists peaks m,
               w_charts w = ChartsPage peaks /\ v = VInt m /\ m <> 0 /\ largest m peaks)
  /\ (forall v, peak_24h = Some v ->
                exists steamspy_data,
                  w_steamspy_again w = Some steamspy_data
                  /\ v = or_zero (ccu steamspy_data)
                  /\ truthy_and_gt0 v = Ok true)
  /\ (peak_24h <> None -> peak_alltime = None -> w_charts w = Charts404)
  /\ (w_charts w = ChartsFailed -> peak_24h = None /\ peak_alltime = None).
Proof.
  cbn zeta. unfold get_steamcharts_data.
  destruct (w_charts w) as [|peaks|] eqn:Hc.
  - (* not found *)
    destruct (positive_ccu (w_steamspy_again w)) as [[c|]|] eqn:Hp; cbn [fst snd].
    + split; [intros v Hv; discriminate Hv|].
      split; [intros v [= <-]; apply (positive_ccu_Some _ _ Hp)|].
      split; [reflexivity | intros H; discriminate H].
    + split; [intros v Hv; discriminate Hv|]. split; [intros v Hv; discriminate Hv|].
      split; [reflexivity | intros H; discriminate H].
    + split; [intros v Hv; discriminate Hv|]. split; [intros v Hv; discriminate Hv|].
      split; [reflexivity | intros H; discriminate H].
  - pose proof (highest_peak_largest peaks) as Hl.
    destruct (highest_peak peaks) as [m|].
    + destruct (Z.eqb_spec m 0) as [->|Hne]; cbn [fst snd].
      * split; [intros v Hv; discriminate Hv|]. split; [intros v Hv; discriminate Hv|].
        split; [intros H; contradiction | intros H; discriminate H].
      * destruct (positive_ccu (w_steamspy_again w)) as [p24|] eqn:Hp; cbn [fst snd].
        -- split; [intros v [= <-]; exists peaks, m; repeat split; first [assumption | apply Hl]|].
           split; [intros v ->; apply (positive_ccu_Some _ _ Hp)|].
           split; [intros _ H; discriminate H | intros H; discriminate H].
        -- split; [intros v Hv; discriminate Hv|]. split; [intros v Hv; discriminate Hv|].
           split; [intros H; contradiction | intros H; discriminate H].
    + cbn [fst snd].
      split; [intros v Hv; discriminate Hv|]. split; [intros v Hv; discriminate Hv|].
      split; [intros H; contradiction | intros H; discriminate H].
  - cbn [fst snd].
    split; [intros v Hv; discriminate Hv|]. split; [intros v Hv; discriminate Hv|].
    split; [intros H; contradiction | intros _; split; reflexivity].
Qed.

(** *** Reading a peak off a cell *)

Lemma digit_not_cspace (c : ascii) : is_digit c = true -> is_cspace c = false.
Proof.
  destruct c as [[] [] [] [] [] [] [] []]; vm_compute; intros H;
    first [ discriminate H | reflexivity ].
Qed.

Lemma digit_not_underscore (c : ascii) : is_digit c = true -> Ascii.eqb c "_" = false.
Proof.
  destruct c as [[] [] [] [] [] [] [] []]; vm_compute; intros H;
    first [ discriminate H | reflexivity ].
Qed.

Lemma digit_not_sign (c : ascii) :
  is_digit c = true -> Ascii.eqb c "-" = false /\ Ascii.eqb c "+" = false.
Proof.
  destruct c as [[] [] [] [] [] [] [] []]; vm_compute; intros H;
    first [ discriminate H | split; reflexivity ].
Qed.

Lemma drop_underscores_digits (ds : list ascii) :
  forallb is_digit ds = true ->
  forall prev, Ascii.eqb prev "_" = false -> drop_underscores prev ds = Some ds.
Proof.
  induction ds as [|c ds IH]; intros Hd prev Hp; cbn [drop_underscores].
  - rewrite Hp. reflexivity.
  - cbn [forallb] in Hd. apply andb_prop in Hd as [Hc Hd].
    rewrite (digit_not_underscore c Hc), Hp. cbn [andb].
    rewrite (IH Hd c (digit_not_underscore c Hc)). reflexivity.
Qed.

(** [int] of a text made of decimal digits is the number they write. *)
Lemma int_of_digits (ds : list ascii) :
  ds <> [] -> forallb is_digit ds = true ->
  int_of_string (string_of_list_ascii ds) = Ok (Z_of_digits ds).
Proof.
  intros Hne Hd. unfold int_of_string.
  assert (Hns : Forall (fun c => is_cspace c = false)
                  (list_ascii_of_string (string_of_list_ascii ds))).
  { rewrite list_ascii_of_string_of_list_ascii. apply Forall_forall. intros c Hc.
    apply digit_not_cspace. rewrite forallb_forall in Hd. apply Hd, list_elem_of_In, Hc. }
  rewrite (lstrip_by_id _ _ Hns), (rstrip_by_id _ _ Hns).
  rewrite list_ascii_of_string_of_list_ascii.
  destruct ds as [|c ds]; [contradiction|].
  pose proof Hd as Hd'. cbn [forallb] in Hd'. apply andb_prop in Hd' as [Hc _].
  destruct (digit_not_sign c Hc) as [Hm Hp].
  cbn [take_sign]. rewrite Hm, Hp.
  rewrite (drop_underscores_digits (c :: ds) Hd "000"%char eq_refl).
  rewrite Hd. reflexivity.
Qed.

Lemma remove_commas_digits (s : string) :
  forallb digit_or_comma (list_ascii_of_string s) = true ->
  list_ascii_of_string (remove_commas s) = List.filter is_digit (list_ascii_of_string s)
  /\ forallb is_digit (list_ascii_of_string (remove_commas s)) = true.
Proof.
  induction s as [|c s IH]; cbn [list_ascii_of_string forallb remove_commas List.filter];
    [split; reflexivity|].
  intros H. apply andb_prop in H as [Hc Hs]. destruct (IH Hs) as [IH1 IH2].
  unfold digit_or_comma in Hc.
  destruct (Ascii.eqb c ",") eqn:Hcomma.
  - apply Ascii.eqb_eq in Hcomma. subst c. cbn. split; assumption.
  - rewrite orb_false_r in Hc. rewrite Hc.
    cbn [list_ascii_of_string forallb]. rewrite Hc, IH2, IH1. split; reflexivity.
Qed.

(** X6.  A row of at least four cells whose last cell has [num] among its
    classes, and in it a text of digits and commas, with white space
    around: the peak of the row is the number the digits write, the commas
    left out. *)
Theorem row_peak_thousands (cells : list Td) (peak_cell : Td) (classes : list string) :
  (4 <= length cells)%nat ->
  last cells = Some peak_cell ->
  td_class peak_cell = Some classes ->
  In "num" classes ->
  let peak_text := list_ascii_of_string (strip (td_text peak_cell)) in
  forallb digit_or_comma peak_text = true ->
  existsb is_digit peak_text = true ->
  row_peak cells = Some (Z_of_digits (List.filter is_digit peak_text)).
Proof.
  intros Hlen Hlast Hclass Hnum. cbn zeta. intros Hall Hex.
  unfold row_peak. rewrite (proj2 (Nat.leb_le _ _) Hlen), Hlast, Hclass.
  destruct classes as [|c cs]; [destruct Hnum|].
  rewrite (proj2 (str_in_In _ _) Hnum).
  destruct (remove_commas_digits _ Hall) as [Hds Hdig].
  rewrite <- (string_of_list_ascii_of_string (remove_commas (strip (td_text peak_cell)))).
  rewrite int_of_digits.
  - rewrite Hds. reflexivity.
  - rewrite Hds. intros He. apply existsb_exists in Hex as (x & Hx & Hxd).
    assert (Hin : In x (List.filter is_digit
                          (list_ascii_of_string (strip (td_text peak_cell))))).
    { apply List.filter_In. split; assumption. }
    rewrite He in Hin. destruct Hin.
  - exact Hdig.
Qed.

Lemma row_peak_thousands_witness :
  row_peak [ {| td_class := None; td_text := "May 2024" |};
             {| td_class := Some ["right"; "num-f"]; td_text := "812,345.67" |};
             {| td_class := Some ["right"; "gainorloss"]; td_text := "+1,020.4" |};
             {| td_class := Some ["right"; "num"]; td_text := " 1,234,567 " |} ]
  = Some 1234567.
Proof.
  apply (row_peak_thousands _ {| td_class := Some ["right"; "num"];
                                 td_text := " 1,234,567 " |} ["right"; "num"]).
  - cbn. lia.
  - reflexivity.
  - reflexivity.
  - cbn. tauto.
  - vm_compute. reflexivity.
  - vm_compute. reflexivity.
Defined.

(** X7.  On a page that was fetched, the all-time peak is the peak of one of
    the rows of the first table, no row has a larger one, and it is not
    zero; a row that is passed over, for want of cells, of the class or of
    a number in its last cell, plays no part.  A page without a table
    gives nothing. *)
Theorem charts_table_peak (w : World) (table : option (list (list Td))) :
  w_charts w = charts_page table ->
  (forall v, (get_steamcharts_data w).2 = Some v ->
             exists cells m,
               In cells (default [] table) /\ row_peak cells = Some m
               /\ v = VInt m /\ m <> 0
               /\ forall cells' m', In cells' (default [] table) ->
                                    row_peak cells' = Some m' -> m' <= m)
  /\ ((forall cells, In cells (default [] table) -> row_peak cells = None) ->
      get_steamcharts_data w = (None, None)).
Proof.
  unfold charts_page, table_peaks. intros Hw. unfold get_steamcharts_data. rewrite Hw.
  pose proof (highest_peak_largest (omap row_peak (default [] table))) as Hl.
  split.
  - intros v.
    destruct (highest_peak (omap row_peak (default [] table))) as [m|];
      [|discriminate].
    destruct (Z.eqb_spec m 0) as [->|Hne]; [discriminate|].
    destruct (positive_ccu (w_steamspy_again w)) as [p24|]; [|discriminate].
    cbn [snd]. intros [= <-]. destruct Hl as [Hin Hall].
    apply list_elem_of_In, list_elem_of_omap in Hin as (cells & Hc & Hm).
    exists cells, m. split; [apply list_elem_of_In, Hc|]. split; [exact Hm|].
    split; [reflexivity|]. split; [exact Hne|].
    intros cells' m' Hc' Hm'. rewrite List.Forall_forall in Hall. apply Hall.
    apply list_elem_of_In, list_elem_of_omap. exists cells'.
    split; [apply list_elem_of_In, Hc' | exact Hm'].
  - intros Hnone.
    destruct (highest_peak (omap row_peak (default [] table))) as [m|];
      [|reflexivity].
    exfalso. destruct Hl as [Hin _].
    apply list_elem_of_In, list_elem_of_omap in Hin as (cells & Hc & Hm).
    rewrite (Hnone cells) in Hm by (apply list_elem_of_In, Hc). discriminate Hm.
Qed.

Lemma charts_table_peak_witness :
  exists cells m,
    In cells charts_rows /\ row_peak cells = Some m
    /\ VInt 1234 = VInt m /\ m <> 0
    /\ forall cells' m', In cells' charts_rows -> row_peak cells' = Some m' -> m' <= m.
Proof.
  apply (charts_table_peak charts_world (Some charts_rows) eq_refl).
  vm_compute. reflexivity.
Defined.

(** ** External completion and its providers *)

(** X8.  [fetch_missing_data] reads the answer of a provider only when one of
    the fields that provider is asked for is missing: two states of the
    outside world that differ in the answers of the other providers only
    give the same supply, or the same exception. *)
Theorem fetch_reads_needed_providers (w w' : World) (missing : list string) :
  (needs_store missing = true -> w_details w = w_details w') ->
  (needs_steamspy missing = true -> w_steamspy w = w_steamspy w') ->
  (needs_steamcharts missing = true ->
   w_charts w = w_charts w' /\ w_steamspy_again w = w_steamspy_again w') ->
  fetch_missing_data w missing = fetch_missing_data w' missing.
Proof.
  unfold needs_store, needs_steamspy, needs_steamcharts. intros Hs Hp Hc.
  unfold fetch_missing_data.
  assert (H1 : fetch_store w missing ∅ = fetch_store w' missing ∅).
  { unfold fetch_store.
    destruct (existsb (fun field => str_in field ["release_date"; "price"]) missing);
      [|reflexivity].
    rewrite (Hs eq_refl). reflexivity. }
  rewrite H1.
  assert (H2 : forall d, fetch_steamspy w missing d = fetch_steamspy w' missing d).
  { intros d. unfold fetch_steamspy.
    destruct (existsb (fun field => str_in field
                         ["playtime_avg"; "playtime_median"; "current_players";
                          "peak_24h"]) missing); [|reflexivity].
    rewrite (Hp eq_refl). reflexivity. }
  rewrite H2.
  destruct (fetch_steamspy w' missing (fetch_store w' missing ∅)) as [d|e];
    [|reflexivity].
  cbn [mbind Res_bind]. f_equal.
  unfold fetch_steamcharts.
  destruct (str_in "peak_alltime" missing || str_in "peak_24h" missing); [|reflexivity].
  destruct (Hc eq_refl) as [Hc1 Hc2].
  unfold get_steamcharts_data. rewrite Hc1, Hc2. reflexivity.
Qed.

Lemma fetch_reads_needed_providers_witness :
  fetch_missing_data answering_world ["release_date"; "price"]
  = fetch_missing_data silent_world ["release_date"; "price"].
Proof.
  apply fetch_reads_needed_providers.
  - intros _. reflexivity.
  - intros H. vm_compute in H. discriminate H.
  - intros H. vm_compute in H. discriminate H.
Defined.

Lemma truthy_and_gt0_numeric (o : option Value) :
  numeric_entry o = true -> exists b, truthy_and_gt0 (or_zero o) = Ok b.
Proof.
  unfold truthy_and_gt0, or_zero.
  destruct o as [[|z|f|s]|]; cbn; intros H; try discriminate H.
  - destruct (negb (z =? 0)); eexists; reflexivity.
  - destruct (negb (feqb f fzero)); eexists; reflexivity.
  - eexists; reflexivity.
Qed.

Lemma supply_positive_numeric (missing : list string) (field col : string)
    (o : option Value) (d : gmap string Value) :
  numeric_entry o = true -> exists d', supply_positive missing field col o d = Ok d'.
Proof.
  intros H. unfold supply_positive. destruct (str_in field missing); [|eexists; reflexivity].
  destruct (truthy_and_gt0_numeric o H) as [b ->]. cbn [mbind Res_bind].
  eexists; reflexivity.
Qed.

(** X9.  External completion never raises on statistics that hold numbers: a
    request that fails, an entry that is not there, a count of zero, a
    page without a table are all passed over, and the call returns the
    supply, which may be empty. *)
Theorem fetch_total_on_numbers (w : World) (missing : list string) :
  (forall steamspy_data,
      w_steamspy w = Some steamspy_data ->
      numeric_entry (average_forever steamspy_data) = true
      /\ numeric_entry (median_forever steamspy_data) = true
      /\ numeric_entry (ccu steamspy_data) = true) ->
  exists sup, fetch_missing_data w missing = Ok sup.
Proof.
  intros Hnum. unfold fetch_missing_data.
  assert (H : forall d, exists d', fetch_steamspy w missing d = Ok d').
  { intros d. unfold fetch_steamspy.
    destruct (existsb _ missing); [|eexists; reflexivity].
    destruct (w_steamspy w) as [sd|]; [|eexists; reflexivity].
    destruct (Hnum sd eq_refl) as (Ha & Hm & Hc).
    destruct (supply_positive_numeric missing "playtime_avg" col_playtime_avg _ d Ha)
      as [d1 ->]. cbn [mbind Res_bind].
    destruct (supply_positive_numeric missing "playtime_median" col_playtime_median _ d1 Hm)
      as [d2 ->]. cbn [mbind Res_bind].
    destruct (supply_positive_numeric missing "current_players" col_current_players _ d2 Hc)
      as [d3 ->]. cbn [mbind Res_bind].
    apply supply_positive_numeric, Hc. }
  destruct (H (fetch_store w missing ∅)) as [d' ->]. cbn [mbind Res_bind].
  eexists; reflexivity.
Qed.

Lemma fetch_total_on_numbers_witness :
  exists sup,
    fetch_missing_data answering_world ["playtime_avg"; "peak_24h"; "peak_alltime"]
    = Ok sup.
Proof.
  apply fetch_total_on_numbers.
  intros steamspy_data [= <-]. repeat split.
Defined.

(** ** The fate of a record, and of a batch *)

Lemma player_column_left (still : list string) (b : bool) :
  List.filter is_player_column still <> [] ->
  (bool_decide (still = [col_price]) && b) || bool_decide (still = []) = false.
Proof.
  intros Hne.
  destruct (List.filter is_player_column still) as [|f fs] eqn:Hf; [contradiction|].
  assert (Hin : In f (List.filter is_player_column still)) by (rewrite Hf; left; reflexivity).
  apply List.filter_In in Hin as [Hin Hp].
  rewrite (bool_decide_eq_false_2 (still = [col_price])).
  - rewrite (bool_decide_eq_false_2 (still = [])); [reflexivity|].
    intros ->. destruct Hin.
  - intros ->. destruct Hin as [<- | []]. vm_compute in Hp. discriminate Hp.
Qed.

(** The ways a record can end: untouched, counted as completed, or
    marked for deletion, once or twice. *)
Lemma record_outcome_cases (dtypes : Dtypes) (ml_models : gmap string ModelInfo)
    (current_year : Z) (w : World) (row : gmap string Value) :
  let o := clean_record dtypes ml_models current_year w row in
  (missing_fields_of row = []
   /\ o = {| o_row := row; o_deleted := 0; o_completed := 0; o_log := [] |})
  \/ (missing_fields_of row <> [] /\ o_completed o = 1%nat /\ o_deleted o = 0%nat)
  \/ (missing_fields_of row <> [] /\ o_completed o = 0%nat
      /\ (o_deleted o = 1%nat \/ o_deleted o = 2%nat)).
Proof.
  cbn zeta.
  destruct (clean_record_shape dtypes ml_models current_year w row)
    as [[Hm Ho] | [(Hm & e & _ & _ & Hd & Hc & _) | [(Hm & sup & _ & _ & Hfree)
        | (Hm & sup & _ & _ & H)]]].
  - left. split; assumption.
  - right; right. split; [exact Hm|]. split; [exact Hc | left; exact Hd].
  - assert (Hne : missing_fields_of row <> []) by (rewrite Hm; discriminate).
    destruct Hfree as [[_ Ho] | (e & _ & Ho)]; rewrite Ho.
    + right; left. split; [exact Hne|]. split; reflexivity.
    + right; right. split; [exact Hne|]. split; [reflexivity | left; reflexivity].
  - cbn zeta in H.
    assert (Hfin0 : forall r s log,
               clean_record dtypes ml_models current_year w row = finish dtypes r s 0 log ->
               (o_completed (clean_record dtypes ml_models current_year w row) = 1%nat
                /\ o_deleted (clean_record dtypes ml_models current_year w row) = 0%nat)
               \/ (o_completed (clean_record dtypes ml_models current_year w row) = 0%nat
                   /\ o_deleted (clean_record dtypes ml_models current_year w row) = 1%nat)).
    { intros r s log ->. rewrite finish_completed, finish_deleted.
      destruct (_ || _); auto. }
    destruct H as [(e & _ & _ & Hd & Hc & _)
                  | (_ & [(_ & log & _ & _ & Ho) | [(Hne & _ & log & _ & _ & Ho)
                     | [(_ & _ & e & _ & _ & Hd & Hc & _)
                        | (_ & _ & est & _ & [(e & _ & _ & Hd & Hc & _)
                                              | (_ & log & _ & Ho)])]]])].
    + right; right. auto.
    + destruct (Hfin0 _ _ _ Ho) as [[Hc Hd] | [Hc Hd]].
      * right; left. auto.
      * right; right. auto.
    + right; right. split; [exact Hm|]. rewrite Ho, finish_completed, finish_deleted.
      rewrite (player_column_left _ _ Hne). auto.
    + right; right. auto.
    + right; right. auto.
    + destruct (Hfin0 _ _ _ Ho) as [[Hc Hd] | [Hc Hd]].
      * right; left. auto.
      * right; right. auto.
Qed.

(** X10.  Every record ends in one of three ways.  With no critical field
    classified missing it is left as it was and counted nowhere.
    Otherwise it is either counted as completed, and then not marked for
    deletion, or marked for deletion, once or twice, and then not counted
    as completed. *)
Theorem record_outcome_accounting (dtypes : Dtypes) (ml_models : gmap string ModelInfo)
    (current_year : Z) (w : World) (row : gmap string Value) :
  let o := clean_record dtypes ml_models current_year w row in
  (missing_fields_of row = []
   /\ o_row o = row /\ o_completed o = 0%nat /\ o_deleted o = 0%nat
   /\ decision o = Intact)
  \/ (missing_fields_of row <> []
      /\ o_completed o = 1%nat /\ o_deleted o = 0%nat
      /\ (decision o = Resolved \/ decision o = Salvaged))
  \/ (missing_fields_of row <> []
      /\ o_completed o = 0%nat /\ (o_deleted o = 1%nat \/ o_deleted o = 2%nat)
      /\ decision o = Dropped).
Proof.
  cbn zeta.
  destruct (record_outcome_cases dtypes ml_models current_year w row)
    as [[Hm Ho] | [(Hm & Hc & Hd) | (Hm & Hc & Hd)]].
  - left. rewrite Ho. repeat split. exact Hm.
  - right; left. split; [exact Hm|]. split; [exact Hc|]. split; [exact Hd|].
    unfold decision. rewrite Hd, Hc. cbn.
    destruct (existsb is_price_fill _); auto.
  - right; right. split; [exact Hm|]. split; [exact Hc|]. split; [exact Hd|].
    unfold decision. destruct Hd as [-> | ->]; reflexivity.
Qed.


(** A column that an estimate is written to is one that was left in
    [still_missing], hence one whose field was classified missing from the
    start. *)
Lemma estimated_was_missing (ml_models : gmap string ModelInfo) (current_year : Z)
    (row row1 : gmap string Value) (missing : list string)
    (est : gmap string Value) (col : string) (v : Value) :
  estimate_player_fields ml_models current_year row1
    (types_of (List.filter is_player_column (still_missing_of row1 missing))) = Ok est ->
  est !! col = Some v ->
  exists kind,
    In (kind, col) cluster
    /\ In col (still_missing_of row1 missing)
    /\ str_in kind missing = true.
Proof.
  intros He Hv.
  destruct (estimate_only_listed _ _ _ _ _ _ _ He Hv) as (target & Hcl & Hl).
  apply types_of_inv in Hl as (f & Hf & Hk).
  apply List.filter_In in Hf as [Hf _].
  rewrite <- (kind_names_column f col target Hk (cluster_critical _ _ Hcl)).
  exists target. split.
  - rewrite (kind_names_column f col target Hk (cluster_critical _ _ Hcl)). exact Hcl.
  - split; [exact Hf|].
    destruct (still_missing_inv _ _ _ Hf) as (kind & Hk' & Hl' & _).
    apply assoc_of_In in Hk, Hk'. rewrite Hk in Hk'. injection Hk' as <-. exact Hl'.
Qed.

Lemma price_only_listed (row1 : gmap string Value) (missing still : list string) :
  (forall f, In f still -> In f (still_missing_of row1 missing)) ->
  still = [col_price] ->
  str_in "price" missing = true.
Proof.
  intros Hsub ->.
  destruct (still_missing_inv row1 missing col_price (Hsub _ (or_introl eq_refl)))
    as (kind & Hk & Hl & _).
  apply assoc_of_In in Hk. vm_compute in Hk. injection Hk as <-. exact Hl.
Qed.

Lemma clean_record_frame_aux (dtypes : Dtypes) (ml_models : gmap string ModelInfo)
    (current_year : Z) (w : World) (row : gmap string Value) (col : string) :
  (forall kind, In (col, kind) critical_fields ->
                is_field_missing (cell row col) kind = false) ->
  o_row (clean_record dtypes ml_models current_year w row) !! col = row !! col.
Proof.
  intros Hpresent.
  assert (Hnot : forall kind, In (col, kind) critical_fields ->
                              str_in kind (missing_fields_of row) = true -> False).
  { intros kind Hk Hl. specialize (Hpresent kind Hk).
    rewrite (missing_if_listed row col kind Hk Hl) in Hpresent. discriminate Hpresent. }
  assert (Hfill : forall r : gmap string Value,
             str_in "price" (missing_fields_of row) = true ->
             (<[col_price := VStr "Free"]> r) !! col = r !! col).
  { intros r Hl. apply lookup_insert_ne. intros <-.
    apply (Hnot "price"); [cbn; tauto | exact Hl]. }
  destruct (clean_record_shape dtypes ml_models current_year w row)
    as [[_ Ho] | [(_ & e & _ & Hr & _) | [(Hm & sup & _ & _ & Hfree)
        | (_ & sup & Hf & _ & H)]]].
  - rewrite Ho. reflexivity.
  - rewrite Hr. reflexivity.
  - destruct Hfree as [[_ Ho] | (e & _ & Ho)]; rewrite Ho; cbn [o_row]; [|reflexivity].
    apply Hfill. rewrite Hm. reflexivity.
  - cbn zeta in H.
    assert (Hnosup : sup !! col = None).
    { destruct (sup !! col) as [v|] eqn:Hv; [|reflexivity]. exfalso.
      destruct (fetch_only_asked _ _ _ col Hf (mk_is_Some _ _ Hv)) as (kind & Hk & Hl).
      exact (Hnot kind Hk Hl). }
    assert (Hsup : (sup ∪ row) !! col = row !! col) by (apply lookup_union_r, Hnosup).
    assert (Hfin : forall r s d log,
               (forall f, In f s -> In f (still_missing_of (sup ∪ row) (missing_fields_of row))) ->
               o_row (finish dtypes r s d log) !! col = r !! col).
    { intros r s d log Hsub. rewrite finish_row.
      destruct (bool_decide (s = [col_price])) eqn:Hs; [|reflexivity].
      destruct (bool_decide (dtypes col_price (VStr "Free") = None)); [|reflexivity].
      cbn [andb]. apply bool_decide_eq_true_1 in Hs. apply Hfill.
      exact (price_only_listed _ _ _ Hsub Hs). }
    destruct H as [(e & _ & Hframe & _)
                  | (_ & [(_ & log & _ & _ & Ho) | [(_ & _ & log & _ & _ & Ho)
                     | [(_ & _ & e & _ & Hr & _) | (_ & _ & est & He & Hw)]]])].
    + destruct (Hframe col) as [Hc | [[v Hv] _]]; [exact Hc|].
      rewrite Hnosup in Hv. discriminate Hv.
    + rewrite Ho, Hfin by auto. exact Hsup.
    + rewrite Ho, Hfin by auto. exact Hsup.
    + rewrite Hr. exact Hsup.
    + assert (Hnoest : est !! col = None).
      { destruct (est !! col) as [v|] eqn:Hv; [|reflexivity]. exfalso.
        destruct (estimated_was_missing _ _ row _ _ _ _ _ He Hv) as (kind & Hcl & _ & Hl).
        exact (Hnot kind (cluster_critical _ _ Hcl) Hl). }
      destruct Hw as [(e & _ & Hframe & _) | (_ & log & _ & Ho)].
      * destruct (Hframe col) as [Hc | [[v Hv] _]]; [rewrite Hc; exact Hsup|].
        rewrite Hnoest in Hv. discriminate Hv.
      * rewrite Ho, Hfin by (intros f; apply apply_estimates_sub).
        rewrite lookup_union_r by exact Hnoest. exact Hsup.
Qed.

(** X11.  The loop body changes a cell of a record only when it is the cell of
    a critical column and was classified missing: every other column of
    the frame, and every critical field that was there from the start,
    comes out as it went in, whatever the providers answer and whatever
    the models predict. *)
Theorem clean_record_frame (dtypes : Dtypes) (ml_models : gmap string ModelInfo)
    (current_year : Z) (w : World) (row : gmap string Value) (col : string) :
  o_row (clean_record dtypes ml_models current_year w row) !! col <> row !! col ->
  exists kind,
    In (col, kind) critical_fields /\ is_field_missing (cell row col) kind = true.
Proof.
  intros Hchanged.
  destruct (assoc col critical_fields) as [kind|] eqn:Ha.
  - exists kind. split; [apply In_of_assoc, Ha|].
    destruct (is_field_missing (cell row col) kind) eqn:Hm; [reflexivity|].
    exfalso. apply Hchanged. apply clean_record_frame_aux.
    intros kind' Hk. apply assoc_of_In in Hk. rewrite Ha in Hk.
    injection Hk as <-. exact Hm.
  - exfalso. apply Hchanged. apply clean_record_frame_aux.
    intros kind Hk. apply assoc_of_In in Hk. rewrite Ha in Hk. discriminate Hk.
Qed.

Lemma clean_record_frame_witness :
  exists kind,
    In (col_peak_24h, kind) critical_fields
    /\ is_field_missing (cell old_title col_peak_24h) kind = true.
Proof.
  apply (clean_record_frame open_frame ∅ 2025 silent_world old_title col_peak_24h).
  vm_compute. discriminate.
Defined.

Lemma free_is_a_price : is_field_missing (VStr "Free") "price" = false.
Proof. vm_compute. reflexivity. Qed.

Lemma cell_insert_eq (row : gmap string Value) (col : string) (v : Value) :
  cell (<[col := v]> row) col = v.
Proof. unfold cell. rewrite lookup_insert_eq. reflexivity. Qed.

Lemma cell_insert_ne (row : gmap string Value) (c col : string) (v : Value) :
  c <> col -> cell (<[c := v]> row) col = cell row col.
Proof. intros H. unfold cell. rewrite lookup_insert_ne by exact H. reflexivity. Qed.

Lemma price_kind (kind : string) : In (col_price, kind) critical_fields -> kind = "price".
Proof. intros H. apply assoc_of_In in H. vm_compute in H. injection H as <-. reflexivity. Qed.

(** What [finish] leaves in a record it keeps. *)
Lemma finish_kept (dtypes : Dtypes) (r : gmap string Value) (s : list string) (d : nat)
    (log : list Event) (col kind : string) :
  o_deleted (finish dtypes r s d log) = 0%nat ->
  In (col, kind) critical_fields ->
  is_field_missing (cell (o_row (finish dtypes r s d log)) col) kind = true ->
  is_field_missing (cell r col) kind = true
  /\ ~ In col s
  /\ o_row (finish dtypes r s d log) !! col = r !! col.
Proof.
  rewrite finish_deleted, finish_row. intros Hd Hk Hm.
  destruct (bool_decide (s = [col_price])) eqn:Hs1.
  - apply bool_decide_eq_true_1 in Hs1. subst s.
    change (bool_decide ([col_price] = [])) with false in Hd.
    destruct (bool_decide (dtypes col_price (VStr "Free") = None));
      [|cbn in Hd; discriminate Hd].
    cbn [andb] in Hm. cbn [andb].
    destruct (decide (col = col_price)) as [->|Hne].
    + rewrite cell_insert_eq, (price_kind kind Hk), free_is_a_price in Hm.
      discriminate Hm.
    + rewrite cell_insert_ne in Hm by congruence.
      split; [exact Hm|]. split.
      * intros [H | []]. congruence.
      * apply lookup_insert_ne. congruence.
  - cbn [andb orb] in Hd, Hm. cbn [andb].
    destruct (bool_decide (s = [])) eqn:Hs2; [|discriminate Hd].
    apply bool_decide_eq_true_1 in Hs2. subst s.
    split; [exact Hm|]. split; [intros [] | reflexivity].
Qed.

(** A field of a record that is kept is classified missing only when it
    holds an estimate. *)
Lemma kept_field_estimated (dtypes : Dtypes) (ml_models : gmap string ModelInfo)
    (current_year : Z) (w : World) (row : gmap string Value) (col kind : string) :
  let o := clean_record dtypes ml_models current_year w row in
  o_deleted o = 0%nat ->
  In (col, kind) critical_fields ->
  is_field_missing (cell (o_row o) col) kind = true ->
  In (kind, col) cluster
  /\ exists v, o_row o !! col = Some v
               /\ accepted_estimate ml_models current_year w row col v.
Proof.
  cbn zeta. intros Hkept Hk Hm.
  destruct (clean_record_shape dtypes ml_models current_year w row)
    as [[Hnil Ho] | [(_ & e & _ & _ & Hd & _) | [(Hp & sup & _ & _ & Hfree)
        | (_ & sup & Hf & _ & H)]]].
  - (* nothing was missing *)
    exfalso. rewrite Ho in Hm. cbn [o_row] in Hm.
    pose proof (listed_if_missing row col kind Hk Hm) as Hl.
    rewrite Hnil in Hl. discriminate Hl.
  - rewrite Hd in Hkept. discriminate Hkept.
  - (* the early fill of the price *)
    exfalso. destruct Hfree as [[_ Ho] | (e & _ & Ho)]; rewrite Ho in Hkept, Hm;
      [|discriminate Hkept].
    cbn [o_row] in Hm.
    destruct (decide (col = col_price)) as [->|Hne].
    + rewrite cell_insert_eq, (price_kind kind Hk), free_is_a_price in Hm.
      discriminate Hm.
    + rewrite cell_insert_ne in Hm by congruence.
      pose proof (listed_if_missing row col kind Hk Hm) as Hl.
      rewrite Hp in Hl. cbn in Hl. rewrite orb_false_r in Hl.
      apply String.eqb_eq in Hl. subst kind.
      apply Hne. apply (kind_names_column col col_price "price" Hk). cbn; tauto.
  - cbn zeta in H.
    assert (Hstill : forall f k,
               In (f, k) critical_fields ->
               is_field_missing (cell (sup ∪ row) f) k = true ->
               In f (still_missing_of (sup ∪ row) (missing_fields_of row))).
    { intros f k Hfk Hfm. apply (In_still_missing _ _ f k Hfk); [|exact Hfm].
      exact (listed_if_missing_after w row sup f k Hfk Hf Hfm). }
    destruct H as [(e & _ & _ & Hd & _)
                  | (_ & [(_ & log & _ & _ & Ho) | [(Hne & _ & log & _ & _ & Ho)
                     | [(_ & _ & e & _ & _ & Hd & _)
                        | (_ & _ & est & He & [(e & _ & _ & Hd & _)
                                               | (_ & log & _ & Ho)])]]])].
    + rewrite Hd in Hkept. discriminate Hkept.
    + exfalso. rewrite Ho in Hkept, Hm.
      destruct (finish_kept _ _ _ _ _ col kind Hkept Hk Hm) as (Hm' & Hnin & _).
      exact (Hnin (Hstill col kind Hk Hm')).
    + exfalso. rewrite Ho, finish_deleted in Hkept.
      rewrite (player_column_left _ _ Hne) in Hkept. discriminate Hkept.
    + rewrite Hd in Hkept. discriminate Hkept.
    + rewrite Hd in Hkept. discriminate Hkept.
    + rewrite Ho in Hkept, Hm. rewrite Ho.
      destruct (finish_kept _ _ _ _ _ col kind Hkept Hk Hm) as (Hm' & Hnin & Hrow).
      rewrite Hrow.
      destruct (est !! col) as [v|] eqn:Hv.
      * destruct (estimate_only_listed _ _ _ _ _ _ _ He Hv) as (target & Hcl & _).
        assert (Hkt : target = kind).
        { pose proof (cluster_critical _ _ Hcl) as Hc.
          apply assoc_of_In in Hc, Hk. rewrite Hc in Hk. injection Hk as <-. reflexivity. }
        subst target. split; [exact Hcl|].
        exists v. split; [apply lookup_union_Some_l, Hv|].
        exists sup, est. split; [exact Hf|]. split; [exact He | exact Hv].
      * exfalso. apply Hnin.
        apply (apply_estimates_stays _ _ _ _ col kind); [|exact Hv|exact Hk|exact Hm'].
        apply (Hstill col kind Hk).
        unfold cell in *. rewrite lookup_union_r in Hm' by exact Hv. exact Hm'.
Qed.

(** X12.  A record that is kept has every critical field classified present,
    but for one case: a cluster field for which the estimator has given
    an estimate.  The loop body takes the name off [still_missing] as it
    writes the estimate, without classifying the value written. *)
Theorem kept_record_complete (dtypes : Dtypes) (ml_models : gmap string ModelInfo)
    (current_year : Z) (w : World) (row : gmap string Value) (col kind : string) :
  let o := clean_record dtypes ml_models current_year w row in
  o_deleted o = 0%nat ->
  In (col, kind) critical_fields ->
  is_field_missing (cell (o_row o) col) kind = true ->
  In (kind, col) cluster
  /\ exists v, o_row o !! col = Some v
               /\ accepted_estimate ml_models current_year w row col v.
Proof. exact (kept_field_estimated dtypes ml_models current_year w row col kind). Qed.

(** The exception is met: the title with one player at its peak gets the
    estimate [int(1 * 0.2) = 0] for its live count, is kept and counted as
    completed, and holds a live count that is classified missing. *)
Lemma kept_record_complete_witness :
  In ("current_players", col_current_players) cluster
  /\ exists v, o_row (clean_record open_frame ∅ 2025 silent_world quiet_title)
                 !! col_current_players
               = Some v
               /\ accepted_estimate ∅ 2025 silent_world quiet_title col_current_players v.
Proof.
  apply (kept_record_complete open_frame ∅ 2025 silent_world quiet_title
           col_current_players "current_players").
  - vm_compute. reflexivity.
  - cbn. tauto.
  - vm_compute. reflexivity.
Defined.

Lemma quiet_title_kept :
  let o := clean_record open_frame ∅ 2025 silent_world quiet_title in
  decision o = Resolved
  /\ o_row o !! col_current_players = Some (VInt 0)
  /\ is_field_missing (VInt 0) "current_players" = true.
Proof. vm_compute. repeat split; reflexivity. Qed.

Lemma finish_deleted_le (dtypes : Dtypes) (r : gmap string Value) (s : list string)
    (d : nat) (log : list Event) :
  (o_deleted (finish dtypes r s d log) <= S d)%nat.
Proof. rewrite finish_deleted. destruct (_ || _); lia. Qed.

(** X13.  A record is marked twice for deletion exactly when external
    completion goes through, the frame takes every value it supplies, and
    the three cluster fields are then all classified missing: its index is
    appended to the list of deletions at line 683 and again at line 709,
    so that the number of deletions the run reports counts the record
    twice.  On every other path, an assignment that raises among them, the
    record is marked once at most. *)
Theorem all_cluster_missing_marked_twice (dtypes : Dtypes)
    (ml_models : gmap string ModelInfo)
    (current_year : Z) (w : World) (row : gmap string Value) :
  (o_deleted (clean_record dtypes ml_models current_year w row) = 2%nat
   <-> exists sup,
         fetch_missing_data w (missing_fields_of row) = Ok sup
         /\ takes dtypes sup
         /\ cluster_missing (sup ∪ row) = true)
  /\ (o_deleted (clean_record dtypes ml_models current_year w row) <= 2)%nat.
Proof.
  split; [split|].
  - intros Hd.
    destruct (clean_record_shape dtypes ml_models current_year w row)
      as [[_ Ho] | [(_ & e & _ & _ & Hd' & _) | [(_ & sup & _ & _ & Hfree)
          | (_ & sup & Hf & _ & H)]]].
    + rewrite Ho in Hd. discriminate Hd.
    + rewrite Hd' in Hd. discriminate Hd.
    + destruct Hfree as [[_ Ho] | (e & _ & Ho)]; rewrite Ho in Hd; discriminate Hd.
    + cbn zeta in H. exists sup. split; [exact Hf|].
      destruct H as [(e & _ & _ & Hd' & _)
                    | (Htakes & [(_ & log & _ & _ & Ho) | [(_ & Hset & _)
                       | [(_ & _ & e & _ & _ & Hd' & _)
                          | (_ & _ & est & _ & [(e & _ & _ & Hd' & _)
                                                | (_ & log & _ & Ho)])]]])].
      * rewrite Hd' in Hd. discriminate Hd.
      * pose proof (finish_deleted_le dtypes (sup ∪ row)
                      (still_missing_of (sup ∪ row) (missing_fields_of row)) 0 log) as Hle.
        rewrite <- Ho, Hd in Hle. lia.
      * split; [exact Htakes|]. apply (all_three_iff w row sup Hf), Hset.
      * rewrite Hd' in Hd. discriminate Hd.
      * rewrite Hd' in Hd. discriminate Hd.
      * match type of Ho with
        | _ = finish _ ?r ?s 0 ?l => pose proof (finish_deleted_le dtypes r s 0 l) as Hle
        end.
        rewrite <- Ho, Hd in Hle. lia.
  - intros (sup & Hf & Htakes & Hall).
    pose proof (proj2 (all_three_iff w row sup Hf) Hall) as Hset.
    pose proof Hall as Hc. unfold cluster_missing in Hc.
    apply andb_prop in Hc as [Hc H3]. apply andb_prop in Hc as [H1 H2].
    assert (L1 := listed_if_missing_after w row sup col_current_players
                    "current_players" ltac:(cbn; tauto) Hf H1).
    assert (L2 := listed_if_missing_after w row sup col_peak_24h
                    "peak_24h" ltac:(cbn; tauto) Hf H2).
    assert (L3 := listed_if_missing_after w row sup col_peak_alltime
                    "peak_alltime" ltac:(cbn; tauto) Hf H3).
    pose proof (player_part_all _ _ L1 L2 L3 Hall) as Hmpf.
    destruct (clean_record_shape dtypes ml_models current_year w row)
      as [[Hnil _] | [(_ & e & Hf' & _) | [(Hp & _) | (_ & sup' & Hf' & _ & H)]]].
    + rewrite Hnil in L1. discriminate L1.
    + rewrite Hf in Hf'. discriminate Hf'.
    + rewrite Hp in L1. discriminate L1.
    + rewrite Hf in Hf'. injection Hf' as <-. cbn zeta in H.
      destruct H as [(e & Href & _)
                    | (_ & [(Hn & _) | [(Hne & _ & log & _ & _ & Ho)
                       | [(_ & Hne & _) | (_ & Hne & _)]]])].
      * exfalso. exact (takes_not_refuses _ _ _ Htakes Href).
      * rewrite Hmpf in Hn. discriminate Hn.
      * rewrite Ho, finish_deleted, (player_column_left _ _ Hne). reflexivity.
      * exfalso. exact (Hne Hset).
      * exfalso. exact (Hne Hset).
  - destruct (record_outcome_cases dtypes ml_models current_year w row)
      as [[_ Ho] | [(_ & _ & Hd) | (_ & _ & [Hd | Hd])]]; [rewrite Ho|..];
      try rewrite Hd; cbn; lia.
Qed.


Lemma drop_rows_from (os : list Outcome) :
  forall (n : nat) (deleted : list nat),
    (forall i o, os !! i = Some o -> ((n + i)%nat ∈ deleted <-> (0 < o_deleted o)%nat)) ->
    omap (fun '(idx, row) => if bool_decide (idx ∈ deleted) then None else Some row)
         (imap (fun i (row : gmap string Value) => ((n + i)%nat, row)) (map o_row os))
    = map o_row (List.filter kept os).
Proof.
  induction os as [|o os IH]; intros n deleted H; [reflexivity|].
  cbn [map imap List.filter].
  change (omap ?f (?x :: ?l))
    with (match f x with Some y => y :: omap f l | None => omap f l end).
  assert (Ho : (n + 0)%nat ∈ deleted <-> (0 < o_deleted o)%nat) by (apply H; reflexivity).
  assert (Hrest : omap (fun '(idx, row) =>
                          if bool_decide (idx ∈ deleted) then None else Some row)
                    (imap ((fun i (row : gmap string Value) => ((n + i)%nat, row)) ∘ S)
                          (map o_row os))
                  = map o_row (List.filter kept os)).
  { rewrite <- (IH (S n) deleted).
    - f_equal. apply imap_ext. intros i x _. cbn. f_equal. lia.
    - intros i o' Hi. replace (S n + i)%nat with (n + S i)%nat by lia.
      apply H. exact Hi. }
  rewrite Hrest. destruct (kept o) eqn:Hk; unfold kept in Hk.
  - apply Nat.eqb_eq in Hk.
    rewrite bool_decide_eq_false_2 by (rewrite Ho; lia). reflexivity.
  - apply Nat.eqb_neq in Hk.
    rewrite bool_decide_eq_true_2 by (rewrite Ho; lia). reflexivity.
Qed.

Lemma drop_rows_marks (os : list Outcome) :
  drop_rows (marks_from 0 os) (map o_row os) = map o_row (List.filter kept os).
Proof.
  unfold drop_rows. rewrite <- (drop_rows_from os 0 (marks_from 0 os)).
  - reflexivity.
  - intros i o Hi. rewrite marks_from_elem. split.
    + intros (j & o' & Hj & Ho' & Hd). assert (j = i) by lia. subst j.
      rewrite Hi in Ho'. injection Ho' as <-. exact Hd.
    + intros Hd. exists i, o. auto.
Qed.

Lemma marks_from_length (os : list Outcome) :
  forall n, length (marks_from n os) = sum_list (map o_deleted os).
Proof.
  induction os as [|o os IH]; intros n; [reflexivity|].
  cbn [marks_from map sum_list sum_list_with].
  rewrite length_app, length_replicate, IH. reflexivity.
Qed.

Lemma has_missing_listed (row : gmap string Value) :
  has_missing row = negb (bool_decide (missing_fields_of row = [])).
Proof.
  unfold has_missing, missing_fields_of.
  induction critical_fields as [|[c k] l IH]; [reflexivity|].
  cbn [existsb List.filter].
  destruct (is_field_missing (cell row c) k); [reflexivity|].
  exact IH.
Qed.

(** The counts of a batch, record by record. *)
Lemma batch_counts (dtypes : Dtypes) (ml_models : gmap string ModelInfo)
    (current_year : Z) (world_of : nat -> World) (rows : list (gmap string Value)) :
  forall n,
    let os := outcomes_from dtypes ml_models current_year world_of n rows in
    sum_list (map o_completed os) = length (List.filter completed os)
    /\ (length (List.filter kept os) + length (List.filter dropped os) = length rows)%nat
    /\ records_with_missing rows
       = (length (List.filter completed os) + length (List.filter dropped os))%nat
    /\ (length (List.filter dropped os) <= sum_list (map o_deleted os))%nat.
Proof.
  induction rows as [|row rows IH]; intros n; cbn zeta; [cbn; repeat split; lia|].
  cbn [outcomes_from]. specialize (IH (S n)). cbn zeta in IH.
  set (o := clean_record dtypes ml_models current_year (world_of n) row).
  set (os := outcomes_from dtypes ml_models current_year world_of (S n) rows) in *.
  destruct IH as (IH1 & IH2 & IH3 & IH4).
  unfold records_with_missing in *.
  cbn [map sum_list sum_list_with List.filter length].
  rewrite has_missing_listed.
  assert (Hcases :
            ((bool_decide (missing_fields_of row = []) = true
             /\ o_completed o = 0 /\ o_deleted o = 0
             /\ completed o = false /\ kept o = true /\ dropped o = false)
            \/ (bool_decide (missing_fields_of row = []) = false
                /\ o_completed o = 1 /\ o_deleted o = 0
                /\ completed o = true /\ kept o = true /\ dropped o = false)
            \/ (bool_decide (missing_fields_of row = []) = false
                /\ o_completed o = 0 /\ 1 <= o_deleted o
                /\ completed o = false /\ kept o = false /\ dropped o = true))%nat).
  { unfold completed, kept, dropped. subst o.
    destruct (record_outcome_cases dtypes ml_models current_year (world_of n) row)
      as [[Hm Ho] | [(Hm & Hc & Hd) | (Hm & Hc & Hd)]].
    - left. rewrite Ho. rewrite (bool_decide_eq_true_2 _ Hm). repeat split.
    - right; left. rewrite Hc, Hd, (bool_decide_eq_false_2 _ Hm). repeat split.
    - right; right. rewrite Hc, (bool_decide_eq_false_2 _ Hm).
      destruct Hd as [-> | ->]; repeat split; lia. }
  destruct Hcases as [(-> & -> & -> & -> & -> & ->)
                     | [(-> & -> & -> & -> & -> & ->) | (-> & -> & Hd & -> & -> & ->)]];
    cbn [negb length id]; repeat split; lia.
Qed.

(** X14.  What a run of [clean_data] comes to.  The cleaned frame is made, in
    order, of the final rows of the records that are not marked for
    deletion; every record is either in it or dropped; the number of
    records counted as completed and the number of records dropped add up
    to the number of records that had a field classified missing, the
    statistic printed before the loop; and the list of deletions is at
    least as long as the number of records dropped. *)
Theorem clean_data_accounting (ml_models : gmap string ModelInfo) (current_year : Z)
    (world_of : nat -> World) (df : DataFrame) (result : CleanResult) :
  clean_data ml_models current_year world_of df = Ok (Some result) ->
  let os := outcomes_from (df_dtypes df) ml_models current_year world_of 0 (df_rows df) in
  cr_cleaned result = map o_row (List.filter kept os)
  /\ (length (cr_cleaned result) + length (List.filter dropped os)
      = length (df_rows df))%nat
  /\ ls_completed (cr_state result) = length (List.filter completed os)
  /\ records_with_missing (df_rows df)
     = (ls_completed (cr_state result) + length (List.filter dropped os))%nat
  /\ (length (List.filter dropped os) <= length (ls_deleted (cr_state result)))%nat.
Proof.
  unfold clean_data.
  destruct (negb (forallb _ required_columns)); [discriminate|].
  destruct (df_rows df) as [|r rs] eqn:Hrows; [discriminate|].
  intros [= <-]. cbn zeta. cbn [cr_cleaned cr_state].
  rewrite clean_loop_closed. cbn [ls_rows ls_deleted ls_completed].
  destruct (batch_counts (df_dtypes df) ml_models current_year world_of (r :: rs) 0)
    as (H1 & H2 & H3 & H4).
  rewrite drop_rows_marks, length_map, marks_from_length.
  repeat split; lia.
Qed.

Lemma clean_data_accounting_witness :
  exists result,
    clean_data ∅ 2025 small_batch_world
      {| df_columns := required_columns; df_rows := small_batch;
         df_dtypes := open_frame |} = Ok (Some result)
    /\ length (cr_cleaned result) = 2%nat
    /\ ls_completed (cr_state result) = 2%nat
    /\ length (ls_deleted (cr_state result)) = 1%nat.
Proof.
  destruct (clean_data ∅ 2025 small_batch_world
              {| df_columns := required_columns; df_rows := small_batch;
         df_dtypes := open_frame |})
    as [[result|]|] eqn:E; try (vm_compute in E; discriminate E).
  exists result. split; [reflexivity|].
  destruct (clean_data_accounting ∅ 2025 small_batch_world _ result E)
    as (Hc & _ & Hcomp & _ & _).
  split; [rewrite Hc; vm_compute; reflexivity|].
  split; [rewrite Hcomp; vm_compute; reflexivity|].
  injection E as <-. vm_compute. reflexivity.
Defined.

(** ** The output file and the cleaned frame *)

(** *** The name of the output file *)

Lemma before_last_point_None (s : string) :
  before_last_point s = None <-> has_point s = false.
Proof.
  induction s as [|c s IH]; cbn [before_last_point has_point]; [tauto|].
  destruct (before_last_point s) as [p|].
  - split; [discriminate|]. intros H. apply orb_false_elim in H as [_ H].
    apply IH in H. discriminate H.
  - destruct (Ascii.eqb c "."); cbn [orb].
    + split; discriminate.
    + split; [intros _; apply IH; reflexivity | reflexivity].
Qed.

Lemma before_last_point_Some (s p : string) :
  before_last_point s = Some p ->
  exists ext, s = p +:+ "." +:+ ext /\ has_point ext = false.
Proof.
  revert p. induction s as [|c s IH]; intros p; cbn [before_last_point]; [discriminate|].
  destruct (before_last_point s) as [q|] eqn:Hq.
  - intros [= <-]. destruct (IH q eq_refl) as (ext & -> & He).
    exists ext. split; [reflexivity | exact He].
  - destruct (Ascii.eqb c ".") eqn:Hc; [|discriminate].
    intros [= <-]. apply Ascii.eqb_eq in Hc. subst c.
    exists s. split; [reflexivity | apply before_last_point_None, Hq].
Qed.

Lemma before_last_point_split (base ext : string) :
  has_point ext = false -> before_last_point (base +:+ "." +:+ ext) = Some base.
Proof.
  intros He. induction base as [|c base IH].
  - change ("" +:+ "." +:+ ext) with (String "." ext).
    cbn [before_last_point].
    rewrite (proj2 (before_last_point_None ext) He). reflexivity.
  - change (String c base +:+ "." +:+ ext) with (String c (base +:+ "." +:+ ext)).
    cbn [before_last_point]. rewrite IH. reflexivity.
Qed.

Lemma app_cancel_l (p a b : string) : p +:+ a = p +:+ b -> a = b.
Proof.
  induction p as [|c p IH]; [tauto|].
  change (String c p +:+ a) with (String c (p +:+ a)).
  change (String c p +:+ b) with (String c (p +:+ b)).
  intros [= H]. exact (IH H).
Qed.

Lemma app_length (a b : string) :
  String.length (a +:+ b) = (String.length a + String.length b)%nat.
Proof.
  induction a as [|c a IH]; [reflexivity|].
  change (String c a +:+ b) with (String c (a +:+ b)).
  cbn [String.length Nat.add]. rewrite IH. reflexivity.
Qed.

(** X24.  The output file [clean_data] writes to when none is given is never
    the input file.  For an input [base.ext], [ext] without a point, it is
    [base_cleaned.csv]; for an input without a point it is the input
    followed by [_cleaned.csv]. *)
Theorem default_output_file_fresh (input_file : string) :
  default_output_file input_file <> input_file
  /\ (forall base ext,
        input_file = base +:+ "." +:+ ext -> has_point ext = false ->
        default_output_file input_file = base +:+ "_cleaned.csv")
  /\ (has_point input_file = false ->
      default_output_file input_file = input_file +:+ "_cleaned.csv").
Proof.
  unfold default_output_file, rsplit_point. split; [|split].
  - destruct (before_last_point input_file) as [p|] eqn:Hp; cbn [default].
    + destruct (before_last_point_Some _ _ Hp) as (ext & Hs & _).
      rewrite Hs. intros H. apply app_cancel_l in H. discriminate H.
    + intros H. apply (f_equal String.length) in H. rewrite app_length in H.
      cbn in H. lia.
  - intros base ext -> He. rewrite (before_last_point_split base ext He). reflexivity.
  - intros He. rewrite (proj2 (before_last_point_None input_file) He). reflexivity.
Qed.

Lemma default_output_file_fresh_witness :
  default_output_file "dir/Source data.csv" = "dir/Source data" +:+ "_cleaned.csv"
  /\ default_output_file "dir.v2/data" = "dir" +:+ "_cleaned.csv".
Proof.
  split.
  - apply (proj1 (proj2 (default_output_file_fresh "dir/Source data.csv"))
             "dir/Source data" "csv"); reflexivity.
  - apply (proj1 (proj2 (default_output_file_fresh "dir.v2/data")) "dir" "v2/data");
      reflexivity.
Defined.

(** *** The cleaned frame *)

Lemma outcomes_from_In (dtypes : Dtypes) (ml_models : gmap string ModelInfo)
    (current_year : Z) (world_of : nat -> World) (rows : list (gmap string Value)) :
  forall n o,
    In o (outcomes_from dtypes ml_models current_year world_of n rows) ->
    exists i row, rows !! i = Some row
                  /\ o = clean_record dtypes ml_models current_year
                           (world_of (n + i)%nat) row.
Proof.
  induction rows as [|row rows IH]; intros n o; cbn [outcomes_from]; [intros []|].
  intros [<- | H].
  - exists 0%nat, row. rewrite Nat.add_0_r. split; reflexivity.
  - destruct (IH (S n) o H) as (i & row' & Hi & ->).
    exists (S i), row'. split; [exact Hi|]. f_equal. f_equal. lia.
Qed.

Lemma filter_none {A} (f : A -> bool) (l : list A) :
  (forall x, In x l -> f x = false) -> List.filter f l = [].
Proof.
  induction l as [|a l IH]; intros H; [reflexivity|].
  cbn [List.filter]. rewrite (H a) by (left; reflexivity).
  apply IH. intros x Hx. apply H. right. exact Hx.
Qed.

Lemma clean_data_cleaned (ml_models : gmap string ModelInfo) (current_year : Z)
    (world_of : nat -> World) (df : DataFrame) (result : CleanResult) :
  clean_data ml_models current_year world_of df = Ok (Some result) ->
  cr_cleaned result
  = map o_row (List.filter kept
                 (outcomes_from (df_dtypes df) ml_models current_year world_of 0
                    (df_rows df))).
Proof.
  unfold clean_data.
  destruct (negb (forallb _ required_columns)); [discriminate|].
  destruct (df_rows df) as [|r rs] eqn:Hrows; [discriminate|].
  intros [= <-]. cbn [cr_cleaned].
  rewrite clean_loop_closed. cbn [ls_rows ls_deleted].
  apply drop_rows_marks.
Qed.

(** X25.  The quality of the frame that a run of [clean_data] writes out.  The
    count printed for the release date, for the price and for the two play
    times is zero; a record of the cleaned frame counted as missing for a
    column is one that holds, in that column, the estimate the estimator
    gave for it. *)
Theorem cleaned_frame_quality (ml_models : gmap string ModelInfo) (current_year : Z)
    (world_of : nat -> World) (df : DataFrame) (result : CleanResult) :
  clean_data ml_models current_year world_of df = Ok (Some result) ->
  (forall col kind,
      In (col, kind) critical_fields -> ~ In (kind, col) cluster ->
      missing_count (cr_cleaned result) col kind = 0%nat)
  /\ (forall r col kind,
        In r (cr_cleaned result) -> In (col, kind) critical_fields ->
        is_field_missing (cell r col) kind = true ->
        exists idx row v,
          df_rows df !! idx = Some row
          /\ r !! col = Some v
          /\ accepted_estimate ml_models current_year (world_of idx) row col v).
Proof.
  intros Hrun. rewrite (clean_data_cleaned _ _ _ _ _ Hrun).
  assert (Hrec : forall r col kind,
             In r (map o_row (List.filter kept
                     (outcomes_from (df_dtypes df) ml_models current_year world_of 0
                    (df_rows df)))) ->
             In (col, kind) critical_fields ->
             is_field_missing (cell r col) kind = true ->
             In (kind, col) cluster
             /\ exists idx row v,
                  df_rows df !! idx = Some row
                  /\ r !! col = Some v
                  /\ accepted_estimate ml_models current_year (world_of idx) row col v).
  { intros r col kind Hr Hk Hm.
    apply in_map_iff in Hr as (o & <- & Ho).
    apply filter_In in Ho as [Ho Hkept].
    apply outcomes_from_In in Ho as (i & row & Hi & ->).
    unfold kept in Hkept. apply Nat.eqb_eq in Hkept.
    destruct (kept_field_estimated (df_dtypes df) ml_models current_year
                (world_of (0 + i)%nat) row
                col kind Hkept Hk Hm) as (Hc & v & Hv & Ha).
    split; [exact Hc|]. exists i, row, v. auto. }
  split.
  - intros col kind Hk Hnc. unfold missing_count.
    rewrite filter_none; [reflexivity|].
    intros r Hr.
    destruct (is_field_missing (cell r col) kind) eqn:Hm; [|reflexivity].
    exfalso. apply Hnc. exact (proj1 (Hrec r col kind Hr Hk Hm)).
  - intros r col kind Hr Hk Hm. exact (proj2 (Hrec r col kind Hr Hk Hm)).
Qed.

Lemma cleaned_frame_quality_witness :
  missing_count
    (drop_rows (ls_deleted (clean_loop open_frame ∅ 2025 small_batch_world small_batch))
               (ls_rows (clean_loop open_frame ∅ 2025 small_batch_world small_batch)))
    col_price "price" = 0%nat.
Proof.
  set (st := clean_loop open_frame ∅ 2025 small_batch_world small_batch).
  apply (proj1 (cleaned_frame_quality ∅ 2025 small_batch_world
                  {| df_columns := required_columns; df_rows := small_batch;
                     df_dtypes := open_frame |}
                  {| cr_cleaned := drop_rows (ls_deleted st) (ls_rows st);
                     cr_state := st |}
                  eq_refl)
           col_price "price").
  - cbn. tauto.
  - intros H. cbn in H. intuition discriminate.
Defined.

(** ** Signs: the heuristic estimates and the price *)

(** *** Rounding keeps the sign *)

Lemma iter_pos_nonneg (n : positive) :
  forall mrs, 0 <= shr_m mrs -> 0 <= shr_m (SpecFloat.iter_pos shr_1 n mrs).
Proof.
  induction n as [n IH|n IH|]; intros mrs H; cbn [SpecFloat.iter_pos].
  - apply IH, IH, shr_1_nonneg, H.
  - apply IH, IH, H.
  - apply shr_1_nonneg, H.
Qed.

Lemma shr_fexp_nonneg (m e : Z) (l : location) :
  0 <= m -> 0 <= shr_m (fst (shr_fexp prec emax m e l)).
Proof.
  intros H. unfold shr_fexp, shr.
  assert (H0 : 0 <= shr_m (shr_record_of_loc m l)).
  { destruct l as [|[]]; exact H. }
  destruct (fexp prec emax (Zdigits2 m + e) - e) as [|p|p]; cbn [fst]; try exact H0.
  apply iter_pos_nonneg, H0.
Qed.

Lemma round_nearest_even_nonneg (m : Z) (l : location) :
  0 <= m -> 0 <= round_nearest_even m l.
Proof.
  intros H. destruct l as [|[]]; cbn; try lia. destruct (Z.even m); lia.
Qed.

Lemma binary_round_aux_sign (sx : bool) (mx ex : Z) (lx : location) :
  0 <= mx ->
  match binary_round_aux prec emax sx mx ex lx with
  | S754_zero s | S754_infinity s | S754_finite s _ _ => s = sx
  | S754_nan => False
  end.
Proof.
  intros H. unfold binary_round_aux.
  pose proof (shr_fexp_nonneg mx ex lx H) as H1.
  destruct (shr_fexp prec emax mx ex lx) as [mrs' e']. cbn [fst] in H1.
  pose proof (shr_fexp_nonneg _ e' loc_Exact
                (round_nearest_even_nonneg _ (loc_of_shr_record mrs') H1)) as H2.
  destruct (shr_fexp prec emax _ e' loc_Exact) as [mrs'' e'']. cbn [fst] in H2.
  destruct (shr_m mrs'') as [|m|m].
  - reflexivity.
  - destruct (e'' <=? emax - prec); reflexivity.
  - lia.
Qed.

Lemma binary_round_sign (sx : bool) (m : positive) (e : Z) :
  match binary_round prec emax sx m e with
  | S754_zero s | S754_infinity s | S754_finite s _ _ => s = sx
  | S754_nan => False
  end.
Proof.
  unfold binary_round. destruct (shl_align _ _ _) as [mz ez].
  apply binary_round_aux_sign. lia.
Qed.

Lemma float_of_Z_not_negative (z : Z) : 0 <= z -> not_negative (float_of_Z z) = true.
Proof.
  intros H. unfold float_of_Z, binary_normalize. destruct z as [|p|p]; [reflexivity| |lia].
  pose proof (binary_round_sign false p 0) as Hs.
  destruct (binary_round prec emax false p 0) as [s|s| |s m e];
    first [ subst s; reflexivity | contradiction ].
Qed.

Lemma fdiv_finite_sign (sx sy : bool) (mx my : positive) (ex ey : Z) :
  match fdiv (S754_finite sx mx ex) (S754_finite sy my ey) with
  | S754_zero s | S754_infinity s | S754_finite s _ _ => s = xorb sx sy
  | S754_nan => False
  end.
Proof.
  unfold fdiv, SFdiv, SFdiv_core_binary.
  set (e' := Z.min _ _). set (s := ex - ey - e').
  set (m' := match s with Z.pos _ => Z.shiftl (Z.pos mx) s | 0 => Z.pos mx | Z.neg _ => 0 end).
  assert (Hm : 0 <= m').
  { subst m'. destruct s as [|p|p]; try lia. apply Z.shiftl_nonneg. lia. }
  pose proof (Z.div_pos m' (Z.pos my) Hm ltac:(lia)) as Hq.
  unfold Z.div in Hq.
  destruct (Z.div_eucl m' (Z.pos my)) as [q r]. cbn [fst] in Hq.
  apply binary_round_aux_sign. exact Hq.
Qed.

Lemma fmul_finite_sign (sx sy : bool) (mx my : positive) (ex ey : Z) :
  match fmul (S754_finite sx mx ex) (S754_finite sy my ey) with
  | S754_zero s | S754_infinity s | S754_finite s _ _ => s = xorb sx sy
  | S754_nan => False
  end.
Proof. unfold fmul, SFmul. apply binary_round_aux_sign. lia. Qed.

(** A quotient or a product of a float that is not negative by a positive
    number is not negative. *)
Lemma fdiv_not_negative (x : float) (m : positive) (e : Z) :
  not_negative x = true -> not_negative (fdiv x (S754_finite false m e)) = true.
Proof.
  destruct x as [[]|[]| |[] mx ex]; cbn [not_negative]; intros H; try discriminate H;
    try reflexivity.
  pose proof (fdiv_finite_sign false false mx m ex e) as Hs.
  destruct (fdiv _ _) as [s|s| |s m' e'];
    first [ subst s; reflexivity | contradiction ].
Qed.

Lemma fmul_not_negative (x : float) (m : positive) (e : Z) :
  not_negative x = true -> not_negative (fmul x (S754_finite false m e)) = true.
Proof.
  destruct x as [[]|[]| |[] mx ex]; cbn [not_negative]; intros H; try discriminate H;
    try reflexivity.
  pose proof (fmul_finite_sign false false mx m ex e) as Hs.
  destruct (fmul _ _) as [s|s| |s m' e'];
    first [ subst s; reflexivity | contradiction ].
Qed.

Lemma positive_not_negative (f : float) : fltb fzero f = true -> not_negative f = true.
Proof.
  destruct f as [s | s | | s m e]; try destruct s; cbn; intros H;
    first [ discriminate H | reflexivity ].
Qed.

Lemma int_of_not_negative (f : float) (n : Z) :
  not_negative f = true -> int_of_float f = Ok n -> 0 <= n.
Proof.
  destruct f as [[]|[]| |[] m e]; cbn [not_negative int_of_float]; intros H;
    try discriminate H; intros [= <-]; try lia.
  destruct e as [|p|p].
  - apply Z.shiftl_nonneg. lia.
  - apply Z.shiftl_nonneg. lia.
  - apply Z.shiftr_nonneg. lia.
Qed.

(** *** The heuristic estimates *)

Lemma age_factors_positive (age : Z) :
  exists m1 e1 m2 e2,
    age_factors age = (S754_finite false m1 e1, S754_finite false m2 e2).
Proof.
  unfold age_factors.
  destruct (age <=? 2); [|destruct (age <=? 5)]; vm_compute; do 4 eexists; reflexivity.
Qed.

Lemma truncated_not_negative (x : float) (v : Value) :
  not_negative x = true -> truncated x = Some v -> exists n, v = VInt n /\ 0 <= n.
Proof.
  unfold truncated. intros Hx. destruct (int_of_float x) as [n|] eqn:Hn; [|discriminate].
  intros [= <-]. exists n. split; [reflexivity | exact (int_of_not_negative x n Hx Hn)].
Qed.

Lemma scaled_not_negative (known v : Value) (m : positive) (e : Z) :
  is_positive known = true ->
  scaled known (S754_finite false m e) = Some v ->
  exists n, v = VInt n /\ 0 <= n.
Proof.
  unfold scaled, py_mul_float, float_of_int.
  destruct known as [|z|f|s]; cbn [is_positive]; intros Hp; try discriminate Hp.
  - apply Z.ltb_lt in Hp.
    pose proof (float_of_Z_not_negative z ltac:(lia)) as Hz.
    destruct (float_of_Z z) as [s|s| |s mz ez] eqn:Ez; cbn [mbind Res_bind];
      try discriminate.
    + apply truncated_not_negative, fmul_not_negative, Hz.
    + apply truncated_not_negative, fmul_not_negative, Hz.
  - cbn [mbind Res_bind].
    apply truncated_not_negative, fmul_not_negative, positive_not_negative, Hp.
Qed.

(** X15.  What the heuristic writes is an integer and is not negative: it can
    be zero, as [int(1 * 0.2)] is. *)
Theorem heuristic_estimates_not_negative (current_year : Z)
    (row : gmap string Value) (missing : list string) (est : gmap string Value)
    (col : string) (v : Value) :
  _simple_estimate current_year row missing = Ok est ->
  est !! col = Some v ->
  exists n, v = VInt n /\ 0 <= n.
Proof.
  intros Hest Hv.
  apply simple_estimate_entries in Hest
    as (cp & p24 & pall & _ & _ & _ & H24 & Hcur & Hall & Hother).
  cbn zeta in H24, Hcur, Hall.
  destruct (age_factors_positive (heuristic_age current_year row))
    as (m1 & e1 & m2 & e2 & Hf).
  rewrite Hf in H24, Hcur, Hall. cbn [fst snd] in H24, Hcur, Hall.
  destruct (decide (col = col_peak_24h)) as [->|N1].
  { rewrite H24 in Hv. destruct (str_in "peak_24h" missing); [|discriminate Hv].
    destruct (fltb fzero cp) eqn:Hcp.
    - revert Hv. apply truncated_not_negative, fdiv_not_negative,
        positive_not_negative, Hcp.
    - destruct (fltb fzero pall) eqn:Hpall; [|discriminate Hv].
      revert Hv. apply truncated_not_negative, fdiv_not_negative,
        positive_not_negative, Hpall. }
  destruct (decide (col = col_current_players)) as [->|N2].
  { rewrite Hcur in Hv.
    destruct (str_in "current_players" missing); [|discriminate Hv]. cbn [andb] in Hv.
    destruct (is_positive _) eqn:Hp; [|discriminate Hv].
    exact (scaled_not_negative _ _ _ _ Hp Hv). }
  destruct (decide (col = col_peak_alltime)) as [->|N3].
  { rewrite Hall in Hv.
    destruct (str_in "peak_alltime" missing); [|discriminate Hv]. cbn [andb] in Hv.
    destruct (is_positive _) eqn:Hp; [|discriminate Hv].
    exact (scaled_not_negative _ _ _ _ Hp Hv). }
  rewrite (Hother col N1 N2 N3) in Hv. discriminate Hv.
Qed.

Lemma heuristic_estimates_not_negative_witness :
  exists n, VInt 0 = VInt n /\ 0 <= n.
Proof.
  apply (heuristic_estimates_not_negative 2025 quiet_title ["current_players"]
           (<[col_current_players := VInt 0]> ∅) col_current_players (VInt 0)).
  - vm_compute. reflexivity.
  - reflexivity.
Defined.

(** *** The price read in a text *)

Lemma span_digits_chars (l : list ascii) :
  forallb is_digit (fst (span_digits l)) = true.
Proof.
  induction l as [|c l IH]; cbn [span_digits]; [reflexivity|].
  destruct (is_digit c) eqn:Hc; [|reflexivity].
  destruct (span_digits l) as [ds r]. cbn [fst forallb] in *. rewrite Hc, IH. reflexivity.
Qed.

Lemma digits_are_digit_or_point (ds : list ascii) :
  forallb is_digit ds = true -> forallb digit_or_point ds = true.
Proof.
  induction ds as [|c ds IH]; cbn [forallb]; [reflexivity|].
  intros H. apply andb_prop in H as [Hc Hd]. unfold digit_or_point at 1.
  rewrite Hc, (IH Hd). reflexivity.
Qed.

Lemma first_number_chars (l n : list ascii) :
  first_number l = Some n -> forallb digit_or_point n = true.
Proof.
  induction l as [|c l IH]; [discriminate|].
  cbn [first_number]. destruct (is_digit c) eqn:Hc; [|exact IH].
  pose proof (span_digits_chars (c :: l)) as Hd.
  destruct (span_digits (c :: l)) as [ds r]. cbn [fst] in Hd.
  destruct r as [|p r'].
  - intros [= <-]. apply digits_are_digit_or_point, Hd.
  - destruct (Ascii.eqb p ".") eqn:Hp.
    + intros [= <-]. rewrite forallb_app. cbn [forallb].
      rewrite (digits_are_digit_or_point _ Hd).
      unfold digit_or_point at 1. rewrite Hp, orb_true_r.
      rewrite (digits_are_digit_or_point _ (span_digits_chars r')). reflexivity.
    + intros [= <-]. apply digits_are_digit_or_point, Hd.
Qed.

Lemma digit_or_point_plain (c : ascii) :
  digit_or_point c = true ->
  is_cspace c = false
  /\ Ascii.eqb c "_" = false
  /\ Ascii.eqb c "-" = false
  /\ Ascii.eqb c "+" = false
  /\ Ascii.eqb (lower_char c) "i" = false
  /\ Ascii.eqb (lower_char c) "n" = false.
Proof.
  destruct c as [[] [] [] [] [] [] [] []]; vm_compute; intros H;
    first [ discriminate H | repeat split ].
Qed.

Lemma drop_underscores_plain (l : list ascii) :
  forallb digit_or_point l = true ->
  forall prev, Ascii.eqb prev "_" = false -> drop_underscores prev l = Some l.
Proof.
  induction l as [|c l IH]; intros Hl prev Hp; cbn [drop_underscores].
  - rewrite Hp. reflexivity.
  - cbn [forallb] in Hl. apply andb_prop in Hl as [Hc Hl].
    destruct (digit_or_point_plain c Hc) as (_ & Hu & _).
    rewrite Hu, Hp. cbn [andb]. rewrite (IH Hl c Hu). reflexivity.
Qed.

Lemma float_of_decimal_not_negative (m e : Z) :
  not_negative (float_of_decimal false m e) = true.
Proof.
  unfold float_of_decimal. destruct m as [|p|p]; try reflexivity.
  assert (Hn : forall z, 0 < z -> not_negative (binary_normalize prec emax z 0 false) = true).
  { intros z Hz. apply (float_of_Z_not_negative z). lia. }
  destruct e as [|k|k].
  - apply Hn. lia.
  - apply Hn. pose proof (Z.pow_pos_nonneg 10 (Z.pos k)). lia.
  - apply (fdiv_not_negative (S754_finite false p 0)). reflexivity.
Qed.

Lemma parse_number_not_negative (l : list ascii) (f : float) :
  parse_number false l = Some f -> not_negative f = true.
Proof.
  unfold parse_number. destruct (span_digits l) as [ip r1].
  destruct (match r1 with
            | c :: r => if Ascii.eqb c "." then span_digits r else ([], r1)
            | [] => ([], r1)
            end) as [fp r2].
  destruct (ip ++ fp)%list as [|d ds]; [discriminate|].
  destruct (parse_exponent r2) as [ex [|x xs]]; [|discriminate].
  intros [= <-]. apply float_of_decimal_not_negative.
Qed.

(** A text of digits and points that [float] reads is read as a number
    that is not negative. *)
Lemma float_of_plain_text (s : string) (f : float) :
  forallb digit_or_point (list_ascii_of_string s) = true ->
  float_of_string s = Ok f ->
  not_negative f = true.
Proof.
  intros Hs. unfold float_of_string.
  assert (Hns : Forall (fun c => is_cspace c = false) (list_ascii_of_string s)).
  { apply List.Forall_forall. intros c Hc. rewrite forallb_forall in Hs.
    apply (digit_or_point_plain c (Hs c Hc)). }
  rewrite (lstrip_by_id _ _ Hns), (rstrip_by_id _ _ Hns).
  rewrite (drop_underscores_plain _ Hs "000"%char eq_refl).
  unfold parse_float_ascii.
  destruct (list_ascii_of_string s) as [|c l] eqn:Hl.
  - cbn. discriminate.
  - cbn [forallb] in Hs. apply andb_prop in Hs as [Hc _].
    destruct (digit_or_point_plain c Hc) as (_ & _ & Hm & Hp & Hi & Hn).
    cbn [take_sign]. rewrite Hm, Hp.
    cbn [string_of_list_ascii lower String.eqb].
    rewrite Hi, Hn. cbn [orb].
    destruct (parse_number false (c :: l)) as [f'|] eqn:Hf; [|discriminate].
    intros [= <-]. exact (parse_number_not_negative _ _ Hf).
Qed.

Lemma number_in_price_not_negative (v : Value) : not_negative (number_in_price v) = true.
Proof.
  unfold number_in_price.
  destruct (first_number (list_ascii_of_string (py_str v))) as [n|] eqn:Hn;
    [|reflexivity].
  destruct (float_of_string (string_of_list_ascii n)) as [f|] eqn:Hf; [|reflexivity].
  cbn [try_or]. apply (float_of_plain_text (string_of_list_ascii n)); [|exact Hf].
  rewrite list_ascii_of_string_of_list_ascii. exact (first_number_chars _ _ Hn).
Qed.

(** X16.  The price the two extractors read in a record is a number and is not
    negative, whatever the cell holds: the digits of the text are read,
    and a sign before them is not. *)
Theorem price_feature_not_negative :
  (forall price_str, not_negative (Trainer.extract_price price_str) = true)
  /\ (forall current_year df_row features,
        _extract_features_for_prediction current_year df_row = Ok features ->
        exists price_numeric,
          features !! "price_numeric" = Some (VFloat price_numeric)
          /\ not_negative price_numeric = true)
  /\ number_in_price (VStr "-$5.00") = float_of_Z 5.
Proof.
  split; [|split].
  - intros v. unfold Trainer.extract_price.
    destruct (pd_isna v || str_in _ _); [reflexivity | apply number_in_price_not_negative].
  - intros current_year df_row features. unfold _extract_features_for_prediction.
    destruct (float_cell df_row col_playtime_avg) as [avg|]; [|discriminate].
    destruct (float_cell df_row col_playtime_median) as [med|]; [|discriminate].
    destruct (float_cell df_row col_current_players) as [cur|]; [|discriminate].
    destruct (float_cell df_row col_peak_24h) as [p24|]; [|discriminate].
    destruct (float_cell df_row col_peak_alltime) as [pall|]; [|discriminate].
    cbn [mbind Res_bind].
    destruct (if fltb fzero p24 then _ else _) as [ar hg].
    intros [= <-]. eexists. split.
    + repeat first [ rewrite lookup_insert_eq | rewrite lookup_insert_ne by str_ne ].
      reflexivity.
    + destruct (py_truthy _ && negb _);
        [apply number_in_price_not_negative | reflexivity].
  - vm_compute. reflexivity.
Qed.

(** ** What the providers supply *)

(** *** The classifier on the numbers supplied *)

Lemma supplied_number_read (v : Value) (kind : string) :
  supplied_number v = true ->
  str_in kind numeric_types = true ->
  is_field_missing v kind = is_Raise (py_float v).
Proof.
  intros Hv Hk. unfold is_field_missing.
  destruct v as [|z|f|s]; cbn [supplied_number] in Hv; try discriminate Hv.
  - cbn [pd_isna]. rewrite Hk. cbn [py_float]. unfold float_of_int.
    apply negb_true_iff, Z.eqb_neq in Hv.
    destruct (float_of_Z_nonzero z Hv) as [Hs _].
    destruct (float_of_Z z) as [s|s| |s m e]; try contradiction; try reflexivity.
    destruct s; reflexivity.
  - destruct (positive_not_zero_nor_nan f Hv) as [Hz Hn].
    cbn [pd_isna]. rewrite Hn, Hk. cbn [py_float is_Raise]. rewrite Hz, Hn. reflexivity.
Qed.

Lemma gt0_supplied_number (v : Value) :
  truthy_and_gt0 v = Ok true -> supplied_number v = true.
Proof.
  unfold truthy_and_gt0. destruct (py_truthy v) eqn:Ht; [|discriminate].
  destruct v as [|z|f|s]; cbn [py_gt0 supplied_number]; try discriminate.
  - intros [= H]. apply Z.ltb_lt in H. apply negb_true_iff, Z.eqb_neq. lia.
  - intros [= H]. exact H.
Qed.

Lemma supply_positive_value (missing : list string) (field k : string)
    (o : option Value) (d d' : gmap string Value) (col : string) (v : Value) :
  supply_positive missing field k o d = Ok d' ->
  d' !! col = Some v ->
  d !! col = Some v \/ supplied_number v = true.
Proof.
  unfold supply_positive. destruct (str_in field missing); [|intros [= <-]; tauto].
  destruct (truthy_and_gt0 (or_zero o)) as [[]|] eqn:Hg; cbn [mbind Res_bind];
    intros [= <-]; [|tauto].
  destruct (decide (k = col)) as [->|Hne].
  - rewrite lookup_insert_eq. intros [= <-]. right. apply gt0_supplied_number, Hg.
  - rewrite lookup_insert_ne by exact Hne. tauto.
Qed.

Lemma fetch_steamspy_value (w : World) (missing : list string)
    (d d' : gmap string Value) (col : string) (v : Value) :
  fetch_steamspy w missing d = Ok d' ->
  d' !! col = Some v ->
  d !! col = Some v \/ supplied_number v = true.
Proof.
  unfold fetch_steamspy.
  destruct (existsb _ missing); [|intros [= <-]; tauto].
  destruct (w_steamspy w) as [sd|]; [|intros [= <-]; tauto].
  destruct (supply_positive missing "playtime_avg" _ _ d) as [d1|] eqn:E1; [|discriminate].
  cbn [mbind Res_bind].
  destruct (supply_positive missing "playtime_median" _ _ d1) as [d2|] eqn:E2; [|discriminate].
  cbn [mbind Res_bind].
  destruct (supply_positive missing "current_players" _ _ d2) as [d3|] eqn:E3; [|discriminate].
  cbn [mbind Res_bind]. intros E4 Hv.
  destruct (supply_positive_value _ _ _ _ _ _ col v E4 Hv) as [H3|?]; [|tauto].
  destruct (supply_positive_value _ _ _ _ _ _ col v E3 H3) as [H2|?]; [|tauto].
  destruct (supply_positive_value _ _ _ _ _ _ col v E2 H2) as [H1|?]; [|tauto].
  exact (supply_positive_value _ _ _ _ _ _ col v E1 H1).
Qed.

Lemma steamcharts_values (w : World) :
  match get_steamcharts_data w with
  | (peak_24h, peak_alltime) =>
      (forall v, peak_24h = Some v -> supplied_number v = true)
      /\ (forall v, peak_alltime = Some v -> supplied_number v = true)
  end.
Proof.
  unfold get_steamcharts_data.
  assert (Hccu : forall c, positive_ccu (w_steamspy_again w) = Ok (Some c) ->
                           supplied_number c = true).
  { intros c Hc. apply positive_ccu_Some in Hc as (sd & _ & _ & Hg).
    apply gt0_supplied_number, Hg. }
  destruct (w_charts w) as [|peaks|].
  - destruct (positive_ccu (w_steamspy_again w)) as [[c|]|e] eqn:Hc;
      (split; intros v [= <-]). apply Hccu. reflexivity.
  - destruct (highest_peak peaks) as [p|]; [|split; intros v [= ]].
    destruct (p =? 0) eqn:Hp; [split; intros v [= ]|].
    destruct (positive_ccu (w_steamspy_again w)) as [[c|]|e] eqn:Hc;
      split; intros v [= <-]; try (apply Hccu; reflexivity);
      cbn [supplied_number]; rewrite Hp; reflexivity.
  - split; intros v [= ].
Qed.

Lemma fetch_steamcharts_value (w : World) (missing : list string)
    (d : gmap string Value) (col : string) (v : Value) :
  fetch_steamcharts w missing d !! col = Some v ->
  d !! col = Some v \/ supplied_number v = true.
Proof.
  unfold fetch_steamcharts.
  destruct (str_in "peak_alltime" missing || str_in "peak_24h" missing); [|tauto].
  pose proof (steamcharts_values w) as Hs.
  destruct (get_steamcharts_data w) as [p24 pall]. destruct Hs as [H24 Hall].
  set (d1 := match p24 with
             | Some v0 => if str_in "peak_24h" missing && py_truthy v0
                             && bool_decide (d !! col_peak_24h = None)
                          then <[col_peak_24h := v0]> d else d
             | None => d
             end).
  assert (H1 : d1 !! col = Some v -> d !! col = Some v \/ supplied_number v = true).
  { subst d1. destruct p24 as [v0|]; [|tauto].
    destruct (str_in "peak_24h" missing && py_truthy v0
              && bool_decide (d !! col_peak_24h = None)); [|tauto].
    destruct (decide (col_peak_24h = col)) as [<-|Hne].
    - rewrite lookup_insert_eq. intros [= <-]. right. apply H24. reflexivity.
    - rewrite lookup_insert_ne by exact Hne. tauto. }
  destruct pall as [va|]; [|exact H1].
  destruct (str_in "peak_alltime" missing && py_truthy va); [|exact H1].
  destruct (decide (col_peak_alltime = col)) as [<-|Hne].
  - rewrite lookup_insert_eq. intros [= <-]. right. apply Hall. reflexivity.
  - rewrite lookup_insert_ne by exact Hne. exact H1.
Qed.

Lemma numeric_column (col kind : string) :
  In (col, kind) critical_fields -> str_in kind numeric_types = true ->
  col <> col_release_date /\ col <> col_price.
Proof.
  cbn [critical_fields In].
  intros [H | [H | [H | [H | [H | [H | [H | []]]]]]]]; injection H as <- <-;
    intros Hk; try (vm_compute in Hk; discriminate Hk); split; intros E;
    vm_compute in E; discriminate E.
Qed.

(** X26.  What external completion supplies for a play time or a player count
    is a number that is not zero, and the classifier calls it missing only
    when [float()] raises on it: an integer out of the range of the
    floats.  An integer below [2^1023] in absolute value, and every
    float, is classified present. *)
Theorem supplied_numbers_classified (w : World) (missing : list string)
    (sup : gmap string Value) (col kind : string) (v : Value) :
  fetch_missing_data w missing = Ok sup ->
  sup !! col = Some v ->
  In (col, kind) critical_fields ->
  str_in kind numeric_types = true ->
  supplied_number v = true
  /\ is_field_missing v kind = is_Raise (py_float v)
  /\ (is_field_missing v kind = true -> exists z, v = VInt z /\ 2 ^ 1023 <= Z.abs z).
Proof.
  intros Hf Hv Hk Hn.
  assert (Hs : supplied_number v = true).
  { revert Hf Hv. unfold fetch_missing_data.
    destruct (fetch_steamspy w missing (fetch_store w missing ∅)) as [d2|] eqn:E2;
      [|discriminate].
    cbn [mbind Res_bind]. intros [= <-] Hv.
    destruct (fetch_steamcharts_value w missing d2 col v Hv) as [H2|?]; [|assumption].
    destruct (fetch_steamspy_value w missing _ d2 col v E2 H2) as [H1|?]; [|assumption].
    exfalso. destruct (numeric_column col kind Hk Hn) as [Nd Np].
    destruct (fetch_store_frame w missing ∅ col) as [H | [[H _] | [H _]]];
      [|contradiction|contradiction].
    rewrite H, lookup_empty in H1. discriminate H1. }
  split; [exact Hs|].
  pose proof (supplied_number_read v kind Hs Hn) as Hr.
  split; [exact Hr|].
  rewrite Hr. destruct v as [|z|f|s]; cbn [supplied_number] in Hs; try discriminate Hs.
  - intros Hraise. exists z. split; [reflexivity|].
    apply negb_true_iff, Z.eqb_neq in Hs.
    destruct (float_of_Z_nonzero z Hs) as [_ Hfin].
    destruct (Z_lt_le_dec (Z.abs z) (2 ^ 1023)) as [Hlt|Hge]; [|exact Hge].
    exfalso. destruct (Hfin Hlt) as (m & e & Hm).
    cbn [py_float] in Hraise. unfold float_of_int in Hraise. rewrite Hm in Hraise.
    discriminate Hraise.
  - discriminate.
Qed.

Lemma supplied_numbers_classified_witness :
  supplied_number (VInt 900) = true
  /\ is_field_missing (VInt 900) "peak_alltime" = is_Raise (py_float (VInt 900))
  /\ (is_field_missing (VInt 900) "peak_alltime" = true ->
      exists z, VInt 900 = VInt z /\ 2 ^ 1023 <= Z.abs z).
Proof.
  apply (supplied_numbers_classified answering_world ["peak_24h"; "peak_alltime"]
           (<[col_peak_alltime := VInt 900]> (<[col_peak_24h := VInt 70]> ∅))
           col_peak_alltime "peak_alltime" (VInt 900)).
  - vm_compute. reflexivity.
  - reflexivity.
  - cbn. tauto.
  - reflexivity.
Defined.

(** *** What was supplied stays *)

(** X27.  A value that external completion supplies and that the classifier
    calls present is the value the record ends with, when the frame takes
    every value supplied, kept or not, and when the record is kept:
    neither an estimate nor the fill of the price with ['Free'] takes its
    place. *)
Theorem supplied_value_stays (dtypes : Dtypes) (ml_models : gmap string ModelInfo)
    (current_year : Z)
    (w : World) (row sup : gmap string Value) (col kind : string) (v : Value) :
  fetch_missing_data w (missing_fields_of row) = Ok sup ->
  sup !! col = Some v ->
  In (col, kind) critical_fields ->
  is_field_missing v kind = false ->
  takes dtypes sup \/ o_deleted (clean_record dtypes ml_models current_year w row) = 0%nat ->
  o_row (clean_record dtypes ml_models current_year w row) !! col = Some v.
Proof.
  intros Hf Hv Hk Hp Hwritten.
  destruct (fetch_only_asked w _ sup col Hf (mk_is_Some _ _ Hv)) as (kind' & Hk' & Hl).
  assert (kind' = kind).
  { apply assoc_of_In in Hk, Hk'. rewrite Hk in Hk'. injection Hk' as <-. reflexivity. }
  subst kind'.
  destruct (clean_record_shape dtypes ml_models current_year w row)
    as [[Hnil _] | [(_ & e & He & _) | [(Hpr & sup' & Hf' & Hnone & _)
        | (_ & sup' & Hf' & _ & H)]]].
  - rewrite Hnil in Hl. discriminate Hl.
  - rewrite Hf in He. discriminate He.
  - exfalso. rewrite Hf in Hf'. injection Hf' as <-.
    rewrite Hpr in Hl. cbn in Hl. rewrite orb_false_r in Hl.
    apply String.eqb_eq in Hl. subst kind.
    rewrite (kind_names_column col col_price "price" Hk ltac:(cbn; tauto)) in Hv.
    rewrite Hnone in Hv. discriminate Hv.
  - rewrite Hf in Hf'. injection Hf' as <-. cbn zeta in H.
    set (row1 := sup ∪ row) in *.
    set (still := still_missing_of row1 (missing_fields_of row)) in *.
    assert (Hrow1 : row1 !! col = Some v) by (apply lookup_union_Some_l, Hv).
    assert (Hnot : ~ In col still).
    { intros Hin. apply still_missing_inv in Hin as (k & Hck & _ & Hm).
      assert (k = kind).
      { apply assoc_of_In in Hk, Hck. rewrite Hk in Hck. injection Hck as <-. reflexivity. }
      subst k. unfold cell in Hm. rewrite Hrow1 in Hm.
      change (default (VFloat fnan) (Some v)) with v in Hm. congruence. }
    assert (Hfinish : forall r s d log,
               r !! col = Some v -> (forall f, In f s -> In f still) ->
               o_row (finish dtypes r s d log) !! col = Some v).
    { intros r s d log Hr Hsub. rewrite finish_row.
      destruct (bool_decide (s = [col_price])) eqn:Hs; [|exact Hr].
      destruct (bool_decide (dtypes col_price (VStr "Free") = None)); [|exact Hr].
      cbn [andb]. apply bool_decide_eq_true_1 in Hs.
      rewrite lookup_insert_ne; [exact Hr|].
      intros <-. apply Hnot, Hsub. rewrite Hs. left. reflexivity. }
    destruct H as [(e & Href & _ & Hd & _)
                  | (_ & [(_ & log & _ & _ & Ho) | [(_ & _ & log & _ & _ & Ho)
                     | [(_ & _ & e & _ & Hr & _) | (_ & _ & est & He & Hw)]]])].
    + exfalso. destruct Hwritten as [Htakes | Hkept].
      * exact (takes_not_refuses _ _ _ Htakes Href).
      * rewrite Hd in Hkept. discriminate Hkept.
    + rewrite Ho. apply Hfinish; [exact Hrow1 | tauto].
    + rewrite Ho. apply Hfinish; [exact Hrow1 | tauto].
    + rewrite Hr. exact Hrow1.
    + assert (Hnoest : est !! col = None).
      { destruct (est !! col) as [ve|] eqn:Hest; [|reflexivity]. exfalso.
        destruct (estimate_only_listed _ _ _ _ _ _ _ He Hest) as (target & Hcl & Ht).
        apply types_of_inv in Ht as (f & Hfin & Hft).
        pose proof (cluster_critical _ _ Hcl) as Hct.
        rewrite (kind_names_column f col target Hft Hct) in Hfin.
        apply List.filter_In in Hfin as [Hfin _]. exact (Hnot Hfin). }
      destruct Hw as [(e & _ & Hframe & _) | (_ & log & _ & Ho)].
      * destruct (Hframe col) as [Hc | [[x Hx] _]]; [rewrite Hc; exact Hrow1|].
        rewrite Hnoest in Hx. discriminate Hx.
      * rewrite Ho. apply Hfinish.
        -- rewrite lookup_union_r by exact Hnoest. exact Hrow1.
        -- intros f. apply apply_estimates_sub.
Qed.

Lemma supplied_value_stays_witness :
  o_row (clean_record open_frame ∅ 2025 answering_world old_title) !! col_peak_alltime
  = Some (VInt 900).
Proof.
  apply (supplied_value_stays open_frame ∅ 2025 answering_world old_title
           (<[col_peak_alltime := VInt 900]> (<[col_peak_24h := VInt 70]> ∅))
           col_peak_alltime "peak_alltime" (VInt 900)).
  - vm_compute. reflexivity.
  - reflexivity.
  - cbn. tauto.
  - reflexivity.
  - left. intros c x _. reflexivity.
Defined.

(** ** Cells that do not read as numbers *)

Lemma float_cell_raises (row : gmap string Value) (col : string) :
  is_Raise (float_cell row col) = true <-> unreadable row col.
Proof.
  unfold float_cell, unreadable, py_or. split.
  - destruct (row !! col) as [v|].
    + change (default (VInt 0) (Some v)) with v.
      destruct (py_truthy v) eqn:Ht.
      * intros H. exists v. split; [reflexivity|]. split; [exact Ht | exact H].
      * cbn. discriminate.
    + cbn. discriminate.
  - intros (v & -> & Ht & Hr). change (default (VInt 0) (Some v)) with v.
    rewrite Ht. exact Hr.
Qed.

(** X17.  With a model bank that is not empty, estimation raises exactly when
    one of the five numeric cells of the record does not read as a number.
    Nothing a model does makes it raise: each prediction is made inside a
    [try] block of its own. *)
Theorem model_estimation_raises (ml_models : gmap string ModelInfo)
    (current_year : Z) (row : gmap string Value) (missing : list string) :
  ml_models <> ∅ ->
  (is_Raise (estimate_player_fields ml_models current_year row missing) = true
   <-> exists col, In col numeric_columns /\ unreadable row col).
Proof.
  intros Hne. unfold estimate_player_fields.
  rewrite (bool_decide_eq_false_2 _ Hne).
  unfold _extract_features_for_prediction.
  pose proof (float_cell_raises row col_playtime_avg) as H1.
  pose proof (float_cell_raises row col_playtime_median) as H2.
  pose proof (float_cell_raises row col_current_players) as H3.
  pose proof (float_cell_raises row col_peak_24h) as H4.
  pose proof (float_cell_raises row col_peak_alltime) as H5.
  unfold numeric_columns. split.
  - destruct (float_cell row col_playtime_avg) as [avg|];
      [|intros _; exists col_playtime_avg; split; [cbn; tauto | apply H1; reflexivity]].
    destruct (float_cell row col_playtime_median) as [med|];
      [|intros _; exists col_playtime_median; split; [cbn; tauto | apply H2; reflexivity]].
    destruct (float_cell row col_current_players) as [cur|];
      [|intros _; exists col_current_players; split; [cbn; tauto | apply H3; reflexivity]].
    destruct (float_cell row col_peak_24h) as [p24|];
      [|intros _; exists col_peak_24h; split; [cbn; tauto | apply H4; reflexivity]].
    destruct (float_cell row col_peak_alltime) as [pall|];
      [|intros _; exists col_peak_alltime; split; [cbn; tauto | apply H5; reflexivity]].
    cbn [mbind Res_bind]. destruct (if fltb fzero p24 then _ else _) as [ar hg].
    cbn. discriminate.
  - intros (col & Hin & Hu). cbn [In] in Hin.
    destruct (float_cell row col_playtime_avg) as [avg|]; [|reflexivity].
    destruct Hin as [<-|Hin]; [apply H1 in Hu; discriminate Hu|].
    destruct (float_cell row col_playtime_median) as [med|]; [|reflexivity].
    destruct Hin as [<-|Hin]; [apply H2 in Hu; discriminate Hu|].
    destruct (float_cell row col_current_players) as [cur|]; [|reflexivity].
    destruct Hin as [<-|Hin]; [apply H3 in Hu; discriminate Hu|].
    destruct (float_cell row col_peak_24h) as [p24|]; [|reflexivity].
    destruct Hin as [<-|Hin]; [apply H4 in Hu; discriminate Hu|].
    destruct (float_cell row col_peak_alltime) as [pall|]; [|reflexivity].
    destruct Hin as [<-|[]]. apply H5 in Hu. discriminate Hu.
Qed.

Lemma model_estimation_raises_witness :
  is_Raise (estimate_player_fields one_model_bank 2025 mistyped_title ["peak_24h"]) = true.
Proof.
  apply (model_estimation_raises one_model_bank 2025 mistyped_title ["peak_24h"]).
  - intros H. apply (f_equal (fun m : gmap string ModelInfo => m !! "peak_24h")) in H.
    vm_compute in H. discriminate H.
  - exists col_peak_24h. split; [cbn; tauto|].
    exists (VStr "unknown"). repeat split.
Defined.

(** ** The features of the two extractors *)

Lemma zero_only_eq_zero (f : float) :
  feqb f fzero = true -> exists s, f = S754_zero s.
Proof.
  destruct f as [s | s | | s m e]; cbn.
  - intros _. exists s. reflexivity.
  - destruct s; discriminate.
  - discriminate.
  - destruct s; discriminate.
Qed.

(** The age the two extractors read in a release date. *)
Lemma game_age_agrees (current_year : Z) (v : Value) :
  (if py_truthy v && negb (py_in_strs v ["N/A"; "Coming Soon"; "TBA"; ""])
   then age_from_date current_year v (-1) else -1)
  = Trainer.calculate_game_age current_year v.
Proof.
  unfold Trainer.calculate_game_age.
  destruct v as [|z|f|s]; cbn [py_truthy pd_isna py_in_strs orb andb negb].
  - reflexivity.
  - destruct (Z.eqb_spec z 0) as [->|_]; reflexivity.
  - destruct (feqb f fzero) eqn:Hz.
    + destruct (zero_only_eq_zero f Hz) as [[] ->]; reflexivity.
    + destruct f; try reflexivity.
  - destruct (String.eqb_spec s "") as [->|_]; [reflexivity|].
    cbn [negb andb]. destruct (existsb _ _); reflexivity.
Qed.

Lemma is_free_agrees (v : Value) :
  (if str_in (lower (py_str v)) ["free"; "免费"] then 1 else 0) = Trainer.is_free_of v.
Proof.
  unfold Trainer.is_free_of.
  destruct v as [|z|f|s]; cbn [pd_isna negb andb]; try reflexivity.
  destruct f; reflexivity.
Qed.

Lemma price_numeric_agrees (v : Value) :
  (if py_truthy v
      && negb (str_in (lower (py_str v)) ["free"; "免费"; "n/a"; ""])
   then number_in_price v else fzero)
  = Trainer.extract_price v.
Proof.
  unfold Trainer.extract_price.
  destruct v as [|z|f|s]; cbn [py_truthy pd_isna orb andb negb].
  - reflexivity.
  - destruct (Z.eqb_spec z 0) as [->|_]; [reflexivity|].
    cbn [negb andb]. destruct (str_in _ _); reflexivity.
  - destruct (feqb f fzero) eqn:Hz.
    + destruct (zero_only_eq_zero f Hz) as [[] ->]; reflexivity.
    + cbn [negb andb]. destruct f; try reflexivity;
        destruct (str_in _ _); reflexivity.
  - destruct (String.eqb_spec s "") as [->|_]; [reflexivity|].
    cbn [negb andb]. destruct (str_in _ _); reflexivity.
Qed.

(** X19.  On a record the two extractors both go through, they agree on the
    features read off the texts: the age in years, the free flag, and the
    price.  The trainer keeps them as floats. *)
Theorem text_features_agree (read_text : Trainer.ReadText) (current_year : Z)
    (row feats : gmap string Value) (r : gmap string float) :
  _extract_features_for_prediction current_year row = Ok feats ->
  Trainer.extract_row read_text current_year row = Ok r ->
  exists (age free : Z) (price : float),
    feats !! "game_age_years" = Some (VInt age)
    /\ r !! "game_age_years" = Some (float_of_Z age)
    /\ feats !! "is_free" = Some (VInt free)
    /\ r !! "is_free" = Some (float_of_Z free)
    /\ feats !! "price_numeric" = Some (VFloat price)
    /\ r !! "price_numeric" = Some price.
Proof.
  unfold _extract_features_for_prediction, Trainer.extract_row, Trainer.column.
  destruct (row !! col_release_date) as [date|]; [|discriminate 2].
  destruct (row !! col_price) as [price|]; [|discriminate 2].
  cbn [default].
  destruct (float_cell row col_playtime_avg) as [avg|]; [|discriminate].
  destruct (float_cell row col_playtime_median) as [med|]; [|discriminate].
  destruct (float_cell row col_current_players) as [cur|]; [|discriminate].
  destruct (float_cell row col_peak_24h) as [p24|]; [|discriminate].
  destruct (float_cell row col_peak_alltime) as [pall|]; [|discriminate].
  cbn [mbind Res_bind].
  rewrite game_age_agrees, is_free_agrees, price_numeric_agrees.
  destruct (if fltb fzero p24 then _ else _) as [ar hg].
  intros [= <-].
  destruct (row !! col_playtime_avg); [|discriminate].
  destruct (row !! col_playtime_median); [|discriminate].
  destruct (row !! col_current_players); [|discriminate].
  destruct (row !! col_peak_24h); [|discriminate].
  destruct (row !! col_peak_alltime); [|discriminate].
  cbn [mbind Res_bind]. intros [= <-].
  exists (Trainer.calculate_game_age current_year date), (Trainer.is_free_of price),
    (Trainer.extract_price price).
  repeat split;
    repeat first [ rewrite lookup_insert_eq | rewrite lookup_insert_ne by str_ne ];
    reflexivity.
Qed.

Lemma text_features_agree_witness :
  exists (age free : Z) (price : float),
    try_or (_extract_features_for_prediction 2025 cheap_title) ∅ !! "game_age_years"
    = Some (VInt age)
    /\ try_or (Trainer.extract_row no_number 2025 cheap_title) ∅ !! "game_age_years"
       = Some (float_of_Z age)
    /\ try_or (_extract_features_for_prediction 2025 cheap_title) ∅ !! "is_free"
       = Some (VInt free)
    /\ try_or (Trainer.extract_row no_number 2025 cheap_title) ∅ !! "is_free"
       = Some (float_of_Z free)
    /\ try_or (_extract_features_for_prediction 2025 cheap_title) ∅ !! "price_numeric"
       = Some (VFloat price)
    /\ try_or (Trainer.extract_row no_number 2025 cheap_title) ∅ !! "price_numeric" = Some price.
Proof.
  apply (text_features_agree no_number 2025 cheap_title).
  - reflexivity.
  - reflexivity.
Defined.

Lemma extracted_feature_names (current_year : Z) (row feats : gmap string Value)
    (name : string) :
  _extract_features_for_prediction current_year row = Ok feats ->
  (is_Some (feats !! name) <-> In name feature_names).
Proof.
  unfold _extract_features_for_prediction.
  destruct (float_cell row col_playtime_avg) as [avg|]; [|discriminate].
  destruct (float_cell row col_playtime_median) as [med|]; [|discriminate].
  destruct (float_cell row col_current_players) as [cur|]; [|discriminate].
  destruct (float_cell row col_peak_24h) as [p24|]; [|discriminate].
  destruct (float_cell row col_peak_alltime) as [pall|]; [|discriminate].
  cbn [mbind Res_bind].
  destruct (if fltb fzero p24 then _ else _) as [ar hg].
  intros [= <-]. unfold feature_names. split.
  - intros [v Hv]. revert Hv.
    repeat match goal with
           | |- <[?k := _]> _ !! name = Some _ -> _ =>
               destruct (decide (name = k)) as [->|?];
               [intros _; cbn; tauto | rewrite lookup_insert_ne by congruence]
           end.
    rewrite lookup_empty. discriminate.
  - cbn [In]. intros H.
    repeat (destruct H as [<-|H];
            [repeat first [ rewrite lookup_insert_eq
                          | rewrite lookup_insert_ne by str_ne ];
             eexists; reflexivity|]).
    destruct H.
Qed.

Lemma feature_cols_named (target : string) (cols : list string) :
  Trainer.feature_cols_for target = Ok cols ->
  (forall col, In col cols -> In col feature_names /\ ~ In col (derived_from target))
  /\ In target Trainer.targets.
Proof.
  unfold Trainer.feature_cols_for, derived_from.
  destruct (String.eqb_spec target "current_players") as [->|_].
  { intros [= <-]. split; [|cbn; tauto]. intros col Hin. cbn in Hin.
    repeat (destruct Hin as [<-|Hin];
            [split; [cbn; tauto | cbn; intros H; intuition discriminate]|]).
    destruct Hin. }
  destruct (String.eqb_spec target "peak_24h") as [->|_].
  { intros [= <-]. split; [|cbn; tauto]. intros col Hin. cbn in Hin.
    repeat (destruct Hin as [<-|Hin];
            [split; [cbn; tauto | cbn; intros H; intuition discriminate]|]).
    destruct Hin. }
  destruct (String.eqb_spec target "peak_alltime") as [->|_].
  { intros [= <-]. split; [|cbn; tauto]. intros col Hin. cbn in Hin.
    repeat (destruct Hin as [<-|Hin];
            [split; [cbn; tauto | cbn; intros H; intuition discriminate]|]).
    destruct Hin. }
  discriminate.
Qed.

Lemma trained_entry_cols (read_text : Trainer.ReadText) (train_model : Trainer.Fit)
    (current_year : Z)
    (df : list (gmap string Value)) (models : gmap string ModelInfo)
    (target : string) (model_info : ModelInfo) :
  Trainer.train_all_models read_text train_model current_year df = Ok models ->
  models !! target = Some model_info ->
  Trainer.feature_cols_for target = Ok (feature_cols model_info).
Proof.
  unfold Trainer.train_all_models.
  destruct (Trainer.extract_features read_text current_year df) as [feats|];
    [|discriminate].
  cbn [mbind Res_bind Trainer.targets for_each]. intros H.
  destruct (Trainer.train_target train_model feats ∅ "current_players") as [m1|] eqn:E1;
    [|discriminate].
  destruct (Trainer.train_target train_model feats m1 "peak_24h") as [m2|] eqn:E2;
    [|discriminate].
  destruct (Trainer.train_target train_model feats m2 "peak_alltime") as [m3|] eqn:E3;
    [|discriminate].
  injection H as <-.
  apply train_target_entries in E1 as (c1 & Hc1 & H1 & H1f & H1o).
  apply train_target_entries in E2 as (c2 & Hc2 & H2 & H2f & H2o).
  apply train_target_entries in E3 as (c3 & Hc3 & H3 & H3f & H3o).
  cbn zeta in H1, H2, H3, H1f, H2f, H3f. intros Hm.
  destruct (decide (target = "peak_alltime")) as [->|N3].
  { destruct (Nat.lt_ge_cases
                (length (List.filter (Trainer.valid_mask "peak_alltime") feats)) 10)
      as [Hlt|Hge].
    - rewrite (H3 Hlt), H2o, H1o, lookup_empty in Hm by str_ne. discriminate Hm.
    - destruct (H3f Hge) as (fitted & _ & Hs). rewrite Hs in Hm.
      injection Hm as <-. exact Hc3. }
  rewrite (H3o target N3) in Hm.
  destruct (decide (target = "peak_24h")) as [->|N2].
  { destruct (Nat.lt_ge_cases
                (length (List.filter (Trainer.valid_mask "peak_24h") feats)) 10)
      as [Hlt|Hge].
    - rewrite (H2 Hlt), H1o, lookup_empty in Hm by str_ne. discriminate Hm.
    - destruct (H2f Hge) as (fitted & _ & Hs). rewrite Hs in Hm.
      injection Hm as <-. exact Hc2. }
  rewrite (H2o target N2) in Hm.
  destruct (decide (target = "current_players")) as [->|N1].
  { destruct (Nat.lt_ge_cases
                (length (List.filter (Trainer.valid_mask "current_players") feats)) 10)
      as [Hlt|Hge].
    - rewrite (H1 Hlt), lookup_empty in Hm. discriminate Hm.
    - destruct (H1f Hge) as (fitted & _ & Hs). rewrite Hs in Hm.
      injection Hm as <-. exact Hc1. }
  rewrite (H1o target N1), lookup_empty in Hm. discriminate Hm.
Qed.

(** X20.  A model that the trainer has made reads, at prediction time, features
    that the extractor of the cleaner provides, all of them: the default
    of [features_dict.get(col, 0)] is never used on the features first
    extracted.  And it reads neither its own target nor a ratio computed
    from it. *)
Theorem trained_features_available (read_text : Trainer.ReadText)
    (train_model : Trainer.Fit) (y y' : Z)
    (df : list (gmap string Value)) (models : gmap string ModelInfo)
    (target : string) (model_info : ModelInfo)
    (row feats : gmap string Value) :
  Trainer.train_all_models read_text train_model y df = Ok models ->
  models !! target = Some model_info ->
  _extract_features_for_prediction y' row = Ok feats ->
  In target Trainer.targets
  /\ forall col, In col (feature_cols model_info) ->
                 is_Some (feats !! col) /\ ~ In col (derived_from target).
Proof.
  intros Ht Hm Hf.
  pose proof (trained_entry_cols _ _ _ _ _ _ _ Ht Hm) as Hc.
  destruct (feature_cols_named _ _ Hc) as [Hcols Htarget].
  split; [exact Htarget|].
  intros col Hin. destruct (Hcols col Hin) as [Hn Hd].
  split; [apply (extracted_feature_names _ _ _ col Hf), Hn | exact Hd].
Qed.

Lemma trained_features_available_witness :
  In "current_players" Trainer.targets
  /\ forall col,
       In col ["game_age_years"; "is_free"; "price_numeric";
               "playtime_avg"; "playtime_median"; "playtime_price_ratio";
               "peak_24h"; "peak_alltime"; "historical_growth"] ->
       is_Some (try_or (_extract_features_for_prediction 2025 old_title) ∅ !! col)
       /\ ~ In col (derived_from "current_players").
Proof.
  apply (trained_features_available no_number first_value_fit 2025 2025 reference_rows
           (try_or (Trainer.train_all_models no_number first_value_fit 2025
                      reference_rows) ∅)
           "current_players"
           {| model :=
                fun _ =>
                  Ok (hd fzero
                        (training_y "current_players"
                           (List.filter (Trainer.valid_mask "current_players")
                              (try_or (Trainer.extract_features no_number 2025
                                         reference_rows) []))));
              feature_cols :=
                ["game_age_years"; "is_free"; "price_numeric";
                 "playtime_avg"; "playtime_median"; "playtime_price_ratio";
                 "peak_24h"; "peak_alltime"; "historical_growth"] |}
           old_title).
  - reflexivity.
  - reflexivity.
  - reflexivity.
Defined.

(** X21.  A record whose price cell reads [free], in any letter case, or [免费],
    has the free flag set, a price of zero, and for its ratio of play time
    to price the average play time itself, in minutes. *)
Theorem free_title_features (current_year : Z) (row feats : gmap string Value) :
  _extract_features_for_prediction current_year row = Ok feats ->
  feats !! "is_free" = Some (VInt 1) ->
  feats !! "price_numeric" = Some (VFloat fzero)
  /\ feats !! "playtime_price_ratio" = feats !! "playtime_avg".
Proof.
  unfold _extract_features_for_prediction.
  destruct (float_cell row col_playtime_avg) as [avg|]; [|discriminate].
  destruct (float_cell row col_playtime_median) as [med|]; [|discriminate].
  destruct (float_cell row col_current_players) as [cur|]; [|discriminate].
  destruct (float_cell row col_peak_24h) as [p24|]; [|discriminate].
  destruct (float_cell row col_peak_alltime) as [pall|]; [|discriminate].
  cbn [mbind Res_bind].
  destruct (if fltb fzero p24 then _ else _) as [ar hg].
  intros [= <-].
  repeat first [ rewrite lookup_insert_eq | rewrite lookup_insert_ne by str_ne ].
  set (price := default (VStr "") (row !! col_price)).
  destruct (String.eqb (lower (py_str price)) "free");
    [|destruct (String.eqb (lower (py_str price)) "免费")];
    cbn [orb negb]; rewrite ?andb_false_r;
    first [ intros _; split; reflexivity | intros H; discriminate H ].
Qed.

Lemma free_title_features_witness :
  try_or (_extract_features_for_prediction 2025
            (<[col_price := VStr "FREE"]> old_title)) ∅ !! "price_numeric"
  = Some (VFloat fzero)
  /\ try_or (_extract_features_for_prediction 2025
               (<[col_price := VStr "FREE"]> old_title)) ∅ !! "playtime_price_ratio"
     = try_or (_extract_features_for_prediction 2025
                 (<[col_price := VStr "FREE"]> old_title)) ∅ !! "playtime_avg".
Proof.
  apply (free_title_features 2025 (<[col_price := VStr "FREE"]> old_title)).
  - reflexivity.
  - vm_compute. reflexivity.
Defined.

(** ** The model files *)

Lemma load_ml_models_lookup (script_dir : gmap string StoredFile) (target : string) :
  _load_ml_models script_dir !! target
  = assoc target model_files ≫= loadable script_dir.
Proof.
  unfold _load_ml_models, model_files, loadable. cbn [fold_left assoc].
  destruct (String.eqb_spec target "current_players") as [->|H1];
    [|destruct (String.eqb_spec target "peak_24h") as [->|H2];
      [|destruct (String.eqb_spec target "peak_alltime") as [->|H3]]];
    cbn [mbind option_bind];
    destruct (script_dir !! "model_current_players.pkl") as [[m1|]|];
    destruct (script_dir !! "model_peak_24h.pkl") as [[m2|]|];
    destruct (script_dir !! "model_peak_alltime.pkl") as [[m3|]|];
    repeat first [ rewrite lookup_insert_eq
                 | rewrite lookup_insert_ne by (first [str_ne | congruence])
                 | rewrite lookup_empty ];
    reflexivity.
Qed.

(** X22.  The bank [_load_ml_models] builds has, for each of the three targets,
    the entry of the target's file when that file is in the directory and
    loads, and nothing else: a file that is absent or fails to load leaves
    its target out and the other targets as they are.  When none of the
    three loads, the bank is empty and estimation is the heuristic one. *)
Theorem load_ml_models_entries (script_dir : gmap string StoredFile) :
  (forall target,
      _load_ml_models script_dir !! target
      = assoc target model_files ≫= loadable script_dir)
  /\ ((forall target filename,
          In (target, filename) model_files -> loadable script_dir filename = None) ->
      _load_ml_models script_dir = ∅
      /\ forall current_year df_row missing_fields,
           estimate_player_fields (_load_ml_models script_dir) current_year df_row
             missing_fields
           = _simple_estimate current_year df_row missing_fields).
Proof.
  split; [apply load_ml_models_lookup|].
  intros Hnone.
  assert (He : _load_ml_models script_dir = ∅).
  { apply map_eq. intros target. rewrite load_ml_models_lookup, lookup_empty.
    unfold model_files. cbn [assoc].
    destruct (String.eqb target "current_players");
      [apply (Hnone "current_players"); cbn; tauto|].
    destruct (String.eqb target "peak_24h");
      [apply (Hnone "peak_24h"); cbn; tauto|].
    destruct (String.eqb target "peak_alltime");
      [apply (Hnone "peak_alltime"); cbn; tauto|].
    reflexivity. }
  split; [exact He|].
  intros current_year df_row missing_fields. rewrite He.
  unfold estimate_player_fields. rewrite bool_decide_eq_true_2 by reflexivity.
  reflexivity.
Qed.

Lemma load_ml_models_entries_witness :
  _load_ml_models {[ "model_peak_24h.pkl" := OtherFile ]} = ∅
  /\ estimate_player_fields (_load_ml_models {[ "model_peak_24h.pkl" := OtherFile ]})
       2025 old_title ["peak_24h"; "peak_alltime"]
     = _simple_estimate 2025 old_title ["peak_24h"; "peak_alltime"].
Proof.
  destruct (load_ml_models_entries {[ "model_peak_24h.pkl" := OtherFile ]})
    as [_ H].
  destruct H as [He Hs].
  - intros target filename Hin. cbn in Hin.
    destruct Hin as [[= <- <-] | [[= <- <-] | [[= <- <-] | []]]]; reflexivity.
  - split; [exact He | apply Hs].
Defined.

Lemma save_models_lookup (models : gmap string ModelInfo)
    (script_dir : gmap string StoredFile) (target filename : string) :
  In (target, filename) model_files ->
  (forall t, is_Some (models !! t) -> In t Trainer.targets) ->
  Trainer.save_models models script_dir !! filename
  = match models !! target with
    | Some model_info => Some (Pickle model_info)
    | None => script_dir !! filename
    end.
Proof.
  intros Hin. unfold Trainer.save_models. cbn zeta.
  assert (Hname : filename = Trainer.model_path target).
  { cbn in Hin. destruct Hin as [[= <- <-] | [[= <- <-] | [[= <- <-] | []]]]; reflexivity. }
  rewrite !lookup_insert_ne.
  2,3: cbn in Hin; destruct Hin as [[= <- <-] | [[= <- <-] | [[= <- <-] | []]]]; str_ne.
  subst filename.
  apply (map_fold_weak_ind
           (fun (r : gmap string StoredFile) (m : gmap string ModelInfo) =>
              (forall t, is_Some (m !! t) -> In t Trainer.targets) ->
              r !! Trainer.model_path target
              = match m !! target with
                | Some model_info => Some (Pickle model_info)
                | None => script_dir !! Trainer.model_path target
                end)).
  - intros _. rewrite lookup_empty. reflexivity.
  - intros t mi m r Hfresh IH Hdom.
    assert (Ht : In t Trainer.targets).
    { apply Hdom. rewrite lookup_insert_eq. eexists; reflexivity. }
    assert (Hdom' : forall t', is_Some (m !! t') -> In t' Trainer.targets).
    { intros t' [x Hx]. apply Hdom. destruct (decide (t' = t)) as [->|Hne].
      - rewrite Hx in Hfresh. discriminate Hfresh.
      - rewrite lookup_insert_ne by congruence. eexists; exact Hx. }
    specialize (IH Hdom').
    destruct (decide (t = target)) as [->|Hne].
    + rewrite !lookup_insert_eq. reflexivity.
    + rewrite (lookup_insert_ne m) by exact Hne. rewrite <- IH.
      apply lookup_insert_ne.
      cbn in Ht, Hin.
      destruct Ht as [<- | [<- | [<- | []]]];
        destruct Hin as [[= <- _] | [[= <- _] | [[= <- _] | []]]];
        first [ congruence | str_ne ].
Qed.

Lemma trained_targets (read_text : Trainer.ReadText) (train_model : Trainer.Fit)
    (current_year : Z)
    (df : list (gmap string Value)) (models : gmap string ModelInfo) :
  Trainer.train_all_models read_text train_model current_year df = Ok models ->
  forall t, is_Some (models !! t) -> In t Trainer.targets.
Proof.
  unfold Trainer.train_all_models.
  destruct (Trainer.extract_features read_text current_year df) as [feats|];
    [|discriminate].
  cbn [mbind Res_bind Trainer.targets for_each]. intros H.
  destruct (Trainer.train_target train_model feats ∅ "current_players") as [m1|] eqn:E1;
    [|discriminate].
  destruct (Trainer.train_target train_model feats m1 "peak_24h") as [m2|] eqn:E2;
    [|discriminate].
  destruct (Trainer.train_target train_model feats m2 "peak_alltime") as [m3|] eqn:E3;
    [|discriminate].
  injection H as <-.
  apply train_target_entries in E1 as (c1 & _ & _ & _ & H1o).
  apply train_target_entries in E2 as (c2 & _ & _ & _ & H2o).
  apply train_target_entries in E3 as (c3 & _ & _ & _ & H3o).
  intros t [x Hx].
  destruct (decide (t = "peak_alltime")) as [->|N3]; [cbn; tauto|].
  destruct (decide (t = "peak_24h")) as [->|N2]; [cbn; tauto|].
  destruct (decide (t = "current_players")) as [->|N1]; [cbn; tauto|].
  rewrite H3o, H2o, H1o, lookup_empty in Hx by assumption. discriminate Hx.
Qed.

(** X23.  What [save_models] writes after a training run, [_load_ml_models]
    reads back: the bank loaded from the directory is made of the entries
    just trained, and, for a target that the run left without an entry, of
    the entry of a model file that was in the directory before.  Saved
    into a directory without model files, the bank is the trained models. *)
Theorem saved_models_load_back (read_text : Trainer.ReadText)
    (train_model : Trainer.Fit) (current_year : Z)
    (df : list (gmap string Value)) (models : gmap string ModelInfo)
    (script_dir : gmap string StoredFile) :
  Trainer.train_all_models read_text train_model current_year df = Ok models ->
  _load_ml_models (Trainer.save_models models script_dir)
  = models ∪ _load_ml_models script_dir
  /\ _load_ml_models (Trainer.save_models models ∅) = models.
Proof.
  intros Htrain. pose proof (trained_targets _ _ _ _ _ Htrain) as Hdom.
  assert (Hgen : forall dir,
             _load_ml_models (Trainer.save_models models dir)
             = models ∪ _load_ml_models dir).
  { intros dir. apply map_eq. intros target.
    rewrite lookup_union, !load_ml_models_lookup.
    destruct (assoc target model_files) as [filename|] eqn:Ha.
    - assert (Hin : In (target, filename) model_files).
      { unfold model_files in *. cbn [assoc] in Ha.
        repeat match type of Ha with
               | (if String.eqb ?a ?b then _ else _) = _ =>
                   destruct (String.eqb_spec a b) as [->|]
               end; try discriminate Ha; injection Ha as <-; cbn; tauto. }
      cbn [mbind option_bind]. unfold loadable at 1.
      rewrite (save_models_lookup models dir target filename Hin Hdom).
      destruct (models !! target) as [mi|].
      + destruct (loadable dir filename); reflexivity.
      + unfold loadable. destruct (dir !! filename) as [[|]|]; reflexivity.
    - cbn [mbind option_bind].
      destruct (models !! target) as [mi|] eqn:Hm; [|reflexivity].
      exfalso. specialize (Hdom target (mk_is_Some _ _ Hm)).
      unfold model_files in Ha. cbn [assoc] in Ha. cbn in Hdom.
      destruct Hdom as [<- | [<- | [<- | []]]]; discriminate Ha. }
  split; [apply Hgen|].
  rewrite Hgen.
  assert (He : _load_ml_models ∅ = ∅) by reflexivity.
  rewrite He. apply (right_id ∅ (∪)).
Qed.

Lemma saved_models_load_back_witness :
  _load_ml_models
    (Trainer.save_models
       (try_or (Trainer.train_all_models no_number first_value_fit 2025 reference_rows) ∅)
       earlier_run)
  = try_or (Trainer.train_all_models no_number first_value_fit 2025 reference_rows) ∅
    ∪ _load_ml_models earlier_run
  /\ _load_ml_models
       (Trainer.save_models
          (try_or (Trainer.train_all_models no_number first_value_fit 2025
                     reference_rows) ∅) ∅)
     = try_or (Trainer.train_all_models no_number first_value_fit 2025 reference_rows) ∅.
Proof.
  apply (saved_models_load_back no_number first_value_fit 2025 reference_rows).
  reflexivity.
Defined.
